(** * xo-math: vectors, 4x4 matrices and quaternions

    A shallow embedding of the arithmetic kernel of xo-math
    ([Vector2Methods.h], [Vector3.h], [Matrix4x4Methods.h] and
    [Quaternion.cpp]) and the properties of it that the specification
    states.

    Conventions of the embedding.

    - The C++ [float] is an abstract scalar type [F] with the operations the
      sources use on it (class [Scalar]); the calls into the C math library
      are a second interface (class [Libm]).  The functions of the sources
      are written once, over these interfaces.  They are then read at two
      instances: the real numbers (exact arithmetic, the model in which the
      algebraic statements are proved) and IEEE-754 binary32 with rounding
      to nearest even (module [Binary32], where concrete inputs are
      evaluated).
    - A class is a record that is polymorphic in the type of its components:
      [Vector2.t F] is a value, [Vector2.t (option F)] is the storage of an
      object whose components may still be indeterminate ([None]).
      Constructors are storage transformers; their argument [this] is the
      storage before the constructor body runs.
    - A reference out-parameter that the body only writes becomes the result
      of the function; one that the body may leave as it is, is threaded:
      old value in, new value out.
    - The preprocessor switch [XO_SSE] is a boolean argument of the one
      function whose two branches differ in what they assign. *)

From Stdlib Require Import Reals Lra Psatz Bool String List ZArith.
From Stdlib Require Import Floats.SpecFloat.
Import ListNotations.

Set Implicit Arguments.

(** ** The scalar interface *)

Declare Scope scalar_scope.
Delimit Scope scalar_scope with sc.

(** What the sources do with a [float]: literals, the four operations,
    negation, comparisons, [Sqrt] and the absolute value, and the constant
    [FloatEpsilon].  [xo-math.h], which declares [FloatEpsilon], [Sqrt] and
    [CloseEnough], is not among the sources at hand: [FloatEpsilon] is a
    member of the interface, so that nothing is assumed about its value. *)
Class Scalar (F : Type) : Type := {
  lit : Z -> F;               (* an integer-valued literal: 0.0f, 1.0f, 4.0f *)
  half : F;                   (* 0.5f *)
  quarter : F;                (* 0.25f *)
  add : F -> F -> F;
  sub : F -> F -> F;
  mul : F -> F -> F;
  div : F -> F -> F;
  neg : F -> F;
  ltb : F -> F -> bool;       (* a < b *)
  leb : F -> F -> bool;       (* a <= b *)
  eqb : F -> F -> bool;       (* a == b *)
  Abs : F -> F;
  Sqrt : F -> F;
  FloatEpsilon : F
}.

Infix "+" := add : scalar_scope.
Infix "-" := sub : scalar_scope.
Infix "*" := mul : scalar_scope.
Infix "/" := div : scalar_scope.
Notation "- x" := (neg x) : scalar_scope.
Infix "<?" := ltb : scalar_scope.
Infix "<=?" := leb : scalar_scope.
Infix "=?" := eqb : scalar_scope.
Notation "a >? b" := (ltb b a) : scalar_scope.
Notation "a >=? b" := (leb b a) : scalar_scope.
Notation "a !=? b" := (negb (eqb a b)) (at level 70) : scalar_scope.

(** The math library behind [Sin], [Cos], [ATan], [ATan2] and [ACos], and the
    two conversion factors of [xo-math.h]. *)
Class Libm (F : Type) : Type := {
  Sin : F -> F;
  Cos : F -> F;
  ATan : F -> F;
  ATan2 : F -> F -> F;        (* ATan2 y x *)
  ACos : F -> F;
  Deg2Rad : F;
  Rad2Deg : F
}.

Section Closeness.
Context {F : Type} {SF : Scalar F}.
Local Open Scope scalar_scope.

(** Modelled from the spec: [CloseEnough] of [xo-math.h], the closeness
    predicate of the scalar support functions; [CloseEnough x y tolerance]
    holds when [x] is within [tolerance] of [y]. *)
Definition CloseEnough (x y tolerance : F) : bool :=
  Abs (x - y) <=? tolerance.
End Closeness.

(** ** Vector4 *)

Module Vector4.

(** Modelled from the spec: the class [Vector4], whose header is not among
    the sources at hand: four floats [(x, y, z, w)], the storage layout of
    the rows of a [Matrix4x4] and of the components of a [Quaternion], with
    componentwise arithmetic. *)
Record t (A : Type) : Type := mk { x : A; y : A; z : A; w : A }.
Arguments mk {A} _ _ _ _.

Definition map {A B : Type} (f : A -> B) (v : t A) : t B :=
  mk (f (x v)) (f (y v)) (f (z v)) (f (w v)).

Definition defined {A : Type} (v : t A) : t (option A) := map Some v.

Definition indeterminate {A : Type} : t (option A) := mk None None None None.

Definition fully_defined {A : Type} (s : t (option A)) : Prop :=
  exists v : t A, s = defined v.

Section Methods.
Context {F : Type} {SF : Scalar F}.
Local Open Scope scalar_scope.

(** [Vector4(float f)] *)
Definition of_float (f : F) : t F := mk f f f f.

Definition plus (a b : t F) : t F :=
  mk (x a + x b) (y a + y b) (z a + z b) (w a + w b).
Definition minus (a b : t F) : t F :=
  mk (x a - x b) (y a - y b) (z a - z b) (w a - w b).
Definition times (a b : t F) : t F :=
  mk (x a * x b) (y a * y b) (z a * z b) (w a * w b).
Definition times_float (a : t F) (s : F) : t F :=
  mk (x a * s) (y a * s) (z a * s) (w a * s).
Definition div_float (a : t F) (s : F) : t F :=
  mk (x a / s) (y a / s) (z a / s) (w a / s).

Definition Sum (a : t F) : F := x a + y a + z a + w a.

Definition UnitW : t F := mk (lit 0) (lit 0) (lit 0) (lit 1).
Definition One : t F := mk (lit 1) (lit 1) (lit 1) (lit 1).
End Methods.

End Vector4.

(** ** Vector3 ([Vector3.h]) *)

Module Vector3.

(** [union { struct { float x, y, z, w; }; float f[4]; __m128 m; }]: three
    components in a register of four lanes. *)
Record t (A : Type) : Type := mk { x : A; y : A; z : A; w : A }.
Arguments mk {A} _ _ _ _.

Definition map {A B : Type} (f : A -> B) (v : t A) : t B :=
  mk (f (x v)) (f (y v)) (f (z v)) (f (w v)).

Definition defined {A : Type} (v : t A) : t (option A) := map Some v.

Definition indeterminate {A : Type} : t (option A) := mk None None None None.

Definition fully_defined {A : Type} (s : t (option A)) : Prop :=
  exists v : t A, s = defined v.

(** [IDX_X = 0, IDX_Y = 1, IDX_Z = 2, IDX_W = 3] *)
Inductive idx : Set := IDX_X | IDX_Y | IDX_Z | IDX_W.

(** [f[i]] *)
Definition lane {A : Type} (v : t A) (i : idx) : A :=
  match i with IDX_X => x v | IDX_Y => y v | IDX_Z => z v | IDX_W => w v end.

(** *** The SSE intrinsics the header uses, on four lanes *)
Section Intrinsics.
Context {F : Type} {SF : Scalar F}.
Local Open Scope scalar_scope.

(** [_mm_set_ps(e3, e2, e1, e0)]: lane 0 is the last argument. *)
Definition _mm_set_ps (e3 e2 e1 e0 : F) : t F := mk e0 e1 e2 e3.
Definition _mm_set1_ps (f : F) : t F := mk f f f f.
Definition _mm_setzero_ps : t F := mk (lit 0) (lit 0) (lit 0) (lit 0).

Definition lanewise (op : F -> F -> F) (a b : t F) : t F :=
  mk (op (x a) (x b)) (op (y a) (y b)) (op (z a) (z b)) (op (w a) (w b)).
Definition _mm_add_ps : t F -> t F -> t F := lanewise add.
Definition _mm_sub_ps : t F -> t F -> t F := lanewise sub.
Definition _mm_mul_ps : t F -> t F -> t F := lanewise mul.
Definition _mm_div_ps : t F -> t F -> t F := lanewise div.

(** [_mm_hadd_ps(a, b)]: [(a0 + a1, a2 + a3, b0 + b1, b2 + b3)]. *)
Definition _mm_hadd_ps (a b : t F) : t F :=
  mk (x a + y a) (z a + w a) (x b + y b) (z b + w b).

(** [_mm_shuffle_ps(a, b, _MM_SHUFFLE(i3, i2, i1, i0))]: the two low lanes
    are picked from [a], the two high lanes from [b]. *)
Definition _mm_shuffle_ps (a b : t F) (i3 i2 i1 i0 : idx) : t F :=
  mk (lane a i0) (lane a i1) (lane b i2) (lane b i3).

(** [_mm_and_ps(v, MASK)] with [MASK = (0xffffffff, 0xffffffff,
    0xffffffff, 0)]: the three low lanes are kept, the bits of lane 3 are
    cleared, which is the float [0.0f]. *)
Definition and_MASK (v : t F) : t F := mk (x v) (y v) (z v) (lit 0).

(** [_mm_cvtss_f32]: lane 0. *)
Definition _mm_cvtss_f32 (v : t F) : F := x v.
End Intrinsics.

(** *** Constructors *)
Section Constructors.
Context {F : Type} {SF : Scalar F}.

(** [Vector3() : m(_mm_setzero_ps())] *)
Definition ctor_default (this : t (option F)) : t (option F) :=
  defined _mm_setzero_ps.

(** [Vector3(float f) : m(_mm_set1_ps(f))] *)
Definition ctor_float (f : F) (this : t (option F)) : t (option F) :=
  defined (_mm_set1_ps f).

(** [Vector3(float x, float y, float z) : m(_mm_set_ps(0.0f, z, y, x))] *)
Definition ctor_xyz (x0 y0 z0 : F) (this : t (option F)) : t (option F) :=
  defined (_mm_set_ps (lit 0) z0 y0 x0).

(** [Vector3(const Vector3& vec) : m(vec.m)] and
    [Vector3(const __m128& vec) : m(vec)] *)
Definition ctor_copy (vec : t F) (this : t (option F)) : t (option F) :=
  defined vec.
End Constructors.

Section Methods.
Context {F : Type} {SF : Scalar F}.
Local Open Scope scalar_scope.

(** [Epsilon = FloatEpsilon+FloatEpsilon+FloatEpsilon] *)
Definition Epsilon : F := FloatEpsilon + FloatEpsilon + FloatEpsilon.

(** The value a constructor call denotes in an expression. *)
Definition of_xyz (x0 y0 z0 : F) : t F := _mm_set_ps (lit 0) z0 y0 x0.
Definition of_float (f : F) : t F := _mm_set1_ps f.

(** Modelled from the spec: [Vector3(const Vector4&)], which
    [Quaternion.cpp] calls and this header does not declare; narrowing
    drops the trailing component. *)
Definition of_Vector4 (v : Vector4.t F) : t F :=
  of_xyz (Vector4.x v) (Vector4.y v) (Vector4.z v).

(** Modelled from the spec: the operators that the macros
    [VEC3D_SIMPLE_OP(op, intrinsic)] and [VEC3D_SIMPLE_OP_ADD] expand to
    (the macros are not among the sources at hand): the intrinsic applied
    to the two registers, a float operand being broadcast. *)
Definition plus (a b : t F) : t F := _mm_add_ps a b.
Definition minus (a b : t F) : t F := _mm_sub_ps a b.
Definition times (a b : t F) : t F := _mm_mul_ps a b.
Definition divide (a b : t F) : t F := _mm_div_ps a b.
Definition times_float (a : t F) (s : F) : t F := _mm_mul_ps a (_mm_set1_ps s).
Definition div_float (a : t F) (s : F) : t F := _mm_div_ps a (_mm_set1_ps s).

Definition Magnitude (this : t F) : F :=
  let square := and_MASK (_mm_mul_ps this this) in
  let square := _mm_hadd_ps square square in
  let square := _mm_hadd_ps square square in
  Sqrt (_mm_cvtss_f32 square).

Definition MagnitudeSquared (this : t F) : F :=
  let square := and_MASK (_mm_mul_ps this this) in
  let square := _mm_hadd_ps square square in
  let square := _mm_hadd_ps square square in
  _mm_cvtss_f32 square.

(** [void Normalize()]: the receiver after the call. *)
Definition Normalize (this : t F) : t F :=
  let magnitude := MagnitudeSquared this in
  if magnitude - lit 1 <=? Epsilon then this     (* already normalized *)
  else
    let magnitude := Sqrt magnitude in
    if magnitude <? Epsilon then this            (* zero vec *)
    else
      let magnitude := lit 1 / magnitude in
      times_float this magnitude.

Definition Normalized (this : t F) : t F :=
  let magnitude := MagnitudeSquared this in
  if magnitude - lit 1 <=? Epsilon then this     (* already normalized *)
  else
    let magnitude := Sqrt magnitude in
    if magnitude <? Epsilon then this            (* zero vec *)
    else
      let magnitude := lit 1 / magnitude in
      times_float this magnitude.

Definition IsZero (this : t F) : bool := MagnitudeSquared this <=? Epsilon.

Definition IsNormalized (this : t F) : bool :=
  MagnitudeSquared this - lit 1 <=? Epsilon.

Definition Dot (a b : t F) : F :=
  let d := and_MASK (_mm_mul_ps a b) in
  let d := _mm_hadd_ps d d in
  let d := _mm_hadd_ps d d in
  _mm_cvtss_f32 d.

Definition Cross (a b : t F) : t F :=
  let l := _mm_mul_ps (_mm_shuffle_ps a a IDX_W IDX_X IDX_Z IDX_Y)
                      (_mm_shuffle_ps b b IDX_W IDX_Y IDX_X IDX_Z) in
  let r := _mm_mul_ps (_mm_shuffle_ps a a IDX_W IDX_Y IDX_X IDX_Z)
                      (_mm_shuffle_ps b b IDX_W IDX_X IDX_Z IDX_Y) in
  _mm_sub_ps l r.

Definition Lerp (a b : t F) (t0 : F) : t F :=
  plus a (times_float (minus b a) t0).

Definition Origin : t F := of_xyz (lit 0) (lit 0) (lit 0).
Definition UnitX : t F := of_xyz (lit 1) (lit 0) (lit 0).
Definition UnitY : t F := of_xyz (lit 0) (lit 1) (lit 0).
Definition UnitZ : t F := of_xyz (lit 0) (lit 0) (lit 1).
Definition Up : t F := of_xyz (lit 0) (lit 1) (lit 0).
Definition One : t F := of_xyz (lit 1) (lit 1) (lit 1).
Definition Zero : t F := of_xyz (lit 0) (lit 0) (lit 0).

Context {LF : Libm F}.

Definition AngleRadians (a b : t F) : F :=
  let l := _mm_mul_ps (_mm_shuffle_ps a a IDX_W IDX_X IDX_Z IDX_Y)
                      (_mm_shuffle_ps b b IDX_W IDX_Y IDX_X IDX_Z) in
  let r := _mm_mul_ps (_mm_shuffle_ps a a IDX_W IDX_Y IDX_X IDX_Z)
                      (_mm_shuffle_ps b b IDX_W IDX_X IDX_Z IDX_Y) in
  let s := _mm_sub_ps l r in
  let s := and_MASK (_mm_mul_ps s s) in   (* exclude the w before any hadd *)
  let s := _mm_hadd_ps s s in
  let s := _mm_hadd_ps s s in
  ATan2 (Sqrt (_mm_cvtss_f32 s) + Epsilon) (Dot a b).

Definition AngleDegrees (a b : t F) : F := AngleRadians a b * Rad2Deg.
End Methods.

(** *** The remaining members of the header *)
Section MoreMethods.
Context {F : Type} {SF : Scalar F}.
Local Open Scope scalar_scope.

(** The array [f[4]] of the union at an index: a component when the index is
    one of 0, 1, 2, 3; outside, the access is undefined. *)
Definition f_at {A : Type} (v : t A) (i : Z) : option A :=
  match i with
  | 0%Z => Some (x v)
  | 1%Z => Some (y v)
  | 2%Z => Some (z v)
  | 3%Z => Some (w v)
  | _ => None
  end.

(** [operator [](int i)]: [f[i & 0b11]] when [XO_SAFE_VEC_RANGE] is defined,
    [f[i]] when it is not. *)
Definition index {A : Type} (XO_SAFE_VEC_RANGE : bool) (v : t A) (i : Z)
  : option A :=
  if XO_SAFE_VEC_RANGE then f_at v (Z.land i 3) else f_at v i.

(** [operator -]: [_mm_mul_ps(m, anti)], [anti = _mm_set1_ps(-1.0f)] *)
Definition opp (this : t F) : t F :=
  let anti := _mm_set1_ps (lit (-1)) in
  _mm_mul_ps this anti.

(** [operator ~] and [ZYX()], the same shuffle *)
Definition ZYX (this : t F) : t F :=
  _mm_shuffle_ps this this IDX_W IDX_X IDX_Y IDX_Z.

Definition Max (a b : t F) : t F :=
  if MagnitudeSquared a >=? MagnitudeSquared b then a else b.

Definition Min (a b : t F) : t F :=
  if MagnitudeSquared a <=? MagnitudeSquared b then a else b.

Definition DistanceSquared (a b : t F) : F := MagnitudeSquared (minus a b).

Definition Distance (a b : t F) : F := Magnitude (minus a b).
End MoreMethods.

End Vector3.

(** ** Vector2 ([Vector2.h], [Vector2Methods.h]) *)

Module Vector2.

Record t (A : Type) : Type := mk { x : A; y : A }.
Arguments mk {A} _ _.

Definition map {A B : Type} (f : A -> B) (v : t A) : t B :=
  mk (f (x v)) (f (y v)).

(** The storage of an object all of whose components hold a value. *)
Definition defined {A : Type} (v : t A) : t (option A) := map Some v.

Definition indeterminate {A : Type} : t (option A) := mk None None.

Definition fully_defined {A : Type} (s : t (option A)) : Prop :=
  exists v : t A, s = defined v.

(** *** Constructors *)
Section Constructors.
Context {F : Type}.

(** [Vector2::Vector2() { }]; the header says: no initialization is done. *)
Definition ctor_default (this : t (option F)) : t (option F) := this.

(** [Vector2(float v) : x(v), y(v)] *)
Definition ctor_float (v : F) (this : t (option F)) : t (option F) :=
  mk (Some v) (Some v).

(** [Vector2(float x, float y) : x(x), y(y)] *)
Definition ctor_xy (x0 y0 : F) (this : t (option F)) : t (option F) :=
  mk (Some x0) (Some y0).

(** [Vector2(const Vector2& v) : x(v.x), y(v.y)] *)
Definition ctor_copy (v : t F) (this : t (option F)) : t (option F) :=
  mk (Some (x v)) (Some (y v)).

(** [Vector2(const class Vector3& v) : x(v.x), y(v.y)] *)
Definition ctor_Vector3 (v : Vector3.t F) (this : t (option F))
  : t (option F) :=
  mk (Some (Vector3.x v)) (Some (Vector3.y v)).

(** [Vector2(const class Vector4& v) : x(v.x), y(v.y)] *)
Definition ctor_Vector4 (v : Vector4.t F) (this : t (option F))
  : t (option F) :=
  mk (Some (Vector4.x v)) (Some (Vector4.y v)).
End Constructors.

Section Methods.
Context {F : Type} {SF : Scalar F}.
Local Open Scope scalar_scope.

(** [constexpr static const float Epsilon = FloatEpsilon * 2.0f;] *)
Definition Epsilon : F := FloatEpsilon * lit 2.

(** Modelled from the spec: the componentwise operators of [Vector2.h],
    whose bodies are not among the sources at hand. *)
Definition plus (a b : t F) : t F := mk (x a + x b) (y a + y b).
Definition minus (a b : t F) : t F := mk (x a - x b) (y a - y b).
Definition times_float (a : t F) (s : F) : t F := mk (x a * s) (y a * s).
Definition div_float (a : t F) (s : F) : t F := mk (x a / s) (y a / s).

Definition UnitX : t F := mk (lit 1) (lit 0).
Definition UnitY : t F := mk (lit 0) (lit 1).
Definition Zero : t F := mk (lit 0) (lit 0).

(** [void Set(const Vector2& v) { x = v.x; y = v.y; }]: the receiver after
    the call. *)
Definition Set_ (v : t F) : t F := mk (x v) (y v).

Definition Magnitude (v : t F) : F := Sqrt (x v * x v + y v * y v).

Definition MagnitudeSquared (v : t F) : F := x v * x v + y v * y v.

(** [Normalize()]: the receiver after the call (which is also what the
    call returns). *)
Definition Normalize (this : t F) : t F :=
  let magnitude := MagnitudeSquared this in
  if CloseEnough magnitude (lit 1) Epsilon then this   (* already normalized *)
  else if CloseEnough magnitude (lit 0) Epsilon then this   (* zero vec *)
  else
    let magnitude := Sqrt magnitude in
    div_float this magnitude.

(** [return Vector2( *this ).Normalize();] *)
Definition Normalized (this : t F) : t F := Normalize (mk (x this) (y this)).

Definition IsZero (v : t F) : bool :=
  CloseEnough (MagnitudeSquared v) (lit 0) Epsilon.

Definition IsNormalized (v : t F) : bool :=
  CloseEnough (MagnitudeSquared v) (lit 1) Epsilon.

Definition Dot (a b : t F) : F := (x a * x b) + (y a * y b).

Definition Cross (a b : t F) : F := (x a * y b) - (y a * x b).

(** [Lerp(a, b, t, outVec)]: the value [outVec] is set to. *)
Definition Lerp_out (a b : t F) (t0 : F) : t F :=
  if CloseEnough t0 (lit 0) Epsilon then Set_ a
  else if CloseEnough t0 (lit 1) Epsilon then Set_ b
  else Set_ (plus a (times_float (minus b a) t0)).

(** [Vector2 tempVec; Lerp(a, b, t, tempVec); return tempVec;] *)
Definition Lerp (a b : t F) (t0 : F) : t F := Lerp_out a b t0.

Context {LF : Libm F}.

Definition AngleRadians (a b : t F) : F := - ATan2 (Cross a b) (Dot a b).

Definition AngleDegrees (a b : t F) : F := AngleRadians a b * Rad2Deg.
End Methods.

(** *** The remaining members of [Vector2Methods.h] *)
Section MoreMethods.
Context {F : Type} {SF : Scalar F}.
Local Open Scope scalar_scope.

(** [void Set(float x, float y)]: the receiver after the call. *)
Definition Set_xy (x0 y0 : F) : t F := mk x0 y0.

(** [Max(a, b, outVec)]: the value [outVec] is set to. *)
Definition Max_out (a b : t F) : t F :=
  Set_ (if MagnitudeSquared a >=? MagnitudeSquared b then a else b).

(** [Min(a, b, outVec)] *)
Definition Min_out (a b : t F) : t F :=
  Set_ (if MagnitudeSquared a <? MagnitudeSquared b then a else b).

(** [OrthogonalCCW(v, outVec)] *)
Definition OrthogonalCCW_out (v : t F) : t F := Set_xy (- y v) (x v).

(** [OrthogonalCW(v, outVec)] *)
Definition OrthogonalCW_out (v : t F) : t F := Set_xy (y v) (- x v).

(** The forms that return [tempVec]. *)
Definition Max (a b : t F) : t F := Max_out a b.
Definition Min (a b : t F) : t F := Min_out a b.
Definition OrthogonalCCW (v : t F) : t F := OrthogonalCCW_out v.
Definition OrthogonalCW (v : t F) : t F := OrthogonalCW_out v.
End MoreMethods.

End Vector2.

(** ** The assertion hook *)

(** The fail-fast diagnostic of the projection factories is an injectable
    assertion hook.  A computation carries the list of the messages the hook
    was invoked with, oldest first; what the hook does with a message is the
    application's business.  The model is that of a build in which the
    assertions are active. *)
Module Diag.

Definition t (A : Type) : Type := (list string * A)%type.

Definition ret {A : Type} (a : A) : t A := ([], a).

Definition bind {A B : Type} (c : t A) (k : A -> t B) : t B :=
  let (l1, a) := c in
  let (l2, b) := k a in
  (l1 ++ l2, b).

(** Modelled from the spec: the macro [XO_ASSERT], absent from the sources:
    the hook is invoked with the message when the condition is false. *)
Definition XO_ASSERT (condition : bool) (message : string) : t unit :=
  if condition then ret tt else ([message], tt).

Definition raised {A : Type} (c : t A) : list string := fst c.
Definition value {A : Type} (c : t A) : A := snd c.

End Diag.

Notation "c1 ;; c2" := (Diag.bind c1 (fun _ => c2))
  (at level 61, right associativity).

(** ** Matrix4x4 ([Matrix4x4Methods.h]) *)

Module Matrix4x4.

(** [Vector4 r[4]]: four rows. *)
Record t (A : Type) : Type :=
  mk { r0 : Vector4.t A; r1 : Vector4.t A; r2 : Vector4.t A; r3 : Vector4.t A }.
Arguments mk {A} _ _ _ _.

Definition map {A B : Type} (f : A -> B) (m : t A) : t B :=
  mk (Vector4.map f (r0 m)) (Vector4.map f (r1 m))
     (Vector4.map f (r2 m)) (Vector4.map f (r3 m)).

Definition defined {A : Type} (m : t A) : t (option A) := map Some m.

Definition indeterminate {A : Type} : t (option A) :=
  mk Vector4.indeterminate Vector4.indeterminate
     Vector4.indeterminate Vector4.indeterminate.

Definition fully_defined {A : Type} (s : t (option A)) : Prop :=
  exists m : t A, s = defined m.

(** [#define _XO_ASSERT_MSG(msg) "xo-math Matrix4x4" msg] *)
Definition _XO_ASSERT_MSG (msg : string) : string :=
  String.append "xo-math Matrix4x4" msg.

Section Values.
Context {F : Type} {SF : Scalar F}.
Local Open Scope scalar_scope.

(** The value of [Matrix4x4(a0, b0, c0, d0, ..., a3, b3, c3, d3)]. *)
Definition of_16 (a0 b0 c0 d0 a1 b1 c1 d1 a2 b2 c2 d2 a3 b3 c3 d3 : F)
  : t F :=
  mk (Vector4.mk a0 b0 c0 d0) (Vector4.mk a1 b1 c1 d1)
     (Vector4.mk a2 b2 c2 d2) (Vector4.mk a3 b3 c3 d3).

(** The value of [Matrix4x4(const class Quaternion& q)]; the quaternion is
    read through a [Vector4*], its four floats in the order x, y, z, w. *)
Definition of_Quaternion (q : Vector4.t F) : t F :=
  let v4 := q in
  let q2 := Vector4.plus v4 v4 in
  let qq2 := Vector4.times v4 q2 in
  let wq2 := Vector4.times_float q2 (Vector4.w q) in
  let xy2 := Vector4.x q * Vector4.y q2 in
  let xz2 := Vector4.x q * Vector4.z q2 in
  let yz2 := Vector4.y q * Vector4.z q2 in
  mk (Vector4.mk (lit 1 - Vector4.y qq2 - Vector4.z qq2)
                 (xy2 + Vector4.z wq2)
                 (xz2 - Vector4.y wq2)
                 (lit 0))
     (Vector4.mk (xy2 - Vector4.z wq2)
                 (lit 1 - Vector4.x qq2 - Vector4.z qq2)
                 (yz2 + Vector4.x wq2)
                 (lit 0))
     (Vector4.mk (xz2 + Vector4.y wq2)
                 (yz2 - Vector4.x wq2)
                 (lit 1 - Vector4.x qq2 - Vector4.y qq2)
                 (lit 0))
     Vector4.UnitW.

(** Modelled from the spec: [operator*] between two matrices, whose body is
    not among the sources at hand: the standard row-times-column product;
    [m *= n] assigns [m * n] to [m]. *)
Definition column (m : t F) (j : Vector4.t F -> F) : Vector4.t F :=
  Vector4.mk (j (r0 m)) (j (r1 m)) (j (r2 m)) (j (r3 m)).

Definition row_times (a : Vector4.t F) (m : t F) : Vector4.t F :=
  Vector4.mk (Vector4.Sum (Vector4.times a (column m (@Vector4.x F))))
             (Vector4.Sum (Vector4.times a (column m (@Vector4.y F))))
             (Vector4.Sum (Vector4.times a (column m (@Vector4.z F))))
             (Vector4.Sum (Vector4.times a (column m (@Vector4.w F)))).

Definition times (a b : t F) : t F :=
  mk (row_times (r0 a) b) (row_times (r1 a) b)
     (row_times (r2 a) b) (row_times (r3 a) b).
End Values.

(** *** Constructors *)
Section Constructors.
Context {F : Type} {SF : Scalar F}.

(** [Matrix4x4::Matrix4x4() { }] *)
Definition ctor_default (this : t (option F)) : t (option F) := this.

(** [Matrix4x4(float m)]: every row is [Vector4(m)]. *)
Definition ctor_float (m : F) (this : t (option F)) : t (option F) :=
  defined (mk (Vector4.of_float m) (Vector4.of_float m)
              (Vector4.of_float m) (Vector4.of_float m)).

(** [Matrix4x4(float a0, ..., float d3)] *)
Definition ctor_16 (a0 b0 c0 d0 a1 b1 c1 d1 a2 b2 c2 d2 a3 b3 c3 d3 : F)
  (this : t (option F)) : t (option F) :=
  defined (of_16 a0 b0 c0 d0 a1 b1 c1 d1 a2 b2 c2 d2 a3 b3 c3 d3).

(** [Matrix4x4(const Matrix4x4& m)]: [r[i] = m.r[i]] *)
Definition ctor_copy (m : t F) (this : t (option F)) : t (option F) :=
  defined (mk (r0 m) (r1 m) (r2 m) (r3 m)).

(** [Matrix4x4(const Vector4& r0, ..., const Vector4& r3)] *)
Definition ctor_rows (a b c d : Vector4.t F) (this : t (option F))
  : t (option F) :=
  defined (mk a b c d).

(** Modelled from the spec: [Vector4(const Vector3&)], absent from the
    sources; widening takes 0 for the component the shorter vector lacks. *)
Definition Vector4_of_Vector3 (v : Vector3.t F) : Vector4.t F :=
  Vector4.mk (Vector3.x v) (Vector3.y v) (Vector3.z v) (lit 0).

(** [Matrix4x4(const Vector3& r0, const Vector3& r1, const Vector3& r2)]:
    [r[i] = Vector4(ri)], [r[3] = Vector4(0, 0, 0, 1)]. *)
Definition ctor_Vector3 (a b c : Vector3.t F) (this : t (option F))
  : t (option F) :=
  defined (mk (Vector4_of_Vector3 a) (Vector4_of_Vector3 b)
              (Vector4_of_Vector3 c)
              (Vector4.mk (lit 0) (lit 0) (lit 0) (lit 1))).

(** [Matrix4x4(const class Quaternion& q)] *)
Definition ctor_Quaternion (q : Vector4.t F) (this : t (option F))
  : t (option F) :=
  defined (of_Quaternion q).
End Constructors.

(** *** Factories *)
Section Factories.
Context {F : Type} {SF : Scalar F} {LF : Libm F}.
Local Open Scope scalar_scope.

Definition RotationXRadians (radians : F) : t F :=
  let cosr := Cos radians in
  let sinr := Sin radians in
  of_16 (lit 1) (lit 0) (lit 0) (lit 0)
        (lit 0) cosr    (- sinr) (lit 0)
        (lit 0) sinr    cosr     (lit 0)
        (lit 0) (lit 0) (lit 0) (lit 1).

Definition RotationYRadians (radians : F) : t F :=
  let cosr := Cos radians in
  let sinr := Sin radians in
  of_16 cosr    (lit 0) (- sinr) (lit 0)
        (lit 0) (lit 1) (lit 0)  (lit 0)
        sinr    (lit 0) cosr     (lit 0)
        (lit 0) (lit 0) (lit 0)  (lit 1).

Definition RotationZRadians (radians : F) : t F :=
  let cosr := Cos radians in
  let sinr := Sin radians in
  of_16 cosr    (- sinr) (lit 0) (lit 0)
        sinr    cosr     (lit 0) (lit 0)
        (lit 0) (lit 0)  (lit 1) (lit 0)
        (lit 0) (lit 0)  (lit 0) (lit 1).

(** [RotationRadians(float x, float y, float z, Matrix4x4& m)] *)
Definition RotationRadians (x y z : F) : t F :=
  let mx := RotationXRadians x in
  let m := RotationYRadians y in
  let mz := RotationZRadians z in
  times m (times mx mz).              (* m *= mx * mz *)

(** [RotationRadians(const Vector3& v, Matrix4x4& m)] *)
Definition RotationRadians_Vector3 (v : Vector3.t F) : t F :=
  let mx := RotationXRadians (Vector3.x v) in
  let m := RotationYRadians (Vector3.y v) in
  let mz := RotationZRadians (Vector3.z v) in
  times m (times mx mz).

Definition AxisAngleRadians (a : Vector3.t F) (radians : F) : t F :=
  let c := Cos radians in
  let s := Sin radians in
  let t0 := lit 1 - c in
  let x := Vector3.x a in
  let y := Vector3.y a in
  let z := Vector3.z a in
  of_16 (t0*x*x+c)   (t0*x*y-z*s) (t0*x*z+y*s) (lit 0)
        (t0*x*y+z*s) (t0*y*y+c)   (t0*y*z-x*s) (lit 0)
        (t0*x*z-y*s) (t0*y*z+x*s) (t0*z*z+c)   (lit 0)
        (lit 0)      (lit 0)      (lit 0)      (lit 1).

Definition RotationXDegrees (degrees : F) : t F :=
  RotationXRadians (degrees * Deg2Rad).

Definition RotationYDegrees (degrees : F) : t F :=
  RotationYRadians (degrees * Deg2Rad).

Definition RotationZDegrees (degrees : F) : t F :=
  RotationZRadians (degrees * Deg2Rad).

(** [RotationDegrees(float x, float y, float z, Matrix4x4& m)] *)
Definition RotationDegrees (x y z : F) : t F :=
  let m0 := RotationXDegrees x in
  let m1 := RotationYDegrees y in
  let m2 := RotationZDegrees z in
  times (times m0 m1) m2.             (* m = m0 * m1 * m2 *)

(** [RotationDegrees(const Vector3& v, Matrix4x4& m)] *)
Definition RotationDegrees_Vector3 (v : Vector3.t F) : t F :=
  let m0 := RotationXDegrees (Vector3.x v) in
  let m1 := RotationYDegrees (Vector3.y v) in
  let m2 := RotationZDegrees (Vector3.z v) in
  times (times m0 m1) m2.

Definition AxisAngleDegrees (a : Vector3.t F) (degrees : F) : t F :=
  AxisAngleRadians a (degrees * Deg2Rad).

Definition OrthographicProjection (w h n f : F) : Diag.t (t F) :=
  Diag.XO_ASSERT (w !=? lit 0)
    (_XO_ASSERT_MSG "::OrthographicProjection Width (w) should not be zero.") ;;
  Diag.XO_ASSERT (h !=? lit 0)
    (_XO_ASSERT_MSG "::OrthographicProjection Height (h) should not be zero.") ;;
  Diag.ret
    (of_16 (lit 1 / w) (lit 0)     (lit 0)       (lit 0)
           (lit 0)     (lit 1 / h) (lit 0)       (lit 0)
           (lit 0)     (lit 0)     (f - n)       (lit 0)
           (lit 0)     (lit 0)     (n * (f - n)) (lit 1)).

Definition PerspectiveProjectionRadians (fovx fovy n f : F) : Diag.t (t F) :=
  Diag.XO_ASSERT (n !=? f)
    (_XO_ASSERT_MSG "::PerspectiveProjectionRadians Near (n) and far (f) values should not be equal.") ;;
  Diag.ret
    (of_16 (ATan (fovx / lit 2)) (lit 0)               (lit 0)             (lit 0)
           (lit 0)               (ATan (fovy / lit 2)) (lit 0)             (lit 0)
           (lit 0)               (lit 0)               (f / (f - n))       (lit 1)
           (lit 0)               (lit 0)               (- n * (f / - n))   (lit 1)).

Definition PerspectiveProjectionDegrees (fovx fovy near far : F)
  : Diag.t (t F) :=
  PerspectiveProjectionRadians (fovx * Deg2Rad) (fovy * Deg2Rad) near far.
End Factories.

(** *** Transposition, scale, translation and look-at *)
Section MoreFactories.
Context {F : Type} {SF : Scalar F}.
Local Open Scope scalar_scope.

(** The indices 0, 1, 2, 3 of a row and of a column. *)
Inductive index : Set := I0 | I1 | I2 | I3.

(** [r[i]] *)
Definition row {A : Type} (m : t A) (i : index) : Vector4.t A :=
  match i with I0 => r0 m | I1 => r1 m | I2 => r2 m | I3 => r3 m end.

(** [r[i][j]], read *)
Definition get {A : Type} (m : t A) (i j : index) : A :=
  match j with
  | I0 => Vector4.x (row m i)
  | I1 => Vector4.y (row m i)
  | I2 => Vector4.z (row m i)
  | I3 => Vector4.w (row m i)
  end.

Definition set_component {A : Type} (v : Vector4.t A) (j : index) (a : A)
  : Vector4.t A :=
  match j with
  | I0 => Vector4.mk a (Vector4.y v) (Vector4.z v) (Vector4.w v)
  | I1 => Vector4.mk (Vector4.x v) a (Vector4.z v) (Vector4.w v)
  | I2 => Vector4.mk (Vector4.x v) (Vector4.y v) a (Vector4.w v)
  | I3 => Vector4.mk (Vector4.x v) (Vector4.y v) (Vector4.z v) a
  end.

(** [r[i][j] = a] *)
Definition set {A : Type} (m : t A) (i j : index) (a : A) : t A :=
  match i with
  | I0 => mk (set_component (r0 m) j a) (r1 m) (r2 m) (r3 m)
  | I1 => mk (r0 m) (set_component (r1 m) j a) (r2 m) (r3 m)
  | I2 => mk (r0 m) (r1 m) (set_component (r2 m) j a) (r3 m)
  | I3 => mk (r0 m) (r1 m) (r2 m) (set_component (r3 m) j a)
  end.

(** [#define _XO_TRANSPOSE_SWAP(i,j) t = r[i][j]; r[i][j] = r[j][i];
    r[j][i] = t;] *)
Definition _XO_TRANSPOSE_SWAP {A : Type} (i j : index) (m : t A) : t A :=
  let t0 := get m i j in
  let m := set m i j (get m j i) in
  set m j i t0.

(** [_MM_TRANSPOSE4_PS(row0, row1, row2, row3)] of the SSE headers: the four
    registers become the four columns. *)
Definition _MM_TRANSPOSE4_PS {A : Type} (m : t A) : t A :=
  mk (Vector4.mk (Vector4.x (r0 m)) (Vector4.x (r1 m))
                 (Vector4.x (r2 m)) (Vector4.x (r3 m)))
     (Vector4.mk (Vector4.y (r0 m)) (Vector4.y (r1 m))
                 (Vector4.y (r2 m)) (Vector4.y (r3 m)))
     (Vector4.mk (Vector4.z (r0 m)) (Vector4.z (r1 m))
                 (Vector4.z (r2 m)) (Vector4.z (r3 m)))
     (Vector4.mk (Vector4.w (r0 m)) (Vector4.w (r1 m))
                 (Vector4.w (r2 m)) (Vector4.w (r3 m))).

(** [MakeTranspose()]: the receiver after the call. *)
Definition MakeTranspose {A : Type} (XO_SSE : bool) (this : t A) : t A :=
  if XO_SSE then _MM_TRANSPOSE4_PS this
  else
    let m := _XO_TRANSPOSE_SWAP I0 I1 this in
    let m := _XO_TRANSPOSE_SWAP I0 I2 m in
    let m := _XO_TRANSPOSE_SWAP I0 I3 m in
    let m := _XO_TRANSPOSE_SWAP I1 I2 m in
    let m := _XO_TRANSPOSE_SWAP I1 I3 m in
    _XO_TRANSPOSE_SWAP I2 I3 m.

(** [auto m = *this; return m.MakeTranspose();] *)
Definition Transpose {A : Type} (XO_SSE : bool) (this : t A) : t A :=
  let m := this in MakeTranspose XO_SSE m.

(** [Scale(float xyz, Matrix4x4& m)] *)
Definition Scale_uniform (xyz : F) : t F :=
  of_16 xyz     (lit 0) (lit 0) (lit 0)
        (lit 0) xyz     (lit 0) (lit 0)
        (lit 0) (lit 0) xyz     (lit 0)
        (lit 0) (lit 0) (lit 0) (lit 1).

(** [Scale(float x, float y, float z, Matrix4x4& m)] *)
Definition Scale (x y z : F) : t F :=
  of_16 x       (lit 0) (lit 0) (lit 0)
        (lit 0) y       (lit 0) (lit 0)
        (lit 0) (lit 0) z       (lit 0)
        (lit 0) (lit 0) (lit 0) (lit 1).

(** [Scale(const Vector3& v, Matrix4x4& m)] *)
Definition Scale_Vector3 (v : Vector3.t F) : t F :=
  of_16 (Vector3.x v) (lit 0) (lit 0) (lit 0)
        (lit 0) (Vector3.y v) (lit 0) (lit 0)
        (lit 0) (lit 0) (Vector3.z v) (lit 0)
        (lit 0) (lit 0) (lit 0) (lit 1).

(** [Translation(float x, float y, float z, Matrix4x4& m)] *)
Definition Translation (x y z : F) : t F :=
  of_16 (lit 1) (lit 0) (lit 0) x
        (lit 0) (lit 1) (lit 0) y
        (lit 0) (lit 0) (lit 1) z
        (lit 0) (lit 0) (lit 0) (lit 1).

(** [Translation(const Vector3& v, Matrix4x4& m)] *)
Definition Translation_Vector3 (v : Vector3.t F) : t F :=
  of_16 (lit 1) (lit 0) (lit 0) (Vector3.x v)
        (lit 0) (lit 1) (lit 0) (Vector3.y v)
        (lit 0) (lit 0) (lit 1) (Vector3.z v)
        (lit 0) (lit 0) (lit 0) (lit 1).

(** [LookAtFromPosition(from, to, up, m)]; [xAxis.Dot(from)] is
    [Vector3::Dot(xAxis, from)]. *)
Definition LookAtFromPosition (from to up : Vector3.t F) : t F :=
  let zAxis := Vector3.Normalized (Vector3.minus to from) in
  let xAxis := Vector3.Normalized (Vector3.Cross up zAxis) in
  let yAxis := Vector3.Cross zAxis xAxis in
  of_16 (Vector3.x xAxis) (Vector3.x yAxis) (Vector3.x zAxis) (lit 0)
        (Vector3.y xAxis) (Vector3.y yAxis) (Vector3.y zAxis) (lit 0)
        (Vector3.z xAxis) (Vector3.z yAxis) (Vector3.z zAxis) (lit 0)
        (- Vector3.Dot xAxis from) (- Vector3.Dot yAxis from)
        (- Vector3.Dot zAxis from) (lit 1).

(** [LookAtFromPosition(from, to, m)] *)
Definition LookAtFromPosition_Up (from to : Vector3.t F) : t F :=
  LookAtFromPosition from to Vector3.Up.

(** [LookAtFromDirection(direction, up, m)] *)
Definition LookAtFromDirection (direction up : Vector3.t F) : t F :=
  let zAxis := Vector3.Normalized direction in
  let xAxis := Vector3.Normalized (Vector3.Cross up zAxis) in
  let yAxis := Vector3.Cross zAxis xAxis in
  of_16 (Vector3.x xAxis) (Vector3.x yAxis) (Vector3.x zAxis) (lit 0)
        (Vector3.y xAxis) (Vector3.y yAxis) (Vector3.y zAxis) (lit 0)
        (Vector3.z xAxis) (Vector3.z yAxis) (Vector3.z zAxis) (lit 0)
        (lit 0)           (lit 0)           (lit 0)           (lit 1).

(** [LookAtFromDirection(direction, m)] *)
Definition LookAtFromDirection_Up (direction : Vector3.t F) : t F :=
  LookAtFromDirection direction Vector3.Up.
End MoreFactories.

End Matrix4x4.

(** ** Quaternion ([Quaternion.cpp]) *)

Module Quaternion.

(** A quaternion is four floats [(x, y, z, w)] laid out as a [Vector4]; the
    sources read it through [Vector4*] casts, and so a quaternion here is a
    [Vector4.t]. *)
Definition t (A : Type) : Type := Vector4.t A.

Definition mk {A : Type} (x0 y0 z0 w0 : A) : t A := Vector4.mk x0 y0 z0 w0.
Definition x {A : Type} (q : t A) : A := Vector4.x q.
Definition y {A : Type} (q : t A) : A := Vector4.y q.
Definition z {A : Type} (q : t A) : A := Vector4.z q.
Definition w {A : Type} (q : t A) : A := Vector4.w q.

Definition defined {A : Type} (q : t A) : t (option A) := Vector4.defined q.
Definition indeterminate {A : Type} : t (option A) := Vector4.indeterminate.
Definition fully_defined {A : Type} (s : t (option A)) : Prop :=
  Vector4.fully_defined s.

Section Methods.
Context {F : Type} {SF : Scalar F}.
Local Open Scope scalar_scope.

(** The build: [XO_SSE] and [XO_NO_INVERSE_DIVISION] defined or not. *)
Variable XO_SSE : bool.
Variable XO_NO_INVERSE_DIVISION : bool.

(** [const float Quaternion::Epsilon = FloatEpsilon * 4.0f;] *)
Definition Epsilon : F := FloatEpsilon * lit 4.

(** Modelled from the spec: the macros [_XO_ASSIGN_QUAT(W, X, Y, Z)] and
    [_XO_ASSIGN_QUAT_Q(Q, W, X, Y, Z)], whose definitions are not among
    the sources at hand; they assign the four components, the scalar part
    [w] being the first argument ([MakeConjugate] passes [w, -x, -y, -z],
    and the spec has the conjugate negate the vector part). *)
Definition _XO_ASSIGN_QUAT (W X Y Z : F) : t F := mk X Y Z W.

Definition Identity : t F := mk (lit 0) (lit 0) (lit 0) (lit 1).
Definition Zero : t F := mk (lit 0) (lit 0) (lit 0) (lit 0).

(** [_mm_rcp_ps]: the reciprocal of every lane.  The instruction returns an
    approximation, of relative error up to [1.5 * 2^-12]; here it is the
    exact reciprocal.  What is proved of the build that calls it ([XO_SSE]
    without [XO_NO_INVERSE_DIVISION]) holds of the code up to that error, and
    a property that needs the reciprocal exact is stated of the other builds
    only. *)
Definition _mm_rcp_ps (v : Vector3.t F) : Vector3.t F :=
  Vector3._mm_div_ps (Vector3._mm_set1_ps (lit 1)) v.

(** *** Constructors *)

(** [Quaternion::Quaternion() { }] *)
Definition ctor_default (this : t (option F)) : t (option F) := this.

(** [Quaternion(float x, float y, float z, float w)] *)
Definition ctor_xyzw (x0 y0 z0 w0 : F) (this : t (option F))
  : t (option F) :=
  defined (mk x0 y0 z0 w0).

(** [Quaternion::Quaternion(const Matrix4x4& mat)] *)
Definition ctor_Matrix4x4 (mat : Matrix4x4.t F) (this : t (option F))
  : t (option F) :=
  let xAxis := Vector3.of_Vector4 (Matrix4x4.r0 mat) in
  let yAxis := Vector3.of_Vector4 (Matrix4x4.r1 mat) in
  let zAxis := Vector3.of_Vector4 (Matrix4x4.r2 mat) in
  let scale := Vector3.of_xyz (Vector3.Magnitude xAxis)
                              (Vector3.Magnitude yAxis)
                              (Vector3.Magnitude zAxis) in
  if (Vector3.x scale <=? FloatEpsilon)
     || (Vector3.y scale <=? FloatEpsilon)
     || (Vector3.z scale <=? FloatEpsilon)
  then
    (* too close. *)
    if XO_SSE then this
    else defined (mk (lit 0) (lit 0) (lit 0) (lit 1))
  else
    let recipScale :=
      if XO_SSE then
        if XO_NO_INVERSE_DIVISION
        then Vector3._mm_div_ps (Vector3._mm_set1_ps (lit 1)) scale
        else _mm_rcp_ps scale
      else Vector3.of_xyz (lit 1 / Vector3.x scale)
                          (lit 1 / Vector3.y scale)
                          (lit 1 / Vector3.z scale) in
    let xAxis := Vector3.times_float xAxis (Vector3.x recipScale) in
    let yAxis := Vector3.times_float yAxis (Vector3.y recipScale) in
    let zAxis := Vector3.times_float zAxis (Vector3.z recipScale) in
    (* Now calculate the rotation from the resulting matrix (axes). *)
    let trace := Vector3.x xAxis + Vector3.y yAxis + Vector3.z zAxis + lit 1 in
    if trace >? lit 1 then
      let s := half / Sqrt trace in
      defined (_XO_ASSIGN_QUAT
        (quarter / s)
        ((Vector3.z yAxis - Vector3.y zAxis) * s)
        ((Vector3.y xAxis - Vector3.x yAxis) * s)
        ((Vector3.x zAxis - Vector3.z xAxis) * s))
    else if (Vector3.x xAxis >? Vector3.y yAxis)
            && (Vector3.x xAxis >? Vector3.z zAxis) then
      let s := half / Sqrt (lit 1 + Vector3.x xAxis - Vector3.y yAxis - Vector3.z zAxis) in
      defined (_XO_ASSIGN_QUAT
        ((Vector3.z yAxis - Vector3.y zAxis) * s)
        (quarter / s)
        ((Vector3.x zAxis + Vector3.z xAxis) * s)
        ((Vector3.x yAxis + Vector3.y xAxis) * s))
    else if Vector3.y yAxis >? Vector3.z zAxis then
      let s := half / Sqrt (lit 1 + Vector3.y yAxis - Vector3.x xAxis - Vector3.z zAxis) in
      defined (_XO_ASSIGN_QUAT
        ((Vector3.x zAxis - Vector3.z xAxis) * s)
        ((Vector3.x yAxis + Vector3.y xAxis) * s)
        ((Vector3.y zAxis + Vector3.z yAxis) * s)
        (quarter / s))
    else
      let s := half / Sqrt (lit 1 + Vector3.z zAxis - Vector3.x xAxis - Vector3.y yAxis) in
      defined (_XO_ASSIGN_QUAT
        ((Vector3.y xAxis - Vector3.x yAxis) * s)
        ((Vector3.x zAxis + Vector3.z xAxis) * s)
        (quarter / s)
        ((Vector3.y zAxis + Vector3.z yAxis) * s)).

(** *** Methods *)

(** [MakeConjugate()]: the receiver after the call. *)
Definition MakeConjugate (this : t F) : t F :=
  _XO_ASSIGN_QUAT (w this) (- x this) (- y this) (- z this).

Definition Conjugate (this : t F) : t F :=
  MakeConjugate (mk (x this) (y this) (z this) (w this)).

(** [Lerp(a, b, t, outQuat)]: [vq = va + (vb - va) * t] on the [Vector4]
    views. *)
Definition Lerp (a b : t F) (t0 : F) : t F :=
  Vector4.plus a (Vector4.times_float (Vector4.minus b a) t0).

(** [LookAtFromDirection(const Vector3&, const Vector3&, Quaternion&)
    { // Todo }]: the out-parameter, whatever it holds, after the call. *)
Definition LookAtFromDirection {A : Type} (direction up : Vector3.t F)
  (outQuat : t A) : t A := outQuat.

(** [LookAtFromPosition(from, to, up, outQuat)] *)
Definition LookAtFromPosition {A : Type} (from to up : Vector3.t F)
  (outQuat : t A) : t A :=
  LookAtFromDirection (Vector3.minus to from) up outQuat.

(** [LookAtFromPosition(from, to, outQuat)] *)
Definition LookAtFromPosition_Up {A : Type} (from to : Vector3.t F)
  (outQuat : t A) : t A :=
  LookAtFromPosition from to Vector3.Up outQuat.

(** [LookAtFromDirection(direction, outQuat)] *)
Definition LookAtFromDirection_Up {A : Type} (direction : Vector3.t F)
  (outQuat : t A) : t A :=
  LookAtFromDirection direction Vector3.Up outQuat.

Context {LF : Libm F}.

(** [AxisAngleRadians(axis, radians, outQuat)]: the value assigned to
    [outQuat]. *)
Definition AxisAngleRadians (axis : Vector3.t F) (radians : F) : t F :=
  let hr := radians * half in
  let sr := Sin hr in
  let n := Vector3.Normalized axis in
  let n := Vector3.times_float n sr in
  _XO_ASSIGN_QUAT (Cos radians) (Vector3.x n) (Vector3.y n) (Vector3.z n).
End Methods.

(** *** Inverse, normalization and Euler angles *)
Section MoreMethods.
Context {F : Type} {SF : Scalar F}.
Local Open Scope scalar_scope.

Variable XO_SSE : bool.

(** The member [xmm]: the four floats as a register. *)
Definition xmm (q : t F) : Vector3.t F := Vector3.mk (x q) (y q) (z q) (w q).

(** [xo_internal::QuaternionSquareSum] *)
Definition QuaternionSquareSum (q : t F) : F :=
  if XO_SSE then
    let square := Vector3._mm_mul_ps (xmm q) (xmm q) in
    let square := Vector3._mm_hadd_ps square square in
    let square := Vector3._mm_hadd_ps square square in
    Vector3._mm_cvtss_f32 square
  else x q * x q + y q * y q + z q * z q + w q * w q.

(** [MakeInverse()]: the receiver after the call. *)
Definition MakeInverse (this : t F) : t F :=
  let magnitude := QuaternionSquareSum this in
  if CloseEnough magnitude (lit 1) Epsilon then MakeConjugate this
  else if CloseEnough magnitude (lit 0) Epsilon then this
  else
    let this := MakeConjugate this in
    Vector4.div_float this magnitude.

Definition Inverse (this : t F) : t F :=
  MakeInverse (mk (x this) (y this) (z this) (w this)).

(** [Normalize()]: the receiver after the call. *)
Definition Normalize (this : t F) : t F :=
  let magnitude := QuaternionSquareSum this in
  if CloseEnough magnitude (lit 1) Epsilon then this
  else
    let magnitude := Sqrt magnitude in
    if CloseEnough magnitude (lit 0) Epsilon then this
    else Vector4.div_float this magnitude.

Definition Normalized (this : t F) : t F :=
  Normalize (mk (x this) (y this) (z this) (w this)).

Context {LF : Libm F}.

(** Modelled from the spec: [SinCos_x3(in, s, c)] of [xo-math.h], absent from
    the sources: the sines and the cosines of the three floats, here the
    half angles per axis. *)
Definition SinCos_x3 (f : Vector3.t F) : (F * F * F) * (F * F * F) :=
  ((Sin (Vector3.x f), Sin (Vector3.y f), Sin (Vector3.z f)),
   (Cos (Vector3.x f), Cos (Vector3.y f), Cos (Vector3.z f))).

(** [RotationRadians(const Vector3& v, Quaternion& outQuat)]: the value
    assigned to [outQuat]. *)
Definition RotationRadians_Vector3 (v : Vector3.t F) : t F :=
  let hv := Vector3.times_float v half in
  let '((s0, s1, s2), (c0, c1, c2)) := SinCos_x3 hv in
  _XO_ASSIGN_QUAT
    (c0 * c1 * c2 + s0 * s1 * s2)
    (s0 * c1 * c2 - c0 * s1 * s2)
    (c0 * s1 * c2 + s0 * c1 * s2)
    (c0 * c1 * s2 - s0 * s1 * c2).

(** [RotationRadians(float x, float y, float z, Quaternion& outQuat)] *)
Definition RotationRadians (x0 y0 z0 : F) : t F :=
  RotationRadians_Vector3 (Vector3.of_xyz x0 y0 z0).

End MoreMethods.

End Quaternion.

(** * The real-number model *)

(** Exact arithmetic: a [float] is a real number, the operations are those of
    the field, [Sqrt] is the real square root and the math library is the
    real one.  Rounding, infinities and NaN are outside this model. *)
Module RealModel.

Local Open Scope R_scope.

Definition Rltb (a b : R) : bool := if Rlt_dec a b then true else false.
Definition Rleb (a b : R) : bool := if Rle_dec a b then true else false.
Definition Reqb (a b : R) : bool := if Req_dec_T a b then true else false.

(** [atan2(y, x)] of the C library: the argument of the point [(x, y)], in
    [(-PI, PI]].  The reals have one zero, which stands for the positive zero
    of the floats: on the negative x axis the value is [PI]. *)
Definition atan2 (y x : R) : R :=
  if Rlt_dec 0 x then atan (y / x)
  else if Rlt_dec x 0 then
    (if Rle_dec 0 y then atan (y / x) + PI else atan (y / x) - PI)
  else if Rlt_dec 0 y then PI / 2
  else if Rlt_dec y 0 then - (PI / 2)
  else 0.

(** [atan2] with the two zeros of the floats, as the C library has it
    (Annex F of the C standard, on [atan2]): [sy] and [sx] are the sign bits
    of [y] and of [x], which matter when the argument is a zero.  [atan2(+-0, x)] is [+-pi] for [x]
    below 0 and for [x] the negative zero, and a zero otherwise; when [y] is
    not a zero the sign of a zero [x] has no effect on the value. *)
Definition atan2_signed (sy sx : bool) (y x : R) : R :=
  if Req_dec_T y 0 then
    if Rlt_dec x 0 then (if sy then - PI else PI)
    else if Req_dec_T x 0 then
      (if sx then (if sy then - PI else PI) else 0)
    else 0
  else atan2 y x.

(** The scalars, for a given value of [FloatEpsilon]. *)
Definition R_Scalar (FloatEpsilon_value : R) : Scalar R :=
  {| lit := IZR; half := / 2; quarter := / 4;
     add := Rplus; sub := Rminus; mul := Rmult; div := Rdiv; neg := Ropp;
     ltb := Rltb; leb := Rleb; eqb := Reqb;
     Abs := Rabs; Sqrt := sqrt;
     FloatEpsilon := FloatEpsilon_value |}.

(** Modelled from the spec: [Deg2Rad] and [Rad2Deg] of [xo-math.h]; a degree
    variant converts by degrees times (pi / 180). *)
Definition R_Libm : Libm R :=
  {| Sin := sin; Cos := cos; ATan := atan; ATan2 := atan2; ACos := acos;
     Deg2Rad := PI / 180; Rad2Deg := 180 / PI |}.

(** The unit quaternions: the rotation-only inputs of the conversions. *)
Definition unit_quaternion (q : Quaternion.t R) : Prop :=
  Quaternion.x q * Quaternion.x q + Quaternion.y q * Quaternion.y q
  + Quaternion.z q * Quaternion.z q + Quaternion.w q * Quaternion.w q = 1.

(** The value of [FloatEpsilon] at which concrete inputs are evaluated: the
    machine epsilon of binary32, 2^-23. *)
Definition FLT_EPSILON : R := / 8388608.

End RealModel.

(** * The binary32 model *)

(** IEEE-754 single precision, as the sources compute when [float] is the
    32-bit format: 24 bits of precision, rounding to nearest even, on the
    standard library's specification of floating-point numbers.  The math
    library has no counterpart here; only the functions that need none are
    evaluated in this model. *)
Module Binary32.

Local Open Scope Z_scope.

Definition prec : Z := 24.
Definition emax : Z := 128.

(** The float nearest to [m * 2^e]. *)
Definition dyadic (m e : Z) : spec_float := binary_normalize prec emax m e false.

(** The scalars; [FloatEpsilon] is the machine epsilon of the format,
    2^-23. *)
Definition B32_Scalar : Scalar spec_float :=
  {| lit := fun n => dyadic n 0; half := dyadic 1 (-1); quarter := dyadic 1 (-2);
     add := SFadd prec emax; sub := SFsub prec emax;
     mul := SFmul prec emax; div := SFdiv prec emax; neg := SFopp;
     ltb := SFltb; leb := SFleb; eqb := SFeqb;
     Abs := SFabs; Sqrt := SFsqrt prec emax;
     FloatEpsilon := dyadic 1 (-23) |}.

End Binary32.

(** * Properties *)

Section RealFacts.
Import RealModel.
Local Open Scope R_scope.

Lemma Rltb_true (a b : R) : a < b -> Rltb a b = true.
Proof. unfold Rltb; destruct (Rlt_dec a b); [reflexivity | contradiction]. Qed.

Lemma Rltb_false (a b : R) : b <= a -> Rltb a b = false.
Proof. unfold Rltb; destruct (Rlt_dec a b); [lra | reflexivity]. Qed.

Lemma Rleb_true (a b : R) : a <= b -> Rleb a b = true.
Proof. unfold Rleb; destruct (Rle_dec a b); [reflexivity | contradiction]. Qed.

Lemma Rleb_false (a b : R) : b < a -> Rleb a b = false.
Proof. unfold Rleb; destruct (Rle_dec a b); [lra | reflexivity]. Qed.

Lemma Reqb_true (a b : R) : a = b -> Reqb a b = true.
Proof. unfold Reqb; destruct (Req_dec_T a b); [reflexivity | contradiction]. Qed.

Lemma Reqb_false (a b : R) : a <> b -> Reqb a b = false.
Proof. unfold Reqb; destruct (Req_dec_T a b); [contradiction | reflexivity]. Qed.

Lemma Rltb_iff (a b : R) : Rltb a b = true <-> a < b.
Proof.
  unfold Rltb; destruct (Rlt_dec a b); split; intros; auto; discriminate.
Qed.

Lemma Rleb_iff (a b : R) : Rleb a b = true <-> a <= b.
Proof.
  unfold Rleb; destruct (Rle_dec a b); split; intros; auto; discriminate.
Qed.

Lemma Reqb_iff (a b : R) : Reqb a b = true <-> a = b.
Proof.
  unfold Reqb; destruct (Req_dec_T a b); split; intros; auto; discriminate.
Qed.

Lemma FLT_EPSILON_pos : 0 < FLT_EPSILON.
Proof. unfold FLT_EPSILON; lra. Qed.
End RealFacts.

(** Unfolding the interface at the real instance. *)
Ltac real_ops :=
  cbn [lit half quarter add sub mul div neg ltb leb eqb Abs Sqrt FloatEpsilon
       Sin Cos ATan ATan2 ACos Deg2Rad Rad2Deg
       RealModel.R_Scalar RealModel.R_Libm] in *.

(** Deciding a comparison of the real model whose two sides are known. *)
Ltac real_cmp :=
  repeat first
    [ rewrite Rleb_true by lra | rewrite Rleb_false by lra
    | rewrite Rltb_true by lra | rewrite Rltb_false by lra
    | rewrite Reqb_true by lra | rewrite Reqb_false by lra ].

(** ** Normalize *)

Section NormalizeReal.
Import RealModel.
Local Open Scope R_scope.

Variable eps : R.
Hypothesis eps_pos : 0 < eps.

#[local] Hint Extern 0 (Scalar R) => exact (R_Scalar eps) : typeclass_instances.

(** The closeness test at the real instance. *)
Lemma CloseEnough_real (a b tol : R) :
  CloseEnough a b tol = true <-> Rabs (a - b) <= tol.
Proof. unfold CloseEnough; real_ops; apply Rleb_iff. Qed.

Lemma CloseEnough_real_false (a b tol : R) :
  CloseEnough a b tol = false <-> tol < Rabs (a - b).
Proof.
  unfold CloseEnough; real_ops; unfold Rleb.
  destruct (Rle_dec (Rabs (a - b)) tol) as [Hle | Hnle]; split; intros H.
  - discriminate.
  - lra.
  - now apply Rnot_le_lt.
  - reflexivity.
Qed.

(** [Vector2::Normalize] does what the two-stage guard says, in its three
    cases. *)
Lemma Vector2_Normalize_cases (v : Vector2.t R) :
  (Rabs (Vector2.MagnitudeSquared v - 1) <= Vector2.Epsilon ->
     Vector2.Normalize v = v) /\
  (Rabs (Vector2.MagnitudeSquared v - 0) <= Vector2.Epsilon ->
     Vector2.Normalize v = v) /\
  (Vector2.Epsilon < Rabs (Vector2.MagnitudeSquared v - 1) ->
   Vector2.Epsilon < Rabs (Vector2.MagnitudeSquared v - 0) ->
     Vector2.Normalize v =
       Vector2.mk (Vector2.x v / sqrt (Vector2.MagnitudeSquared v))
                  (Vector2.y v / sqrt (Vector2.MagnitudeSquared v))).
Proof.
  unfold Vector2.Normalize; repeat split.
  - intros H. apply CloseEnough_real in H. real_ops. now rewrite H.
  - intros H. apply CloseEnough_real in H. real_ops. rewrite H.
    match goal with |- (if ?c then _ else _) = _ => destruct c end; reflexivity.
  - intros H1 H0.
    apply CloseEnough_real_false in H1. apply CloseEnough_real_false in H0.
    real_ops. now rewrite H1, H0.
Qed.

(** What [Vector3::Normalized] computes: the first guard has no absolute
    value, and lets every vector of squared magnitude at most
    [1 + Epsilon] through. *)
Lemma Vector3_Normalized_short (v : Vector3.t R) :
  Vector3.MagnitudeSquared v <= 1 + Vector3.Epsilon ->
  Vector3.Normalized v = v.
Proof.
  intros H. unfold Vector3.Normalized. real_ops.
  rewrite Rleb_true by lra. reflexivity.
Qed.

Lemma Vector3_Normalized_long (v : Vector3.t R) :
  eps < / 3 ->
  1 + Vector3.Epsilon < Vector3.MagnitudeSquared v ->
  Vector3.Normalized v =
    Vector3.times_float v (1 / sqrt (Vector3.MagnitudeSquared v)).
Proof.
  intros He H. unfold Vector3.Normalized. real_ops.
  rewrite Rleb_false by lra.
  assert (Hs : 1 < sqrt (Vector3.MagnitudeSquared v)).
  { rewrite <- sqrt_1 at 1. apply sqrt_lt_1_alt.
    unfold Vector3.Epsilon in H; real_ops. lra. }
  rewrite Rltb_false; [reflexivity|].
  unfold Vector3.Epsilon; real_ops. lra.
Qed.

End NormalizeReal.

(** Concrete inputs: the real model at [FloatEpsilon = 2^-23], and binary32. *)
Section NormalizeConcrete.
Import RealModel.
Local Open Scope R_scope.

#[local] Hint Extern 0 (Scalar R) =>
  exact (R_Scalar FLT_EPSILON) : typeclass_instances.

(** C3 (the code misses it).  [Vector3(0.5, 0, 0)] has squared magnitude
    0.25, which is within [Epsilon] neither of 1 nor of 0; the claim has it
    rescaled to [(1, 0, 0)], and [Vector3::Normalized] and
    [Vector3::Normalize] return it unchanged: their first guard is
    [magnitude - 1.0f <= Epsilon], without the absolute value. *)
Theorem Vector3_Normalized_half_unchanged :
  let v : Vector3.t R := Vector3.of_xyz (/ 2) 0 0 in
  Vector3.MagnitudeSquared v = / 4
  /\ CloseEnough (Vector3.MagnitudeSquared v) 1 Vector3.Epsilon = false
  /\ CloseEnough (Vector3.MagnitudeSquared v) 0 Vector3.Epsilon = false
  /\ Vector3.Normalized v = v
  /\ Vector3.Normalize v = v
  /\ Vector3.times_float v (1 / Vector3.Magnitude v) = Vector3.of_xyz 1 0 0
  /\ v <> Vector3.of_xyz 1 0 0.
Proof.
  intros v.
  assert (Hm : Vector3.MagnitudeSquared v = / 4).
  { unfold v; cbv [Vector3.MagnitudeSquared Vector3.of_xyz Vector3._mm_set_ps
      Vector3._mm_mul_ps Vector3.lanewise Vector3.and_MASK Vector3._mm_hadd_ps
      Vector3._mm_cvtss_f32 Vector3.x Vector3.y Vector3.z Vector3.w].
    real_ops. lra. }
  assert (He : Vector3.Epsilon = 3 * FLT_EPSILON).
  { unfold Vector3.Epsilon; real_ops; lra. }
  pose proof FLT_EPSILON_pos as Hp.
  assert (Hq : FLT_EPSILON < / 16) by (unfold FLT_EPSILON; lra).
  repeat split.
  - exact Hm.
  - rewrite Hm, He. unfold CloseEnough; real_ops.
    apply Rleb_false. replace (/ 4 - 1) with (- (3 / 4)) by lra.
    rewrite Rabs_Ropp, Rabs_pos_eq; lra.
  - rewrite Hm, He. unfold CloseEnough; real_ops.
    apply Rleb_false. replace (/ 4 - 0) with (/ 4) by lra.
    rewrite Rabs_pos_eq; lra.
  - unfold Vector3.Normalized. rewrite Hm, He. real_ops.
    rewrite Rleb_true by lra. reflexivity.
  - unfold Vector3.Normalize. rewrite Hm, He. real_ops.
    rewrite Rleb_true by lra. reflexivity.
  - unfold Vector3.Magnitude. fold (Vector3.MagnitudeSquared v). rewrite Hm.
    real_ops.
    replace (/ 4) with (/ 2 * / 2) by lra.
    rewrite sqrt_square by lra.
    unfold v; cbv [Vector3.times_float Vector3.of_xyz Vector3._mm_set_ps
      Vector3._mm_set1_ps Vector3._mm_mul_ps Vector3.lanewise
      Vector3.x Vector3.y Vector3.z Vector3.w].
    real_ops. f_equal; lra.
  - unfold v; cbv [Vector3.of_xyz Vector3._mm_set_ps]. real_ops.
    intros H; injection H; lra.
Qed.

End NormalizeConcrete.

Section NormalizeBinary32.
#[local] Existing Instance Binary32.B32_Scalar.
Local Open Scope scalar_scope.

(** The same input in binary32: [0.5f] is returned as it is. *)
Lemma binary32_Normalized_of_half :
  let v : Vector3.t spec_float := Vector3.of_xyz half (lit 0) (lit 0) in
  CloseEnough (Vector3.MagnitudeSquared v) (lit 1) Vector3.Epsilon = false
  /\ CloseEnough (Vector3.MagnitudeSquared v) (lit 0) Vector3.Epsilon = false
  /\ Vector3.Normalized v = v
  /\ Vector3.Normalize v = v
  /\ Vector3.times_float v (lit 1 / Vector3.Magnitude v)
     = Vector3.of_xyz (lit 1) (lit 0) (lit 0).
Proof. vm_compute. repeat split. Qed.

(** [Vector2::Normalized], the sibling, does rescale it. *)
Lemma binary32_Vector2_rescales_half :
  Vector2.Normalized (Vector2.mk half (lit 0)) = Vector2.mk (lit 1) (lit 0).
Proof. vm_compute. reflexivity. Qed.

End NormalizeBinary32.

(** ** Lerp *)

Section LerpGeneric.
Context {F : Type} {SF : Scalar F}.

(** [Vector3::Lerp] is the formula, whatever the scalars are. *)
Lemma Vector3_Lerp_formula (a b : Vector3.t F) (t0 : F) :
  Vector3.Lerp a b t0
  = Vector3.plus a (Vector3.times_float (Vector3.minus b a) t0).
Proof. reflexivity. Qed.

End LerpGeneric.

Section LerpReal.
Import RealModel.
Local Open Scope R_scope.

Variable eps : R.

#[local] Hint Extern 0 (Scalar R) => exact (R_Scalar eps) : typeclass_instances.

Lemma Vector2_Set_id (a : Vector2.t R) : Vector2.Set_ a = a.
Proof. now destruct a. Qed.

Lemma Vector2_formula_0 (a b : Vector2.t R) :
  Vector2.plus a (Vector2.times_float (Vector2.minus b a) 0) = a.
Proof.
  destruct a, b; cbv [Vector2.plus Vector2.times_float Vector2.minus
    Vector2.x Vector2.y]; real_ops; f_equal; lra.
Qed.

Lemma Vector2_formula_1 (a b : Vector2.t R) :
  Vector2.plus a (Vector2.times_float (Vector2.minus b a) 1) = b.
Proof.
  destruct a, b; cbv [Vector2.plus Vector2.times_float Vector2.minus
    Vector2.x Vector2.y]; real_ops; f_equal; lra.
Qed.

Lemma Vector2_formula_same (a : Vector2.t R) (t0 : R) :
  Vector2.plus a (Vector2.times_float (Vector2.minus a a) t0) = a.
Proof.
  destruct a; cbv [Vector2.plus Vector2.times_float Vector2.minus
    Vector2.x Vector2.y]; real_ops; f_equal; lra.
Qed.

(** The three cases of [Vector2::Lerp]. *)
Lemma Vector2_Lerp_cases (a b : Vector2.t R) (t0 : R) :
  (Rabs (t0 - 0) <= Vector2.Epsilon -> Vector2.Lerp a b t0 = a) /\
  (Vector2.Epsilon < Rabs (t0 - 0) -> Rabs (t0 - 1) <= Vector2.Epsilon ->
     Vector2.Lerp a b t0 = b) /\
  (Vector2.Epsilon < Rabs (t0 - 0) -> Vector2.Epsilon < Rabs (t0 - 1) ->
     Vector2.Lerp a b t0
     = Vector2.plus a (Vector2.times_float (Vector2.minus b a) t0)).
Proof.
  unfold Vector2.Lerp, Vector2.Lerp_out, CloseEnough; real_ops.
  rewrite !Vector2_Set_id. repeat split.
  - intros H. now rewrite Rleb_true.
  - intros H0 H1. now rewrite Rleb_false, Rleb_true.
  - intros H0 H1. now rewrite !Rleb_false.
Qed.

Lemma Rabs_0_minus_1 : Rabs (0 - 1) = 1.
Proof. replace (0 - 1) with (- (1)) by lra. now rewrite Rabs_Ropp, Rabs_R1. Qed.

Lemma Rabs_x_minus_x (r : R) : Rabs (r - r) = 0.
Proof. replace (r - r) with 0 by lra. apply Rabs_R0. Qed.

Lemma Rabs_1_minus_0 : Rabs (1 - 0) = 1.
Proof. replace (1 - 0) with 1 by lra. apply Rabs_R1. Qed.

Lemma Vector2_Lerp_0 (a b : Vector2.t R) : Vector2.Lerp a b 0 = a.
Proof.
  destruct (Vector2_Lerp_cases a b 0) as (Hnear0 & _ & Hfar).
  destruct (Rle_lt_dec (Rabs (0 - 0)) Vector2.Epsilon) as [H | H].
  - now apply Hnear0.
  - rewrite Hfar; [apply Vector2_formula_0 | exact H |].
    rewrite Rabs_x_minus_x in H. rewrite Rabs_0_minus_1. lra.
Qed.

Lemma Vector2_Lerp_1 (a b : Vector2.t R) :
  eps < / 2 -> Vector2.Lerp a b 1 = b.
Proof.
  intros He.
  destruct (Vector2_Lerp_cases a b 1) as (_ & Hnear1 & Hfar).
  assert (H0 : Vector2.Epsilon < Rabs (1 - 0)).
  { rewrite Rabs_1_minus_0. unfold Vector2.Epsilon; real_ops. lra. }
  destruct (Rle_lt_dec (Rabs (1 - 1)) Vector2.Epsilon) as [H | H].
  - now apply Hnear1.
  - rewrite Hfar by assumption. apply Vector2_formula_1.
Qed.

Lemma Vector2_Lerp_same (a : Vector2.t R) (t0 : R) : Vector2.Lerp a a t0 = a.
Proof.
  unfold Vector2.Lerp, Vector2.Lerp_out. rewrite !Vector2_Set_id.
  rewrite Vector2_formula_same.
  repeat match goal with |- (if ?c then _ else _) = _ => destruct c end;
    reflexivity.
Qed.

Lemma Vector3_Lerp_0 (a b : Vector3.t R) : Vector3.Lerp a b 0 = a.
Proof.
  destruct a, b; cbv [Vector3.Lerp Vector3.plus Vector3.times_float
    Vector3.minus Vector3._mm_add_ps Vector3._mm_sub_ps Vector3._mm_mul_ps
    Vector3._mm_set1_ps Vector3.lanewise Vector3.x Vector3.y Vector3.z
    Vector3.w]; real_ops; f_equal; lra.
Qed.

Lemma Vector3_Lerp_1 (a b : Vector3.t R) : Vector3.Lerp a b 1 = b.
Proof.
  destruct a, b; cbv [Vector3.Lerp Vector3.plus Vector3.times_float
    Vector3.minus Vector3._mm_add_ps Vector3._mm_sub_ps Vector3._mm_mul_ps
    Vector3._mm_set1_ps Vector3.lanewise Vector3.x Vector3.y Vector3.z
    Vector3.w]; real_ops; f_equal; lra.
Qed.

Lemma Vector3_Lerp_same (a : Vector3.t R) (t0 : R) : Vector3.Lerp a a t0 = a.
Proof.
  destruct a; cbv [Vector3.Lerp Vector3.plus Vector3.times_float
    Vector3.minus Vector3._mm_add_ps Vector3._mm_sub_ps Vector3._mm_mul_ps
    Vector3._mm_set1_ps Vector3.lanewise Vector3.x Vector3.y Vector3.z
    Vector3.w]; real_ops; f_equal; lra.
Qed.

(** C6, as amended.  [Vector3::Lerp(a, b, t)] is [a + (b - a) * t] for every
    [t]; [Vector2::Lerp(a, b, t)] is [a] when [t] is within [Epsilon] of 0,
    [b] when [t] is within [Epsilon] of 1 (and not of 0), and the formula
    otherwise; with both, in exact arithmetic and for [FloatEpsilon] below
    one half, [Lerp(a, b, 0) = a], [Lerp(a, b, 1) = b] and
    [Lerp(a, a, t) = a]. *)
Theorem Lerp_formula_and_endpoints (He : eps < / 2) :
  (forall (a b : Vector3.t R) (t0 : R),
     Vector3.Lerp a b t0
     = Vector3.plus a (Vector3.times_float (Vector3.minus b a) t0))
  /\ (forall (a b : Vector2.t R) (t0 : R),
     (Rabs (t0 - 0) <= Vector2.Epsilon -> Vector2.Lerp a b t0 = a) /\
     (Vector2.Epsilon < Rabs (t0 - 0) -> Rabs (t0 - 1) <= Vector2.Epsilon ->
        Vector2.Lerp a b t0 = b) /\
     (Vector2.Epsilon < Rabs (t0 - 0) -> Vector2.Epsilon < Rabs (t0 - 1) ->
        Vector2.Lerp a b t0
        = Vector2.plus a (Vector2.times_float (Vector2.minus b a) t0)))
  /\ (forall a b : Vector3.t R,
        Vector3.Lerp a b 0 = a /\ Vector3.Lerp a b 1 = b)
  /\ (forall (a : Vector3.t R) (t0 : R), Vector3.Lerp a a t0 = a)
  /\ (forall a b : Vector2.t R,
        Vector2.Lerp a b 0 = a /\ Vector2.Lerp a b 1 = b)
  /\ (forall (a : Vector2.t R) (t0 : R), Vector2.Lerp a a t0 = a).
Proof.
  repeat apply conj.
  - intros; apply Vector3_Lerp_formula.
  - apply Vector2_Lerp_cases.
  - intros a b; split; [apply Vector3_Lerp_0 | apply Vector3_Lerp_1].
  - apply Vector3_Lerp_same.
  - intros a b; split; [apply Vector2_Lerp_0 | now apply Vector2_Lerp_1].
  - apply Vector2_Lerp_same.
Qed.

End LerpReal.

Section LerpConcrete.
Import RealModel.
Local Open Scope R_scope.

#[local] Hint Extern 0 (Scalar R) =>
  exact (R_Scalar FLT_EPSILON) : typeclass_instances.

(** The amended C6 at [FloatEpsilon = 2^-23]. *)
Lemma Lerp_formula_and_endpoints_witness :
  FLT_EPSILON < / 2
  /\ Vector2.Lerp (Vector2.mk 1 2) (Vector2.mk 3 4) 1 = Vector2.mk 3 4
  /\ Vector3.Lerp (Vector3.of_xyz 1 2 3) (Vector3.of_xyz 1 2 3) 7
     = Vector3.of_xyz 1 2 3.
Proof.
  assert (He : FLT_EPSILON < / 2) by (unfold FLT_EPSILON; lra).
  split; [exact He|].
  destruct (Lerp_formula_and_endpoints He) as (_ & _ & _ & H3 & H2 & _).
  split; [apply (H2 (Vector2.mk 1 2) (Vector2.mk 3 4)) | apply H3].
Defined.

(** C6 as stated fails for [Vector2]: at [t = 2^-23], within [Epsilon] of 0,
    [Vector2::Lerp((0, 0), (2^24, 0), t)] is [(0, 0)], and
    [a + (b - a) * t] is [(2, 0)]; the two are not within [Epsilon] of each
    other. *)
Lemma Vector2_Lerp_snaps_to_a :
  let a : Vector2.t R := Vector2.mk 0 0 in
  let b : Vector2.t R := Vector2.mk 16777216 0 in
  let t0 : R := FLT_EPSILON in
  Vector2.Lerp a b t0 = Vector2.mk 0 0
  /\ Vector2.plus a (Vector2.times_float (Vector2.minus b a) t0)
     = Vector2.mk 2 0
  /\ Vector2.Lerp a b t0
     <> Vector2.plus a (Vector2.times_float (Vector2.minus b a) t0)
  /\ CloseEnough
       (Vector2.x (Vector2.Lerp a b t0))
       (Vector2.x (Vector2.plus a (Vector2.times_float (Vector2.minus b a) t0)))
       Vector2.Epsilon = false.
Proof.
  intros a b t0.
  assert (HL : Vector2.Lerp a b t0 = Vector2.mk 0 0).
  { apply (Vector2_Lerp_cases FLT_EPSILON a b t0).
    unfold t0, Vector2.Epsilon, FLT_EPSILON; real_ops.
    rewrite Rabs_pos_eq; lra. }
  assert (HF : Vector2.plus a (Vector2.times_float (Vector2.minus b a) t0)
               = Vector2.mk 2 0).
  { unfold a, b, t0, FLT_EPSILON.
    cbv [Vector2.plus Vector2.times_float Vector2.minus Vector2.x Vector2.y].
    real_ops. f_equal; lra. }
  rewrite HL, HF. repeat split.
  - intros H; injection H; lra.
  - cbv [Vector2.x]. apply CloseEnough_real_false.
    unfold Vector2.Epsilon, FLT_EPSILON; real_ops.
    replace (0 - 2) with (- (2)) by lra.
    rewrite Rabs_Ropp, Rabs_pos_eq; lra.
Qed.

End LerpConcrete.

Section LerpBinary32.
#[local] Existing Instance Binary32.B32_Scalar.
Local Open Scope scalar_scope.

(** The same input in binary32, where every operation involved is exact. *)
Lemma binary32_Lerp_near_zero :
  let a : Vector2.t spec_float := Vector2.mk (lit 0) (lit 0) in
  let b : Vector2.t spec_float := Vector2.mk (lit 16777216) (lit 0) in
  let t0 : spec_float := FloatEpsilon in
  Vector2.Lerp a b t0 = Vector2.mk (lit 0) (lit 0)
  /\ Vector2.plus a (Vector2.times_float (Vector2.minus b a) t0)
     = Vector2.mk (lit 2) (lit 0).
Proof. vm_compute. split; reflexivity. Qed.

End LerpBinary32.

(** ** Quaternion to matrix and back *)

(** The closing steps of the round trip, once the goal speaks of the
    components of the quaternion only: [v] is the component the branch at
    hand divides by. *)
Ltac extracted_by v :=
  solve
    [ destruct (Rtotal_order v 0%R) as [Hv | [Hv | Hv]];
      [ exists (-1)%R | exfalso; nra | exists 1%R ];
      (split; [auto|]);
      [ match goal with |- context [sqrt ?e] =>
          rewrite (sqrt_lem_1 e (- (2 * v))%R) by nra end
      | match goal with |- context [sqrt ?e] =>
          rewrite (sqrt_lem_1 e (2 * v)%R) by nra end ];
      f_equal; f_equal; field; lra ].

Ltac round_trip_unfold :=
  cbv [Quaternion._mm_rcp_ps Vector3._mm_div_ps Vector3._mm_mul_ps
       Vector3._mm_set1_ps Vector3.lanewise
       Vector3.times_float Vector3.of_Vector4 Vector3.of_xyz Vector3._mm_set_ps
       Vector3.x Vector3.y Vector3.z Vector3.w
       Matrix4x4.of_Quaternion Matrix4x4.r0 Matrix4x4.r1 Matrix4x4.r2
       Vector4.plus Vector4.times Vector4.times_float
       Vector4.x Vector4.y Vector4.z Vector4.w
       Quaternion._XO_ASSIGN_QUAT Quaternion.mk Quaternion.defined
       Vector4.defined Vector4.map].

Section RoundTripReal.
Import RealModel.
Local Open Scope R_scope.

Variable eps : R.

#[local] Hint Extern 0 (Scalar R) => exact (R_Scalar eps) : typeclass_instances.

(** The masked horizontal sum is the sum of the three squares. *)
Lemma Vector3_Magnitude_real (v : Vector3.t R) :
  Vector3.Magnitude v
  = sqrt (Vector3.x v * Vector3.x v + Vector3.y v * Vector3.y v
          + Vector3.z v * Vector3.z v).
Proof.
  unfold Vector3.Magnitude.
  cbv [Vector3.and_MASK Vector3._mm_mul_ps Vector3.lanewise Vector3._mm_hadd_ps
       Vector3._mm_cvtss_f32 Vector3.x Vector3.y Vector3.z Vector3.w].
  real_ops. destruct v; f_equal; lra.
Qed.

(** The three rotation rows of the matrix of a unit quaternion have
    length 1. *)
Lemma of_Quaternion_rows_unit (q : Quaternion.t R) :
  unit_quaternion q ->
  Vector3.Magnitude
    (Vector3.of_Vector4 (Matrix4x4.r0 (Matrix4x4.of_Quaternion q))) = 1 /\
  Vector3.Magnitude
    (Vector3.of_Vector4 (Matrix4x4.r1 (Matrix4x4.of_Quaternion q))) = 1 /\
  Vector3.Magnitude
    (Vector3.of_Vector4 (Matrix4x4.r2 (Matrix4x4.of_Quaternion q))) = 1.
Proof.
  destruct q as [x y z w].
  unfold unit_quaternion, Quaternion.x, Quaternion.y, Quaternion.z, Quaternion.w.
  cbn [Vector4.x Vector4.y Vector4.z Vector4.w]. intros HN.
  rewrite !Vector3_Magnitude_real.
  round_trip_unfold. real_ops.
  assert (E : forall a, a = 1 -> sqrt a = 1) by (intros a ->; apply sqrt_1).
  repeat split; apply E.
  - match goal with |- ?e = 1 =>
      replace e with
        (1 + 4 * (y * y + z * z) * (x * x + y * y + z * z + w * w - 1))
        by ring end.
    rewrite HN; ring.
  - match goal with |- ?e = 1 =>
      replace e with
        (1 + 4 * (x * x + z * z) * (x * x + y * y + z * z + w * w - 1))
        by ring end.
    rewrite HN; ring.
  - match goal with |- ?e = 1 =>
      replace e with
        (1 + 4 * (x * x + y * y) * (x * x + y * y + z * z + w * w - 1))
        by ring end.
    rewrite HN; ring.
Qed.

(** What the round trip computes, for every unit quaternion, in every build,
    in exact arithmetic: the components [y] and [z] change places (and the
    sign of the whole may flip).  The four branches of the extraction assign
    the expression of [z] to [y] and that of [y] to [z]. *)
Lemma round_trip_swaps_y_z
  (XO_SSE XO_NO_INVERSE_DIVISION : bool) (q : Quaternion.t R)
  (this : Quaternion.t (option R)) :
  eps < 1 ->
  unit_quaternion q ->
  exists s : R, (s = 1 \/ s = -1) /\
    Quaternion.ctor_Matrix4x4 XO_SSE XO_NO_INVERSE_DIVISION
      (Matrix4x4.of_Quaternion q) this
    = Quaternion.defined
        (Quaternion.mk (s * Quaternion.x q) (s * Quaternion.z q)
                       (s * Quaternion.y q) (s * Quaternion.w q)).
Proof.
  intros He HN.
  destruct (of_Quaternion_rows_unit HN) as (H0 & H1 & H2).
  unfold Quaternion.ctor_Matrix4x4.
  rewrite H0, H1, H2.
  cbn [Vector3.x Vector3.y Vector3.z Vector3.of_xyz Vector3._mm_set_ps].
  real_ops. real_cmp. cbn [orb].
  clear H0 H1 H2.
  destruct q as [x y z w].
  unfold unit_quaternion, Quaternion.x, Quaternion.y, Quaternion.z,
    Quaternion.w in *.
  cbn [Vector4.x Vector4.y Vector4.z Vector4.w] in HN.
  assert (E11 : 1 / 1 = 1) by lra.
  destruct XO_SSE, XO_NO_INVERSE_DIVISION;
    round_trip_unfold; real_ops; rewrite !E11, !Rmult_1_r; unfold Rltb;
    repeat (match goal with |- context [Rlt_dec ?a ?b] =>
              destruct (Rlt_dec a b) end; cbn [andb]);
    first [ extracted_by w | extracted_by x | extracted_by y | extracted_by z ].
Qed.

(** With the scalar part above one half the extraction takes the
    trace-dominant branch and the sign is kept: the round trip of
    [(x, y, z, w)] is exactly [(x, z, y, w)]. *)
Lemma round_trip_trace_branch
  (XO_SSE XO_NO_INVERSE_DIVISION : bool) (q : Quaternion.t R)
  (this : Quaternion.t (option R)) :
  eps < 1 ->
  unit_quaternion q ->
  / 2 < Quaternion.w q ->
  Quaternion.ctor_Matrix4x4 XO_SSE XO_NO_INVERSE_DIVISION
    (Matrix4x4.of_Quaternion q) this
  = Quaternion.defined
      (Quaternion.mk (Quaternion.x q) (Quaternion.z q)
                     (Quaternion.y q) (Quaternion.w q)).
Proof.
  intros He HN Hw.
  destruct (of_Quaternion_rows_unit HN) as (H0 & H1 & H2).
  unfold Quaternion.ctor_Matrix4x4.
  rewrite H0, H1, H2.
  cbn [Vector3.x Vector3.y Vector3.z Vector3.of_xyz Vector3._mm_set_ps].
  real_ops. real_cmp. cbn [orb].
  clear H0 H1 H2.
  destruct q as [x y z w].
  unfold unit_quaternion, Quaternion.x, Quaternion.y, Quaternion.z,
    Quaternion.w in *.
  cbn [Vector4.x Vector4.y Vector4.z Vector4.w] in HN, Hw.
  assert (E11 : 1 / 1 = 1) by lra.
  destruct XO_SSE, XO_NO_INVERSE_DIVISION;
    round_trip_unfold; real_ops; rewrite !E11, !Rmult_1_r;
    (rewrite Rltb_true by nra);
    match goal with |- context [sqrt ?e] =>
      rewrite (sqrt_lem_1 e (2 * w)) by nra end;
    f_equal; f_equal; field; lra.
Qed.

End RoundTripReal.

Section RoundTripConcrete.
Import RealModel.
Local Open Scope R_scope.

#[local] Hint Extern 0 (Scalar R) =>
  exact (R_Scalar FLT_EPSILON) : typeclass_instances.

(** C1 (the code misses it).  The unit quaternion [q = (0, 3/5, 0, 4/5)], a
    rotation about the y axis, is turned by [Matrix4x4(q)] and
    [Quaternion(M)] into [(0, 0, 3/5, 4/5)], a rotation about the z axis, in
    every build; its component [y] is within [Epsilon] neither of that of [q]
    nor of that of [-q]. *)
Theorem round_trip_loses_q :
  let q : Quaternion.t R := Quaternion.mk 0 (3 / 5) 0 (4 / 5) in
  unit_quaternion q
  /\ (forall (XO_SSE XO_NO_INVERSE_DIVISION : bool)
             (this : Quaternion.t (option R)),
        Quaternion.ctor_Matrix4x4 XO_SSE XO_NO_INVERSE_DIVISION
          (Matrix4x4.of_Quaternion q) this
        = Quaternion.defined (Quaternion.mk 0 0 (3 / 5) (4 / 5)))
  /\ CloseEnough (Quaternion.y (Quaternion.mk 0 0 (3 / 5) (4 / 5)))
                 (Quaternion.y q) Quaternion.Epsilon = false
  /\ CloseEnough (Quaternion.y (Quaternion.mk 0 0 (3 / 5) (4 / 5)))
                 (- Quaternion.y q) Quaternion.Epsilon = false.
Proof.
  intros q.
  assert (HN : unit_quaternion q).
  { unfold unit_quaternion, q; cbn. lra. }
  assert (He : FLT_EPSILON < / 16) by (unfold FLT_EPSILON; lra).
  pose proof FLT_EPSILON_pos as Hp.
  split; [exact HN|]. split; [|split].
  - intros sse ninv this.
    rewrite (@round_trip_trace_branch FLT_EPSILON sse ninv q this);
      [reflexivity | lra | exact HN | unfold q; cbn; lra].
  - unfold q; cbn [Quaternion.y Quaternion.mk Vector4.y].
    apply CloseEnough_real_false. unfold Quaternion.Epsilon; real_ops.
    replace (0 - 3 / 5) with (- (3 / 5)) by lra.
    rewrite Rabs_Ropp, Rabs_pos_eq; lra.
  - unfold q; cbn [Quaternion.y Quaternion.mk Vector4.y].
    apply CloseEnough_real_false. unfold Quaternion.Epsilon; real_ops.
    replace (0 - - (3 / 5)) with (3 / 5) by lra.
    rewrite Rabs_pos_eq; lra.
Qed.

End RoundTripConcrete.

Section RoundTripBinary32.
#[local] Existing Instance Binary32.B32_Scalar.
Local Open Scope scalar_scope.

(** The same in binary32, from [q = (0, 0.6f, 0, 0.8f)]: the result is
    [(0, 0, 0.6f, 0.8f)], bit for bit. *)
Lemma binary32_round_trip :
  let q : Quaternion.t spec_float :=
    Quaternion.mk (lit 0) (lit 3 / lit 5) (lit 0) (lit 4 / lit 5) in
  (forall (XO_SSE XO_NO_INVERSE_DIVISION : bool)
          (this : Quaternion.t (option spec_float)),
     Quaternion.ctor_Matrix4x4 XO_SSE XO_NO_INVERSE_DIVISION
       (Matrix4x4.of_Quaternion q) this
     = Quaternion.defined
         (Quaternion.mk (lit 0) (lit 0) (lit 3 / lit 5) (lit 4 / lit 5)))
  /\ CloseEnough (lit 0) (Quaternion.y q) Quaternion.Epsilon = false
  /\ CloseEnough (lit 0) (- Quaternion.y q) Quaternion.Epsilon = false.
Proof.
  split; [|split; vm_compute; reflexivity].
  intros sse ninv this; destruct sse, ninv; vm_compute; reflexivity.
Qed.

End RoundTripBinary32.

(** ** Matrix to quaternion: the degenerate axes and the branch on the trace *)

Section ExtractionGeneric.
Context {F : Type} {SF : Scalar F}.
Local Open Scope scalar_scope.

(** When the length of one of the three rows is at or below [FloatEpsilon],
    the scalar build assigns the identity quaternion, and the SSE build
    returns before it has assigned anything. *)
Lemma ctor_Matrix4x4_near_zero_axis
  (XO_SSE XO_NO_INVERSE_DIVISION : bool) (mat : Matrix4x4.t F)
  (this : Quaternion.t (option F)) :
  (Vector3.Magnitude (Vector3.of_Vector4 (Matrix4x4.r0 mat)) <=? FloatEpsilon)
  || (Vector3.Magnitude (Vector3.of_Vector4 (Matrix4x4.r1 mat)) <=? FloatEpsilon)
  || (Vector3.Magnitude (Vector3.of_Vector4 (Matrix4x4.r2 mat)) <=? FloatEpsilon)
  = true ->
  Quaternion.ctor_Matrix4x4 XO_SSE XO_NO_INVERSE_DIVISION mat this
  = if XO_SSE then this else Quaternion.defined Quaternion.Identity.
Proof.
  intros H. unfold Quaternion.ctor_Matrix4x4.
  cbn [Vector3.x Vector3.y Vector3.z Vector3.of_xyz Vector3._mm_set_ps].
  rewrite H. reflexivity.
Qed.

End ExtractionGeneric.

Section ExtractionReal.
Import RealModel.
Local Open Scope R_scope.

Variable eps : R.
Hypothesis eps_nonneg : 0 <= eps.

#[local] Hint Extern 0 (Scalar R) => exact (R_Scalar eps) : typeclass_instances.

(** Rescaling by the reciprocal of the length gives a row of length 1. *)
Lemma Vector3_rescaled_unit (v : Vector3.t R) :
  0 < Vector3.Magnitude v ->
  Vector3.Magnitude (Vector3.times_float v (1 / Vector3.Magnitude v)) = 1.
Proof.
  intros Hm. rewrite (Vector3_Magnitude_real eps (Vector3.times_float _ _)).
  cbv [Vector3.times_float Vector3._mm_mul_ps Vector3._mm_set1_ps
       Vector3.lanewise Vector3.x Vector3.y Vector3.z Vector3.w].
  real_ops. fold (Vector3.x v) (Vector3.y v) (Vector3.z v).
  set (m := Vector3.Magnitude v) in *.
  assert (Hmm : m * m = Vector3.x v * Vector3.x v + Vector3.y v * Vector3.y v
                        + Vector3.z v * Vector3.z v).
  { unfold m. rewrite (Vector3_Magnitude_real eps v). apply sqrt_sqrt. nra. }
  assert (E : forall a, a = 1 -> sqrt a = 1) by (intros a ->; apply sqrt_1).
  apply E.
  match goal with |- ?e = 1 =>
    replace e with
      ((Vector3.x v * Vector3.x v + Vector3.y v * Vector3.y v
        + Vector3.z v * Vector3.z v) / (m * m)) by (field; lra) end.
  rewrite <- Hmm. field. lra.
Qed.

(** The scalar build does what C7 says: the identity quaternion when an axis
    is near zero; otherwise rows of length 1 and the trace-dominant branch
    exactly when the trace is above 1. *)
Lemma ctor_Matrix4x4_scalar_build
  (XO_NO_INVERSE_DIVISION : bool) (mat : Matrix4x4.t R)
  (this : Quaternion.t (option R)) :
  let sx := Vector3.Magnitude (Vector3.of_Vector4 (Matrix4x4.r0 mat)) in
  let sy := Vector3.Magnitude (Vector3.of_Vector4 (Matrix4x4.r1 mat)) in
  let sz := Vector3.Magnitude (Vector3.of_Vector4 (Matrix4x4.r2 mat)) in
  let xAxis := Vector3.times_float (Vector3.of_Vector4 (Matrix4x4.r0 mat)) (1 / sx) in
  let yAxis := Vector3.times_float (Vector3.of_Vector4 (Matrix4x4.r1 mat)) (1 / sy) in
  let zAxis := Vector3.times_float (Vector3.of_Vector4 (Matrix4x4.r2 mat)) (1 / sz) in
  let trace := Vector3.x xAxis + Vector3.y yAxis + Vector3.z zAxis + 1 in
  (sx <= eps \/ sy <= eps \/ sz <= eps ->
     Quaternion.ctor_Matrix4x4 false XO_NO_INVERSE_DIVISION mat this
     = Quaternion.defined (Quaternion.mk 0 0 0 1))
  /\ (eps < sx -> eps < sy -> eps < sz ->
      Vector3.Magnitude xAxis = 1 /\ Vector3.Magnitude yAxis = 1
      /\ Vector3.Magnitude zAxis = 1
      /\ (1 < trace ->
          Quaternion.ctor_Matrix4x4 false XO_NO_INVERSE_DIVISION mat this
          = Quaternion.defined
              (Quaternion._XO_ASSIGN_QUAT
                 (/ 4 / (/ 2 / sqrt trace))
                 ((Vector3.z yAxis - Vector3.y zAxis) * (/ 2 / sqrt trace))
                 ((Vector3.y xAxis - Vector3.x yAxis) * (/ 2 / sqrt trace))
                 ((Vector3.x zAxis - Vector3.z xAxis) * (/ 2 / sqrt trace))))
      /\ (trace <= 1 ->
          Quaternion.ctor_Matrix4x4 false XO_NO_INVERSE_DIVISION mat this
          = if Rltb (Vector3.y yAxis) (Vector3.x xAxis)
               && Rltb (Vector3.z zAxis) (Vector3.x xAxis)
            then
              let s := / 2 / sqrt (1 + Vector3.x xAxis - Vector3.y yAxis
                                   - Vector3.z zAxis) in
              Quaternion.defined
                (Quaternion._XO_ASSIGN_QUAT
                   ((Vector3.z yAxis - Vector3.y zAxis) * s)
                   (/ 4 / s)
                   ((Vector3.x zAxis + Vector3.z xAxis) * s)
                   ((Vector3.x yAxis + Vector3.y xAxis) * s))
            else if Rltb (Vector3.z zAxis) (Vector3.y yAxis)
            then
              let s := / 2 / sqrt (1 + Vector3.y yAxis - Vector3.x xAxis
                                   - Vector3.z zAxis) in
              Quaternion.defined
                (Quaternion._XO_ASSIGN_QUAT
                   ((Vector3.x zAxis - Vector3.z xAxis) * s)
                   ((Vector3.x yAxis + Vector3.y xAxis) * s)
                   ((Vector3.y zAxis + Vector3.z yAxis) * s)
                   (/ 4 / s))
            else
              let s := / 2 / sqrt (1 + Vector3.z zAxis - Vector3.x xAxis
                                   - Vector3.y yAxis) in
              Quaternion.defined
                (Quaternion._XO_ASSIGN_QUAT
                   ((Vector3.y xAxis - Vector3.x yAxis) * s)
                   ((Vector3.x zAxis + Vector3.z xAxis) * s)
                   (/ 4 / s)
                   ((Vector3.y zAxis + Vector3.z yAxis) * s)))).
Proof.
  intros sx sy sz xAxis yAxis zAxis trace. split.
  - intros H.
    rewrite ctor_Matrix4x4_near_zero_axis; [reflexivity|].
    real_ops. fold sx sy sz.
    destruct H as [H | [H | H]]; rewrite (Rleb_true H);
      rewrite ?orb_true_r; reflexivity.
  - intros Hx Hy Hz.
    repeat split; try (apply Vector3_rescaled_unit; fold sx sy sz; lra).
    + intros Ht. unfold Quaternion.ctor_Matrix4x4.
      cbn [Vector3.x Vector3.y Vector3.z Vector3.of_xyz Vector3._mm_set_ps].
      real_ops. fold sx sy sz. real_cmp. cbn [orb].
      fold xAxis yAxis zAxis. fold trace.
      rewrite Rltb_true by exact Ht. reflexivity.
    + intros Ht. unfold Quaternion.ctor_Matrix4x4.
      cbn [Vector3.x Vector3.y Vector3.z Vector3.of_xyz Vector3._mm_set_ps].
      real_ops. fold sx sy sz. real_cmp. cbn [orb].
      fold xAxis yAxis zAxis. fold trace.
      rewrite Rltb_false by exact Ht. reflexivity.
Qed.

End ExtractionReal.

Section ExtractionConcrete.
Import RealModel.
Local Open Scope R_scope.

#[local] Hint Extern 0 (Scalar R) =>
  exact (R_Scalar FLT_EPSILON) : typeclass_instances.

Lemma indeterminate_not_fully_defined (A : Type) :
  ~ Quaternion.fully_defined (@Quaternion.indeterminate A).
Proof. intros [[x y z w] H]. discriminate H. Qed.

(** C7 (the code misses it).  For the zero matrix, whose rows have length 0,
    the build with [XO_SSE] returns from the constructor without assigning:
    the quaternion keeps what its storage held, and a fresh one stays
    indeterminate.  The scalar build assigns [(0, 0, 0, 1)], as the claim
    says. *)
Theorem ctor_Matrix4x4_zero_matrix_SSE :
  let M : Matrix4x4.t R :=
    Matrix4x4.of_16 0 0 0 0  0 0 0 0  0 0 0 0  0 0 0 0 in
  Vector3.Magnitude (Vector3.of_Vector4 (Matrix4x4.r0 M)) <= FLT_EPSILON
  /\ (forall (XO_NO_INVERSE_DIVISION : bool) (this : Quaternion.t (option R)),
        Quaternion.ctor_Matrix4x4 true XO_NO_INVERSE_DIVISION M this = this)
  /\ (forall XO_NO_INVERSE_DIVISION : bool,
        ~ Quaternion.fully_defined
            (Quaternion.ctor_Matrix4x4 true XO_NO_INVERSE_DIVISION M
               Quaternion.indeterminate))
  /\ (forall (XO_NO_INVERSE_DIVISION : bool) (this : Quaternion.t (option R)),
        Quaternion.ctor_Matrix4x4 false XO_NO_INVERSE_DIVISION M this
        = Quaternion.defined (Quaternion.mk 0 0 0 1)).
Proof.
  intros M.
  assert (H0 : Vector3.Magnitude (Vector3.of_Vector4 (Matrix4x4.r0 M)) = 0).
  { rewrite (Vector3_Magnitude_real FLT_EPSILON). unfold M; cbn.
    replace (0 * 0 + 0 * 0 + 0 * 0) with 0 by lra. apply sqrt_0. }
  pose proof FLT_EPSILON_pos as Hp.
  assert (Hc : forall sse ninv this,
             Quaternion.ctor_Matrix4x4 sse ninv M this
             = if sse then this else Quaternion.defined Quaternion.Identity).
  { intros sse ninv this. apply ctor_Matrix4x4_near_zero_axis.
    rewrite H0. real_ops. rewrite Rleb_true by lra. reflexivity. }
  repeat split.
  - rewrite H0; lra.
  - intros ninv this. apply (Hc true).
  - intros ninv. rewrite (Hc true). apply indeterminate_not_fully_defined.
  - intros ninv this. apply (Hc false).
Qed.

End ExtractionConcrete.

Section ExtractionBinary32.
#[local] Existing Instance Binary32.B32_Scalar.
Local Open Scope scalar_scope.

(** The same in binary32. *)
Lemma binary32_zero_matrix :
  let M : Matrix4x4.t spec_float :=
    Matrix4x4.of_16 (lit 0) (lit 0) (lit 0) (lit 0)
                    (lit 0) (lit 0) (lit 0) (lit 0)
                    (lit 0) (lit 0) (lit 0) (lit 0)
                    (lit 0) (lit 0) (lit 0) (lit 0) in
  forall (XO_NO_INVERSE_DIVISION : bool)
         (this : Quaternion.t (option spec_float)),
    Quaternion.ctor_Matrix4x4 true XO_NO_INVERSE_DIVISION M this = this
    /\ Quaternion.ctor_Matrix4x4 false XO_NO_INVERSE_DIVISION M this
       = Quaternion.defined Quaternion.Identity.
Proof. intros M ninv this. split; reflexivity. Qed.

End ExtractionBinary32.

(** ** Construction *)

Section Construction.
Context {F : Type} {SF : Scalar F}.

(** C5, as amended.  Every constructor that takes arguments, and the default
    constructor of [Vector3], assigns a value to every component of the
    object ([Quaternion(const Matrix4x4&)]: in the scalar build); the default
    constructors of [Vector2], [Matrix4x4] and [Quaternion] assign nothing,
    and the object is the storage as it was. *)
Theorem constructors_assign_components :
  (forall (this : Vector2.t (option F)) (v x0 y0 : F) (c : Vector2.t F)
          (v3 : Vector3.t F) (v4 : Vector4.t F),
     Vector2.fully_defined (Vector2.ctor_float v this)
     /\ Vector2.fully_defined (Vector2.ctor_xy x0 y0 this)
     /\ Vector2.fully_defined (Vector2.ctor_copy c this)
     /\ Vector2.fully_defined (Vector2.ctor_Vector3 v3 this)
     /\ Vector2.fully_defined (Vector2.ctor_Vector4 v4 this))
  /\ (forall (this : Vector3.t (option F)) (f x0 y0 z0 : F) (c : Vector3.t F),
     Vector3.fully_defined (Vector3.ctor_default this)
     /\ Vector3.fully_defined (Vector3.ctor_float f this)
     /\ Vector3.fully_defined (Vector3.ctor_xyz x0 y0 z0 this)
     /\ Vector3.fully_defined (Vector3.ctor_copy c this))
  /\ (forall (this : Matrix4x4.t (option F)) (m : F)
          (a0 b0 c0 d0 a1 b1 c1 d1 a2 b2 c2 d2 a3 b3 c3 d3 : F)
          (c : Matrix4x4.t F) (ra rb rc rd : Vector4.t F)
          (va vb vc : Vector3.t F) (q : Quaternion.t F),
     Matrix4x4.fully_defined (Matrix4x4.ctor_float m this)
     /\ Matrix4x4.fully_defined
          (Matrix4x4.ctor_16 a0 b0 c0 d0 a1 b1 c1 d1 a2 b2 c2 d2 a3 b3 c3 d3 this)
     /\ Matrix4x4.fully_defined (Matrix4x4.ctor_copy c this)
     /\ Matrix4x4.fully_defined (Matrix4x4.ctor_rows ra rb rc rd this)
     /\ Matrix4x4.fully_defined (Matrix4x4.ctor_Vector3 va vb vc this)
     /\ Matrix4x4.fully_defined (Matrix4x4.ctor_Quaternion q this))
  /\ (forall (this : Quaternion.t (option F)) (x0 y0 z0 w0 : F)
          (XO_NO_INVERSE_DIVISION : bool) (mat : Matrix4x4.t F),
     Quaternion.fully_defined (Quaternion.ctor_xyzw x0 y0 z0 w0 this)
     /\ Quaternion.fully_defined
          (Quaternion.ctor_Matrix4x4 false XO_NO_INVERSE_DIVISION mat this))
  /\ (forall this : Vector2.t (option F), Vector2.ctor_default this = this)
  /\ (forall this : Matrix4x4.t (option F), Matrix4x4.ctor_default this = this)
  /\ (forall this : Quaternion.t (option F), Quaternion.ctor_default this = this).
Proof.
  repeat apply conj; try reflexivity.
  - intros; repeat split.
    + now exists (Vector2.mk v v).
    + now exists (Vector2.mk x0 y0).
    + now exists c; destruct c.
    + now exists (Vector2.mk (Vector3.x v3) (Vector3.y v3)).
    + now exists (Vector2.mk (Vector4.x v4) (Vector4.y v4)).
  - intros; repeat split; eexists; reflexivity.
  - intros; repeat split; eexists; reflexivity.
  - intros; split; [eexists; reflexivity|].
    unfold Quaternion.ctor_Matrix4x4.
    repeat match goal with
           | |- Quaternion.fully_defined (if ?c then _ else _) => destruct c
           end; eexists; reflexivity.
Qed.

End Construction.

Section ConstructionConcrete.

(** C5 as stated fails: after the default constructors of [Vector2],
    [Matrix4x4] and [Quaternion], a fresh object has no component with a
    value. *)
Lemma default_constructors_leave_indeterminate :
  Vector2.ctor_default (@Vector2.indeterminate R) = Vector2.mk None None
  /\ ~ Vector2.fully_defined (Vector2.ctor_default (@Vector2.indeterminate R))
  /\ ~ Matrix4x4.fully_defined
         (Matrix4x4.ctor_default (@Matrix4x4.indeterminate R))
  /\ ~ Quaternion.fully_defined
         (Quaternion.ctor_default (@Quaternion.indeterminate R)).
Proof.
  repeat split.
  - intros [[x y] H]; discriminate H.
  - intros [[[a b c d] r1 r2 r3] H]; discriminate H.
  - apply indeterminate_not_fully_defined.
Qed.

End ConstructionConcrete.

(** ** Axis and angle to quaternion *)

Section AxisAngleGeneric.
Context {F : Type} {SF : Scalar F} {LF : Libm F}.
Local Open Scope scalar_scope.

(** Whatever the scalars are: the scalar part is [Cos] of the angle itself,
    the vector part the normalized axis times [Sin] of half the angle. *)
Lemma AxisAngleRadians_unfolded (axis : Vector3.t F) (radians : F) :
  Quaternion.AxisAngleRadians axis radians
  = Quaternion.mk (Vector3.x (Vector3.Normalized axis) * Sin (radians * half))
                  (Vector3.y (Vector3.Normalized axis) * Sin (radians * half))
                  (Vector3.z (Vector3.Normalized axis) * Sin (radians * half))
                  (Cos radians).
Proof. reflexivity. Qed.

End AxisAngleGeneric.

Section AxisAngleReal.
Import RealModel.
Local Open Scope R_scope.

Variable eps : R.

#[local] Hint Extern 0 (Scalar R) => exact (R_Scalar eps) : typeclass_instances.
#[local] Hint Extern 0 (Libm R) => exact R_Libm : typeclass_instances.

(** [Quaternion::AxisAngleRadians(a, r)] has for its vector part what
    [Vector3::Normalized] returns for [a], times [sin(r / 2)], and the scalar
    part [cos(r)], the cosine of the full angle. *)
Lemma AxisAngleRadians_components (a : Vector3.t R) (r : R) :
  Quaternion.x (Quaternion.AxisAngleRadians a r)
    = Vector3.x (Vector3.Normalized a) * sin (r / 2)
  /\ Quaternion.y (Quaternion.AxisAngleRadians a r)
    = Vector3.y (Vector3.Normalized a) * sin (r / 2)
  /\ Quaternion.z (Quaternion.AxisAngleRadians a r)
    = Vector3.z (Vector3.Normalized a) * sin (r / 2)
  /\ Quaternion.w (Quaternion.AxisAngleRadians a r) = cos r.
Proof.
  rewrite AxisAngleRadians_unfolded. real_ops.
  replace (r * / 2) with (r / 2) by (unfold Rdiv; reflexivity).
  repeat split.
Qed.

(** The scalar part is not the cosine of the half angle: for a half turn it
    is [cos PI = -1], where the half angle has cosine 0. *)
Lemma AxisAngleRadians_half_turn (a : Vector3.t R) :
  Quaternion.w (Quaternion.AxisAngleRadians a PI) = -1
  /\ cos (PI / 2) = 0.
Proof.
  rewrite AxisAngleRadians_unfolded. real_ops. cbn.
  split; [apply cos_PI | apply cos_PI2].
Qed.


End AxisAngleReal.

Section AxisAngleConcrete.
Import RealModel.
Local Open Scope R_scope.

#[local] Hint Extern 0 (Scalar R) =>
  exact (R_Scalar FLT_EPSILON) : typeclass_instances.
#[local] Hint Extern 0 (Libm R) => exact R_Libm : typeclass_instances.


End AxisAngleConcrete.

Section AxisAngleBinary32.
#[local] Existing Instance Binary32.B32_Scalar.
Local Open Scope scalar_scope.

(** The same axis in binary32: [Normalized] returns [(0, 0, 0.5f)] as it is,
    where dividing by the norm gives [(0, 0, 1)]. *)
Lemma binary32_Normalized_of_short_axis :
  let a : Vector3.t spec_float := Vector3.of_xyz (lit 0) (lit 0) half in
  Vector3.Normalized a = a
  /\ Vector3.times_float a (lit 1 / Vector3.Magnitude a)
     = Vector3.of_xyz (lit 0) (lit 0) (lit 1).
Proof. vm_compute. repeat split. Qed.

End AxisAngleBinary32.

(** ** The look-at functions of [Quaternion] *)

Section LookAt.
Context {F : Type} {SF : Scalar F}.

(** C10.  [Quaternion::LookAtFromDirection(direction, up, outQuat)] has an
    empty body and leaves [outQuat] as it was, whatever it held; the two
    [LookAtFromPosition] overloads and the one-argument [LookAtFromDirection]
    delegate to it and do not write [outQuat] either. *)
Theorem LookAt_leaves_outQuat (A : Type)
  (direction up from to : Vector3.t F) (outQuat : Quaternion.t A) :
  Quaternion.LookAtFromDirection direction up outQuat = outQuat
  /\ Quaternion.LookAtFromPosition from to up outQuat = outQuat
  /\ Quaternion.LookAtFromPosition_Up from to outQuat = outQuat
  /\ Quaternion.LookAtFromDirection_Up direction outQuat = outQuat.
Proof. repeat split. Qed.

End LookAt.

(** ** The assertions of the projection factories *)

Section ProjectionReal.
Import RealModel.
Local Open Scope R_scope.

Variable eps : R.

#[local] Hint Extern 0 (Scalar R) => exact (R_Scalar eps) : typeclass_instances.
#[local] Hint Extern 0 (Libm R) => exact R_Libm : typeclass_instances.

Lemma XO_ASSERT_raised (c : bool) (msg : string) :
  Diag.raised (Diag.XO_ASSERT c msg) = if c then [] else [msg].
Proof. now destruct c. Qed.

Lemma OrthographicProjection_raised (w h n f : R) :
  Diag.raised (Matrix4x4.OrthographicProjection w h n f)
  = (if Reqb w 0 then
       [Matrix4x4._XO_ASSERT_MSG
          "::OrthographicProjection Width (w) should not be zero."]
     else [])
    ++ (if Reqb h 0 then
          [Matrix4x4._XO_ASSERT_MSG
             "::OrthographicProjection Height (h) should not be zero."]
        else []).
Proof.
  unfold Matrix4x4.OrthographicProjection, Diag.raised, Diag.bind,
    Diag.XO_ASSERT, Diag.ret.
  real_ops. destruct (Reqb w 0), (Reqb h 0); reflexivity.
Qed.

Lemma PerspectiveProjectionRadians_raised (fovx fovy n f : R) :
  Diag.raised (Matrix4x4.PerspectiveProjectionRadians fovx fovy n f)
  = if Reqb n f then
      [Matrix4x4._XO_ASSERT_MSG
         "::PerspectiveProjectionRadians Near (n) and far (f) values should not be equal."]
    else [].
Proof.
  unfold Matrix4x4.PerspectiveProjectionRadians, Diag.raised, Diag.bind,
    Diag.XO_ASSERT, Diag.ret.
  real_ops. destruct (Reqb n f); reflexivity.
Qed.

(** C9, as amended.  [OrthographicProjection] invokes the assertion hook
    exactly when the width or the height is zero; whether near equals far
    plays no part.  [PerspectiveProjectionRadians] and
    [PerspectiveProjectionDegrees], which have no width or height, invoke it
    exactly when near equals far.  In every other case the hook is not
    invoked. *)
Theorem projection_assertions (w h n f fovx fovy : R) :
  (Diag.raised (Matrix4x4.OrthographicProjection w h n f) <> []
     <-> w = 0 \/ h = 0)
  /\ (Diag.raised (Matrix4x4.PerspectiveProjectionRadians fovx fovy n f) <> []
     <-> n = f)
  /\ (Diag.raised (Matrix4x4.PerspectiveProjectionDegrees fovx fovy n f) <> []
     <-> n = f).
Proof.
  unfold Matrix4x4.PerspectiveProjectionDegrees.
  rewrite OrthographicProjection_raised, !PerspectiveProjectionRadians_raised.
  unfold Reqb.
  destruct (Req_dec_T w 0), (Req_dec_T h 0), (Req_dec_T n f); cbn;
    repeat split; intros; try tauto; try discriminate; try congruence.
Qed.

End ProjectionReal.

Section ProjectionConcrete.
Import RealModel.
Local Open Scope R_scope.

#[local] Hint Extern 0 (Scalar R) =>
  exact (R_Scalar FLT_EPSILON) : typeclass_instances.
#[local] Hint Extern 0 (Libm R) => exact R_Libm : typeclass_instances.

(** C9 as stated fails: with near equal to far, and a width and a height that
    are not zero, [OrthographicProjection] does not invoke the hook. *)
Lemma OrthographicProjection_near_equals_far :
  Diag.raised (Matrix4x4.OrthographicProjection 1 1 5 5) = [].
Proof.
  rewrite OrthographicProjection_raised.
  rewrite !Reqb_false by lra. reflexivity.
Qed.

End ProjectionConcrete.

(** ** Degrees and radians *)

Section DegreesGeneric.
Context {F : Type} {SF : Scalar F} {LF : Libm F}.
Local Open Scope scalar_scope.

(** The degree variants that do wrap their radian variant. *)
Lemma degree_variants_that_wrap (degrees fovx fovy near far : F)
  (a : Vector3.t F) :
  Matrix4x4.RotationXDegrees degrees
    = Matrix4x4.RotationXRadians (degrees * Deg2Rad)
  /\ Matrix4x4.RotationYDegrees degrees
    = Matrix4x4.RotationYRadians (degrees * Deg2Rad)
  /\ Matrix4x4.RotationZDegrees degrees
    = Matrix4x4.RotationZRadians (degrees * Deg2Rad)
  /\ Matrix4x4.AxisAngleDegrees a degrees
    = Matrix4x4.AxisAngleRadians a (degrees * Deg2Rad)
  /\ Matrix4x4.PerspectiveProjectionDegrees fovx fovy near far
    = Matrix4x4.PerspectiveProjectionRadians
        (fovx * Deg2Rad) (fovy * Deg2Rad) near far.
Proof. repeat split. Qed.

(** The two compositions: [RotationRadians] multiplies the y rotation by the
    product of the x and z rotations, [RotationDegrees] multiplies the x, y
    and z rotations from left to right. *)
Lemma Rotation_compositions (x y z : F) :
  Matrix4x4.RotationRadians x y z
    = Matrix4x4.times (Matrix4x4.RotationYRadians y)
        (Matrix4x4.times (Matrix4x4.RotationXRadians x)
                         (Matrix4x4.RotationZRadians z))
  /\ Matrix4x4.RotationDegrees x y z
    = Matrix4x4.times
        (Matrix4x4.times (Matrix4x4.RotationXRadians (x * Deg2Rad))
                         (Matrix4x4.RotationYRadians (y * Deg2Rad)))
        (Matrix4x4.RotationZRadians (z * Deg2Rad)).
Proof. split; reflexivity. Qed.

End DegreesGeneric.

Ltac matrix_unfold :=
  cbv [Matrix4x4.RotationDegrees Matrix4x4.RotationRadians
       Matrix4x4.RotationXDegrees Matrix4x4.RotationYDegrees
       Matrix4x4.RotationZDegrees
       Matrix4x4.RotationXRadians Matrix4x4.RotationYRadians
       Matrix4x4.RotationZRadians
       Matrix4x4.times Matrix4x4.row_times Matrix4x4.column Matrix4x4.of_16
       Matrix4x4.r0 Matrix4x4.r1 Matrix4x4.r2 Matrix4x4.r3
       Vector4.Sum Vector4.times Vector4.x Vector4.y Vector4.z Vector4.w].

Section DegreesConcrete.
Import RealModel.
Local Open Scope R_scope.

#[local] Hint Extern 0 (Scalar R) =>
  exact (R_Scalar FLT_EPSILON) : typeclass_instances.
#[local] Hint Extern 0 (Libm R) => exact R_Libm : typeclass_instances.

Lemma quarter_turn : 90 * (PI / 180) = PI / 2.
Proof. lra. Qed.

Lemma no_turn : 0 * (PI / 180) = 0.
Proof. lra. Qed.

(** C4 (the code misses it).  For a quarter turn about x and about y the two
    variants differ: the first row of [RotationDegrees(90, 90, 0)] is
    [(0, 0, -1, 0)], that of
    [RotationRadians(90 * Deg2Rad, 90 * Deg2Rad, 0 * Deg2Rad)] is
    [(0, -1, 0, 0)]. *)
Theorem RotationDegrees_is_not_RotationRadians :
  Matrix4x4.r0 (Matrix4x4.RotationDegrees 90 90 0) = Vector4.mk 0 0 (-1) 0
  /\ Matrix4x4.r0
       (Matrix4x4.RotationRadians (90 * Deg2Rad) (90 * Deg2Rad) (0 * Deg2Rad))
     = Vector4.mk 0 (-1) 0 0
  /\ Matrix4x4.RotationDegrees 90 90 0
     <> Matrix4x4.RotationRadians (90 * Deg2Rad) (90 * Deg2Rad) (0 * Deg2Rad).
Proof.
  assert (H1 : Matrix4x4.r0 (Matrix4x4.RotationDegrees 90 90 0)
               = Vector4.mk 0 0 (-1) 0).
  { matrix_unfold. real_ops.
    rewrite !quarter_turn, !no_turn, cos_PI2, sin_PI2, cos_0, sin_0.
    f_equal; lra. }
  assert (H2 : Matrix4x4.r0
                 (Matrix4x4.RotationRadians (90 * Deg2Rad) (90 * Deg2Rad)
                    (0 * Deg2Rad))
               = Vector4.mk 0 (-1) 0 0).
  { matrix_unfold. real_ops.
    rewrite !quarter_turn, !no_turn, cos_PI2, sin_PI2, cos_0, sin_0.
    f_equal; lra. }
  repeat split; [exact H1 | exact H2 |].
  intros H. rewrite H, H2 in H1. injection H1. lra.
Qed.

End DegreesConcrete.

(** ** Angles *)

Section Atan2.
Import RealModel.
Local Open Scope R_scope.

Lemma atan_pos (r : R) : 0 < r -> 0 < atan r.
Proof. intros H. rewrite <- atan_0. now apply atan_increasing. Qed.

Lemma atan_neg (r : R) : r < 0 -> atan r < 0.
Proof. intros H. rewrite <- atan_0. now apply atan_increasing. Qed.

Lemma Rdiv_pos_neg (a b : R) : 0 < a -> b < 0 -> a / b < 0.
Proof.
  intros Ha Hb. unfold Rdiv.
  assert (/ b < 0) by now apply Rinv_lt_0_compat.
  nra.
Qed.

Lemma Rdiv_neg_neg (a b : R) : a < 0 -> b < 0 -> 0 < a / b.
Proof.
  intros Ha Hb. unfold Rdiv.
  assert (/ b < 0) by now apply Rinv_lt_0_compat.
  nra.
Qed.

(** Above the x axis the angle is strictly between 0 and PI. *)
Lemma atan2_upper_half_plane (y x : R) : 0 < y -> 0 < atan2 y x < PI.
Proof.
  intros Hy. unfold atan2.
  pose proof PI_RGT_0 as Hpi.
  destruct (Rlt_dec 0 x) as [Hx | Hx].
  - pose proof (atan_bound (y / x)) as Hb.
    assert (0 < atan (y / x)) by (apply atan_pos, Rdiv_lt_0_compat; lra).
    lra.
  - destruct (Rlt_dec x 0) as [Hx' | Hx'].
    + destruct (Rle_dec 0 y) as [_ | Hn]; [|lra].
      pose proof (atan_bound (y / x)) as Hb.
      assert (atan (y / x) < 0) by (apply atan_neg, Rdiv_pos_neg; lra).
      lra.
    + destruct (Rlt_dec 0 y) as [_ | Hn]; [lra | lra].
Qed.

(** On the positive y axis the angle is a quarter turn. *)
Lemma atan2_y_axis (y : R) : 0 < y -> atan2 y 0 = PI / 2.
Proof.
  intros Hy. unfold atan2.
  destruct (Rlt_dec 0 0) as [H | _]; [lra|].
  destruct (Rlt_dec 0 y) as [_ | H]; [reflexivity | lra].
Qed.

(** The range of [atan2]. *)
Lemma atan2_range (y x : R) : - PI < atan2 y x <= PI.
Proof.
  unfold atan2. pose proof PI_RGT_0 as Hpi.
  pose proof (atan_bound (y / x)) as Hb.
  destruct (Rlt_dec 0 x) as [Hx | Hx]; [lra|].
  destruct (Rlt_dec x 0) as [Hx' | Hx'].
  - destruct (Rle_dec 0 y) as [Hy | Hy].
    + destruct (Req_dec_T y 0) as [-> | Hy0].
      * unfold Rdiv; rewrite Rmult_0_l, atan_0. lra.
      * assert (atan (y / x) < 0) by (apply atan_neg, Rdiv_pos_neg; lra).
        lra.
    + assert (0 < atan (y / x)) by (apply atan_pos, Rdiv_neg_neg; lra).
      lra.
  - destruct (Rlt_dec 0 y); [lra|].
    destruct (Rlt_dec y 0); lra.
Qed.

(** With both zeros the range is closed at both ends. *)
Lemma atan2_signed_range (sy sx : bool) (y x : R) :
  - PI <= atan2_signed sy sx y x <= PI.
Proof.
  unfold atan2_signed. pose proof PI_RGT_0 as Hpi.
  pose proof (atan2_range y x) as Hr.
  destruct (Req_dec_T y 0); [|lra].
  destruct (Rlt_dec x 0); [destruct sy; lra|].
  destruct (Req_dec_T x 0); [destruct sx, sy; lra | lra].
Qed.

(** The one zero of the reals is the positive zero. *)
Lemma atan2_signed_positive_zeros (y x : R) :
  atan2_signed false false y x = atan2 y x.
Proof.
  unfold atan2_signed, atan2.
  destruct (Req_dec_T y 0) as [-> | Hy]; [|reflexivity].
  destruct (Rlt_dec x 0) as [Hx | Hx].
  - destruct (Rlt_dec 0 x); [lra|].
    destruct (Rle_dec 0 0); [|lra].
    unfold Rdiv; rewrite Rmult_0_l, atan_0. lra.
  - destruct (Req_dec_T x 0) as [-> | Hx0].
    + destruct (Rlt_dec 0 0); [lra | reflexivity].
    + destruct (Rlt_dec 0 x); [|lra].
      unfold Rdiv; rewrite Rmult_0_l, atan_0. reflexivity.
Qed.

(** A negative zero above a negative [x]: [-PI]. *)
Lemma atan2_signed_negative_zero (sx : bool) (x : R) :
  x < 0 -> atan2_signed true sx 0 x = - PI.
Proof.
  intros Hx. unfold atan2_signed.
  destruct (Req_dec_T 0 0); [|lra].
  destruct (Rlt_dec x 0); [reflexivity | lra].
Qed.

End Atan2.

Section AnglesReal.
Import RealModel.
Local Open Scope R_scope.

Variable eps : R.
Hypothesis eps_pos : 0 < eps.

#[local] Hint Extern 0 (Scalar R) => exact (R_Scalar eps) : typeclass_instances.
#[local] Hint Extern 0 (Libm R) => exact R_Libm : typeclass_instances.

(** [Vector3::AngleRadians] recomputes the cross product, takes its length,
    and adds [Epsilon] to it before the call of [Atan2]. *)
Lemma Vector3_AngleRadians_unfolded (a b : Vector3.t R) :
  Vector3.AngleRadians a b
  = atan2 (Vector3.Magnitude (Vector3.Cross a b) + Vector3.Epsilon)
          (Vector3.Dot a b).
Proof. reflexivity. Qed.

Lemma Vector3_Epsilon_pos : 0 < Vector3.Epsilon.
Proof. unfold Vector3.Epsilon; real_ops; lra. Qed.

Lemma Vector3_Magnitude_nonneg (v : Vector3.t R) : 0 <= Vector3.Magnitude v.
Proof. rewrite (Vector3_Magnitude_real eps). apply sqrt_pos. Qed.

Lemma Vector3_AngleRadians_range (a b : Vector3.t R) :
  0 < Vector3.AngleRadians a b < PI.
Proof.
  rewrite Vector3_AngleRadians_unfolded. apply atan2_upper_half_plane.
  pose proof (Vector3_Magnitude_nonneg (Vector3.Cross a b)).
  pose proof Vector3_Epsilon_pos. lra.
Qed.

(** The cross product of a vector with itself has length 0. *)
Lemma Vector3_Cross_self (v : Vector3.t R) :
  Vector3.Magnitude (Vector3.Cross v v) = 0.
Proof.
  rewrite (Vector3_Magnitude_real eps).
  destruct v as [x y z w].
  cbv [Vector3.Cross Vector3._mm_sub_ps Vector3._mm_mul_ps Vector3._mm_shuffle_ps
       Vector3.lanewise Vector3.lane Vector3.x Vector3.y Vector3.z Vector3.w].
  real_ops.
  match goal with |- sqrt ?e = 0 => replace e with 0 by ring end.
  apply sqrt_0.
Qed.

Lemma Vector3_AngleRadians_self (v : Vector3.t R) :
  Vector3.AngleRadians v v = atan2 Vector3.Epsilon (Vector3.Dot v v).
Proof.
  rewrite Vector3_AngleRadians_unfolded, Vector3_Cross_self.
  f_equal. lra.
Qed.

Lemma Vector3_Dot_Zero : Vector3.Dot (@Vector3.Zero R _) Vector3.Zero = 0.
Proof.
  cbv [Vector3.Dot Vector3.Zero Vector3.of_xyz Vector3._mm_set_ps
       Vector3.and_MASK Vector3._mm_mul_ps Vector3.lanewise Vector3._mm_hadd_ps
       Vector3._mm_cvtss_f32 Vector3.x Vector3.y Vector3.z Vector3.w].
  real_ops. lra.
Qed.

Lemma Vector2_AngleRadians_units :
  Vector2.AngleRadians (@Vector2.UnitX R _) Vector2.UnitY = - (PI / 2).
Proof.
  cbv [Vector2.AngleRadians Vector2.Cross Vector2.Dot Vector2.UnitX
       Vector2.UnitY Vector2.x Vector2.y].
  real_ops.
  replace (1 * 1 - 0 * 0) with 1 by lra.
  replace (1 * 0 + 0 * 1) with 0 by lra.
  rewrite atan2_y_axis by lra. reflexivity.
Qed.

(** C2, as amended.  In exact arithmetic: [Vector3::AngleRadians(a, b)] is
    [atan2(|cross(a, b)| + Epsilon, dot(a, b))], strictly between 0 and pi;
    [Vector2::AngleRadians(a, b)] is [-atan2(cross(a, b), dot(a, b))], with
    the signed cross product, in [[-pi, pi]] whatever the signs of the zeros
    that reach [atan2], and below pi when the zeros are positive.  The value
    pi is returned through the negative zero: for [a = (-1, 0)] and
    [b = (1, 0)] the cross product is [-0.0f] in binary32 and the dot product
    is -1, [atan2] of the two is [-pi], and the result is pi, where the
    arithmetic with one zero gives [-pi].
    [Vector2::AngleDegrees(UnitX, UnitY)] is -90;
    [Vector3::AngleDegrees(v, v)] is [atan2(Epsilon, dot(v, v))] in degrees,
    above 0, and 90 for the zero vector. *)
Theorem AngleRadians_formulas_and_ranges :
  (forall a b : Vector3.t R,
     Vector3.AngleRadians a b
     = atan2 (Vector3.Magnitude (Vector3.Cross a b) + Vector3.Epsilon)
             (Vector3.Dot a b)
     /\ 0 < Vector3.AngleRadians a b < PI)
  /\ (forall a b : Vector2.t R,
     Vector2.AngleRadians a b
     = - atan2 (Vector2.Cross a b) (Vector2.Dot a b)
     /\ - PI <= Vector2.AngleRadians a b < PI)
  /\ Vector2.AngleDegrees (@Vector2.UnitX R _) Vector2.UnitY = -90
  /\ (forall v : Vector3.t R,
     Vector3.AngleDegrees v v
     = atan2 Vector3.Epsilon (Vector3.Dot v v) * (180 / PI)
     /\ 0 < Vector3.AngleDegrees v v)
  /\ Vector3.AngleDegrees (@Vector3.Zero R _) Vector3.Zero = 90
  /\ (forall (sy sx : bool) (a b : Vector2.t R),
     - PI <= - atan2_signed sy sx (Vector2.Cross a b) (Vector2.Dot a b) <= PI)
  /\ (forall a b : Vector2.t R,
     Vector2.AngleRadians a b
     = - atan2_signed false false (Vector2.Cross a b) (Vector2.Dot a b))
  /\ @Vector2.Cross spec_float Binary32.B32_Scalar
       (Vector2.mk (Binary32.dyadic (-1) 0) (Binary32.dyadic 0 0))
       (Vector2.mk (Binary32.dyadic 1 0) (Binary32.dyadic 0 0))
     = S754_zero true
  /\ @Vector2.Dot spec_float Binary32.B32_Scalar
       (Vector2.mk (Binary32.dyadic (-1) 0) (Binary32.dyadic 0 0))
       (Vector2.mk (Binary32.dyadic 1 0) (Binary32.dyadic 0 0))
     = Binary32.dyadic (-1) 0
  /\ - atan2_signed true false 0 (-1) = PI
  /\ Vector2.AngleRadians (Vector2.mk (-1) 0) (Vector2.mk 1 0) = - PI.
Proof.
  pose proof PI_RGT_0 as Hpi.
  repeat apply conj.
  6: { intros sy sx a b.
       pose proof (atan2_signed_range sy sx (Vector2.Cross a b)
                     (Vector2.Dot a b)).
       lra. }
  6: { intros a b. rewrite atan2_signed_positive_zeros. reflexivity. }
  6: { vm_compute. reflexivity. }
  6: { vm_compute. reflexivity. }
  6: { rewrite atan2_signed_negative_zero by lra. lra. }
  6: { cbv [Vector2.AngleRadians Vector2.Cross Vector2.Dot
            Vector2.x Vector2.y].
       real_ops.
       replace (-1 * 0 - 0 * 1) with 0 by lra.
       replace (-1 * 1 + 0 * 0) with (-1) by lra.
       rewrite <- atan2_signed_positive_zeros. unfold atan2_signed.
       destruct (Req_dec_T 0 0); [|lra].
       destruct (Rlt_dec (-1) 0); [reflexivity | lra]. }
  - intros a b. split;
      [apply Vector3_AngleRadians_unfolded | apply Vector3_AngleRadians_range].
  - intros a b. split; [reflexivity|].
    unfold Vector2.AngleRadians; real_ops.
    pose proof (atan2_range (Vector2.Cross a b) (Vector2.Dot a b)). lra.
  - unfold Vector2.AngleDegrees. rewrite Vector2_AngleRadians_units.
    real_ops. field. lra.
  - intros v. unfold Vector3.AngleDegrees.
    rewrite Vector3_AngleRadians_self. real_ops. split; [reflexivity|].
    pose proof (atan2_upper_half_plane (Vector3.Dot v v) Vector3_Epsilon_pos).
    apply Rmult_lt_0_compat; [lra|].
    apply Rdiv_lt_0_compat; lra.
  - unfold Vector3.AngleDegrees.
    rewrite Vector3_AngleRadians_self, Vector3_Dot_Zero.
    rewrite (atan2_y_axis Vector3_Epsilon_pos). real_ops. field. lra.
Qed.

End AnglesReal.

Section AnglesConcrete.
Import RealModel.
Local Open Scope R_scope.

#[local] Hint Extern 0 (Scalar R) =>
  exact (R_Scalar FLT_EPSILON) : typeclass_instances.
#[local] Hint Extern 0 (Libm R) => exact R_Libm : typeclass_instances.

(** The amended C2 at [FloatEpsilon = 2^-23]. *)
Lemma AngleRadians_formulas_and_ranges_witness :
  0 < FLT_EPSILON
  /\ Vector2.AngleDegrees (@Vector2.UnitX R _) Vector2.UnitY = -90
  /\ Vector3.AngleDegrees (@Vector3.Zero R _) Vector3.Zero = 90.
Proof.
  split; [exact FLT_EPSILON_pos|].
  destruct (AngleRadians_formulas_and_ranges FLT_EPSILON_pos)
    as (_ & _ & H2 & _ & H3 & _).
  split; [exact H2 | exact H3].
Defined.

(** C2 as stated fails: [Vector2::AngleRadians(UnitX, UnitY)] is [-pi/2],
    below 0, and [Vector2::AngleDegrees(UnitX, UnitY)] is -90, which is not
    within [Epsilon] of 90. *)
Lemma Vector2_AngleDegrees_units_negative :
  Vector2.AngleRadians (@Vector2.UnitX R _) Vector2.UnitY = - (PI / 2)
  /\ Vector2.AngleRadians (@Vector2.UnitX R _) Vector2.UnitY < 0
  /\ Vector2.AngleDegrees (@Vector2.UnitX R _) Vector2.UnitY = -90
  /\ CloseEnough (Vector2.AngleDegrees (@Vector2.UnitX R _) Vector2.UnitY) 90
       Vector2.Epsilon = false.
Proof.
  pose proof PI_RGT_0 as Hpi.
  assert (Hd : Vector2.AngleDegrees (@Vector2.UnitX R _) Vector2.UnitY = -90).
  { unfold Vector2.AngleDegrees. rewrite Vector2_AngleRadians_units.
    real_ops. field. lra. }
  rewrite Hd, Vector2_AngleRadians_units. repeat split; [lra|].
  apply CloseEnough_real_false.
  unfold Vector2.Epsilon, FLT_EPSILON; real_ops.
  replace (-90 - 90) with (- (180)) by lra.
  rewrite Rabs_Ropp, Rabs_pos_eq; lra.
Qed.

End AnglesConcrete.

(** * Further properties of the sources *)

(** ** Transposition *)

Section TransposeGeneric.
Context {A : Type}.

(** X1.  [MakeTranspose], by its six swaps in the scalar build and by
    [_MM_TRANSPOSE4_PS] in the SSE build, puts [r[j][i]] at [r[i][j]] for
    all sixteen places; the two builds agree, and transposing twice gives the
    matrix back. *)
Theorem MakeTranspose_transposes (XO_SSE : bool) (m : Matrix4x4.t A) :
  (forall i j : Matrix4x4.index,
     Matrix4x4.get (Matrix4x4.MakeTranspose XO_SSE m) i j = Matrix4x4.get m j i)
  /\ Matrix4x4.MakeTranspose true m = Matrix4x4.MakeTranspose false m
  /\ Matrix4x4.Transpose XO_SSE (Matrix4x4.Transpose XO_SSE m) = m.
Proof.
  destruct m as [[a0 b0 c0 d0] [a1 b1 c1 d1] [a2 b2 c2 d2] [a3 b3 c3 d3]].
  repeat split.
  - intros i j; destruct XO_SSE, i, j; reflexivity.
  - destruct XO_SSE; reflexivity.
Qed.

End TransposeGeneric.

(** ** Indexing and shuffling a [Vector3] *)

Section IndexGeneric.
Context {A : Type}.

Lemma f_at_in_range (v : Vector3.t A) (i : Z) :
  (0 <= i <= 3)%Z -> exists a : A, Vector3.f_at v i = Some a.
Proof.
  intros H.
  assert (i = 0 \/ i = 1 \/ i = 2 \/ i = 3)%Z as [-> | [-> | [-> | ->]]] by lia;
    eexists; reflexivity.
Qed.

Lemma f_at_out_of_range (v : Vector3.t A) (i : Z) :
  Vector3.f_at v i = None <-> (i < 0 \/ 3 < i)%Z.
Proof.
  split.
  - intros H. destruct (Z_lt_le_dec i 0) as [|H0]; [now left|].
    destruct (Z_lt_le_dec 3 i) as [|H3]; [now right|].
    destruct (@f_at_in_range v i) as [a Ha]; [lia | congruence].
  - intros [H | H].
    + destruct i as [|p|p]; try lia. reflexivity.
    + destruct i as [|p|p]; try lia.
      destruct p as [[|[]|]|[[]|[]|]|]; try lia; reflexivity.
Qed.

Lemma land_3_is_mod_4 (i : Z) : Z.land i 3 = (i mod 4)%Z.
Proof. change 3%Z with (Z.ones 2). rewrite Z.land_ones by lia. reflexivity. Qed.

(** X2.  With [XO_SAFE_VEC_RANGE] every [int] index, negative ones included,
    reads a component: [v[i]] is [f[i mod 4]], so [v[i + 4]] is [v[i]].
    Without it the access is [f[i]], out of the array exactly when [i] is
    below 0 or above 3. *)
Theorem Vector3_index_bounds (v : Vector3.t A) (i : Z) :
  Vector3.index true v i = Vector3.f_at v (i mod 4)
  /\ (exists a : A, Vector3.index true v i = Some a)
  /\ Vector3.index true v (i + 4) = Vector3.index true v i
  /\ (Vector3.index false v i = None <-> (i < 0 \/ 3 < i)%Z).
Proof.
  unfold Vector3.index. rewrite !land_3_is_mod_4.
  repeat apply conj.
  - reflexivity.
  - apply f_at_in_range.
    pose proof (Z.mod_pos_bound i 4). lia.
  - f_equal. replace (i + 4)%Z with (i + 1 * 4)%Z by lia.
    apply Z.mod_add. lia.
  - apply f_at_out_of_range.
  - apply f_at_out_of_range.
Qed.

End IndexGeneric.

(** ** Vector algebra *)

Ltac vector3_unfold :=
  cbv [Vector3.Cross Vector3.Dot Vector3.MagnitudeSquared Vector3.opp
       Vector3.ZYX Vector3.minus Vector3.plus Vector3.times_float
       Vector3.DistanceSquared
       Vector3._mm_sub_ps Vector3._mm_add_ps Vector3._mm_mul_ps
       Vector3._mm_set1_ps Vector3._mm_shuffle_ps Vector3._mm_hadd_ps
       Vector3._mm_cvtss_f32 Vector3.and_MASK Vector3.lanewise Vector3.lane
       Vector3.x Vector3.y Vector3.z Vector3.w].

Ltac vector2_unfold :=
  cbv [Vector2.Cross Vector2.Dot Vector2.MagnitudeSquared
       Vector2.OrthogonalCCW Vector2.OrthogonalCW Vector2.OrthogonalCCW_out
       Vector2.OrthogonalCW_out Vector2.Set_xy Vector2.Set_
       Vector2.x Vector2.y].

Section VectorAlgebraReal.
Import RealModel.
Local Open Scope R_scope.

Variable eps : R.

#[local] Hint Extern 0 (Scalar R) => exact (R_Scalar eps) : typeclass_instances.

(** X3.  In exact arithmetic [Vector3::Cross] is antisymmetric, its result is
    orthogonal to both operands and has 0 in the fourth lane, and with
    [Vector3::Dot] it satisfies Lagrange's identity
    [|a x b|^2 + (a . b)^2 = |a|^2 |b|^2]; the fourth lanes of the operands
    play no part in [Dot]. *)
Theorem Vector3_Cross_Dot_algebra (a b : Vector3.t R) :
  Vector3.Cross a b = Vector3.opp (Vector3.Cross b a)
  /\ Vector3.Dot a (Vector3.Cross a b) = 0
  /\ Vector3.Dot b (Vector3.Cross a b) = 0
  /\ Vector3.w (Vector3.Cross a b) = 0
  /\ Vector3.Dot a b = Vector3.Dot b a
  /\ Vector3.MagnitudeSquared (Vector3.Cross a b)
     + Vector3.Dot a b * Vector3.Dot a b
     = Vector3.MagnitudeSquared a * Vector3.MagnitudeSquared b
  /\ Vector3.Dot a b
     = Vector3.x a * Vector3.x b + Vector3.y a * Vector3.y b
       + Vector3.z a * Vector3.z b.
Proof.
  destruct a as [ax ay az aw], b as [bx b_y bz bw].
  vector3_unfold; real_ops.
  repeat split; try ring. f_equal; ring.
Qed.

(** X4.  In exact arithmetic the 2D [Cross] is antisymmetric and vanishes on
    equal operands, [Dot] is symmetric, and
    [Dot(a,b)^2 + Cross(a,b)^2 = MagnitudeSquared(a) * MagnitudeSquared(b)]. *)
Theorem Vector2_Cross_Dot_algebra (a b : Vector2.t R) :
  Vector2.Cross a b = - Vector2.Cross b a
  /\ Vector2.Cross a a = 0
  /\ Vector2.Dot a b = Vector2.Dot b a
  /\ Vector2.Dot a a = Vector2.MagnitudeSquared a
  /\ Vector2.Dot a b * Vector2.Dot a b + Vector2.Cross a b * Vector2.Cross a b
     = Vector2.MagnitudeSquared a * Vector2.MagnitudeSquared b.
Proof.
  destruct a as [ax ay], b as [bx b_y].
  vector2_unfold; real_ops.
  repeat split; ring.
Qed.

(** X5.  [OrthogonalCW] undoes [OrthogonalCCW] and conversely; the result of
    either is orthogonal to the argument and has its squared magnitude; two
    counter-clockwise quarter turns negate the vector. *)
Theorem Vector2_Orthogonal_quarter_turns (v : Vector2.t R) :
  Vector2.OrthogonalCW (Vector2.OrthogonalCCW v) = v
  /\ Vector2.OrthogonalCCW (Vector2.OrthogonalCW v) = v
  /\ Vector2.Dot v (Vector2.OrthogonalCCW v) = 0
  /\ Vector2.Dot v (Vector2.OrthogonalCW v) = 0
  /\ Vector2.MagnitudeSquared (Vector2.OrthogonalCCW v)
     = Vector2.MagnitudeSquared v
  /\ Vector2.MagnitudeSquared (Vector2.OrthogonalCW v)
     = Vector2.MagnitudeSquared v
  /\ Vector2.OrthogonalCCW (Vector2.OrthogonalCCW v)
     = Vector2.mk (- Vector2.x v) (- Vector2.y v).
Proof.
  destruct v as [vx vy].
  vector2_unfold; real_ops.
  repeat split; try ring; f_equal; ring.
Qed.

End VectorAlgebraReal.

(** ** Normalization and inversion *)

Section NormalizationReal.
Import RealModel.
Local Open Scope R_scope.

Variable eps : R.
Hypothesis eps_nonneg : 0 <= eps.

#[local] Hint Extern 0 (Scalar R) => exact (R_Scalar eps) : typeclass_instances.

Lemma Rabs_le_0 (r tol : R) : 0 <= tol -> Rabs (r - r) <= tol.
Proof. intros H. rewrite Rabs_x_minus_x. exact H. Qed.

Lemma CloseEnough_same (r tol : R) : 0 <= tol -> CloseEnough r r tol = true.
Proof. intros H. apply (CloseEnough_real eps). now apply Rabs_le_0. Qed.

Lemma Vector2_Epsilon_nonneg : 0 <= Vector2.Epsilon.
Proof. unfold Vector2.Epsilon; real_ops; lra. Qed.

Lemma Vector3_Epsilon_nonneg : 0 <= Vector3.Epsilon.
Proof. unfold Vector3.Epsilon; real_ops; lra. Qed.

Lemma Quaternion_Epsilon_nonneg : 0 <= Quaternion.Epsilon.
Proof. unfold Quaternion.Epsilon; real_ops; lra. Qed.

Lemma Vector2_MagnitudeSquared_nonneg (v : Vector2.t R) :
  0 <= Vector2.MagnitudeSquared v.
Proof. destruct v; vector2_unfold; real_ops; nra. Qed.

(** Dividing by the norm gives squared magnitude 1. *)
Lemma Vector2_rescaled_unit (v : Vector2.t R) :
  0 < Vector2.MagnitudeSquared v ->
  Vector2.MagnitudeSquared
    (Vector2.div_float v (sqrt (Vector2.MagnitudeSquared v))) = 1.
Proof.
  intros Hm.
  pose proof (sqrt_lt_R0 _ Hm) as Hs.
  pose proof (sqrt_sqrt (Vector2.MagnitudeSquared v) (Rlt_le _ _ Hm)) as Hss.
  set (s := sqrt (Vector2.MagnitudeSquared v)) in *.
  destruct v as [vx vy].
  cbv [Vector2.MagnitudeSquared Vector2.div_float Vector2.x Vector2.y] in *.
  real_ops.
  replace (vx / s * (vx / s) + vy / s * (vy / s))
    with ((vx * vx + vy * vy) / (s * s)) by (field; lra).
  rewrite Hss. field. lra.
Qed.

(** X6.  In exact arithmetic, for every [Vector2]: [Normalize] after
    [Normalize] changes nothing more; a vector for which [IsZero] holds is
    returned as it is; every other vector satisfies [IsNormalized] after
    [Normalize]; [Normalized] returns what [Normalize] leaves in the
    receiver. *)
Theorem Vector2_Normalize_idempotent (v : Vector2.t R) :
  Vector2.Normalize (Vector2.Normalize v) = Vector2.Normalize v
  /\ (Vector2.IsZero v = true -> Vector2.Normalize v = v)
  /\ (Vector2.IsZero v = false ->
      Vector2.IsNormalized (Vector2.Normalize v) = true)
  /\ Vector2.Normalized v = Vector2.Normalize v.
Proof.
  pose proof Vector2_Epsilon_nonneg as HE.
  pose proof (Vector2_MagnitudeSquared_nonneg v) as Hm.
  assert (Hcases :
    (Vector2.IsNormalized v = true /\ Vector2.Normalize v = v)
    \/ (Vector2.IsZero v = true /\ Vector2.Normalize v = v)
    \/ (Vector2.IsZero v = false
        /\ Vector2.MagnitudeSquared (Vector2.Normalize v) = 1)).
  { unfold Vector2.Normalize, Vector2.IsZero, Vector2.IsNormalized.
    destruct (CloseEnough (Vector2.MagnitudeSquared v) (lit 1) Vector2.Epsilon);
      [now left|].
    destruct (CloseEnough (Vector2.MagnitudeSquared v) (lit 0) Vector2.Epsilon)
      eqn:H0; [now right; left|].
    right; right. split; [reflexivity|].
    apply (CloseEnough_real_false eps) in H0. real_ops.
    apply Vector2_rescaled_unit.
    replace (Vector2.MagnitudeSquared v - 0)
      with (Vector2.MagnitudeSquared v) in H0 by lra.
    rewrite Rabs_pos_eq in H0 by exact Hm. lra. }
  assert (Hunit : forall u : Vector2.t R,
            Vector2.MagnitudeSquared u = 1 ->
            Vector2.Normalize u = u /\ Vector2.IsNormalized u = true).
  { intros u Hu. unfold Vector2.Normalize, Vector2.IsNormalized.
    rewrite Hu. real_ops. rewrite CloseEnough_same by exact HE. now split. }
  repeat apply conj.
  - destruct Hcases as [[_ Hv] | [[_ Hv] | [_ H1]]];
      [rewrite !Hv; reflexivity | rewrite !Hv; reflexivity | now apply Hunit].
  - intros Hz. destruct Hcases as [[_ Hv] | [[_ Hv] | [Hz' _]]];
      [exact Hv | exact Hv | congruence].
  - intros Hz. destruct Hcases as [[Hn Hv] | [[Hz' _] | [_ H1]]];
      [rewrite Hv; exact Hn | congruence | now apply Hunit].
  - unfold Vector2.Normalized. now destruct v.
Qed.

End NormalizationReal.

Section NormalizationVector3.
Import RealModel.
Local Open Scope R_scope.

Variable eps : R.
Hypothesis eps_nonneg : 0 <= eps.
Hypothesis eps_small : eps < / 3.

#[local] Hint Extern 0 (Scalar R) => exact (R_Scalar eps) : typeclass_instances.

Lemma Vector3_MagnitudeSquared_real (v : Vector3.t R) :
  Vector3.MagnitudeSquared v
  = Vector3.x v * Vector3.x v + Vector3.y v * Vector3.y v
    + Vector3.z v * Vector3.z v.
Proof. destruct v; vector3_unfold; real_ops; ring. Qed.

Lemma Vector3_Magnitude_sqrt (v : Vector3.t R) :
  Vector3.Magnitude v = sqrt (Vector3.MagnitudeSquared v).
Proof. reflexivity. Qed.

(** A vector longer than the first guard allows is rescaled, to squared
    magnitude 1. *)
Lemma Vector3_Normalized_long_unit (v : Vector3.t R) :
  1 + Vector3.Epsilon < Vector3.MagnitudeSquared v ->
  Vector3.Normalized v
  = Vector3.times_float v (1 / sqrt (Vector3.MagnitudeSquared v))
  /\ Vector3.MagnitudeSquared (Vector3.Normalized v) = 1.
Proof.
  intros H.
  pose proof (Vector3_Epsilon_nonneg eps_nonneg) as HE.
  assert (HEs : Vector3.Epsilon < 1) by (unfold Vector3.Epsilon; real_ops; lra).
  assert (Hs : 1 < sqrt (Vector3.MagnitudeSquared v)).
  { rewrite <- sqrt_1 at 1. apply sqrt_lt_1_alt. lra. }
  assert (HN : Vector3.Normalized v
               = Vector3.times_float v (1 / sqrt (Vector3.MagnitudeSquared v))).
  { unfold Vector3.Normalized. real_ops.
    rewrite Rleb_false by lra. rewrite Rltb_false by lra. reflexivity. }
  split; [exact HN|]. rewrite HN.
  pose proof (@Vector3_rescaled_unit eps v) as Hu.
  rewrite !Vector3_Magnitude_sqrt in Hu.
  specialize (Hu ltac:(lra)).
  set (u := Vector3.times_float v (1 / sqrt (Vector3.MagnitudeSquared v))) in *.
  assert (0 <= Vector3.MagnitudeSquared u).
  { rewrite Vector3_MagnitudeSquared_real. nra. }
  rewrite <- (sqrt_sqrt (Vector3.MagnitudeSquared u)) by assumption.
  rewrite Hu. ring.
Qed.

(** X7.  In exact arithmetic, for every [Vector3]: [Normalized] after
    [Normalized] changes nothing more; its result never has a squared
    magnitude above [1 + Epsilon] and always satisfies [IsNormalized]; a
    vector of squared magnitude above [1 + Epsilon] comes out with squared
    magnitude 1; [IsZero] implies [IsNormalized]; and [Normalize] leaves in
    the receiver what [Normalized] returns. *)
Theorem Vector3_Normalized_idempotent (v : Vector3.t R) :
  Vector3.Normalized (Vector3.Normalized v) = Vector3.Normalized v
  /\ Vector3.MagnitudeSquared (Vector3.Normalized v) <= 1 + Vector3.Epsilon
  /\ Vector3.IsNormalized (Vector3.Normalized v) = true
  /\ (1 + Vector3.Epsilon < Vector3.MagnitudeSquared v ->
      Vector3.MagnitudeSquared (Vector3.Normalized v) = 1)
  /\ (Vector3.IsZero v = true -> Vector3.IsNormalized v = true)
  /\ Vector3.Normalize v = Vector3.Normalized v.
Proof.
  pose proof (Vector3_Epsilon_nonneg eps_nonneg) as HE.
  assert (Hle : Vector3.MagnitudeSquared (Vector3.Normalized v)
                <= 1 + Vector3.Epsilon).
  { destruct (Rle_lt_dec (Vector3.MagnitudeSquared v) (1 + Vector3.Epsilon))
      as [Hs | Hl].
    - now rewrite (Vector3_Normalized_short Hs).
    - destruct (Vector3_Normalized_long_unit Hl) as [_ ->]. lra. }
  repeat apply conj.
  - now apply Vector3_Normalized_short.
  - exact Hle.
  - unfold Vector3.IsNormalized. real_ops. apply Rleb_true. lra.
  - intros Hl. now destruct (Vector3_Normalized_long_unit Hl).
  - unfold Vector3.IsZero, Vector3.IsNormalized. real_ops.
    intros Hz. apply Rleb_iff in Hz. apply Rleb_true. lra.
  - reflexivity.
Qed.

End NormalizationVector3.

Ltac quaternion_unfold :=
  cbv [Quaternion.QuaternionSquareSum Quaternion.xmm Quaternion.MakeConjugate
       Quaternion.Conjugate Quaternion._XO_ASSIGN_QUAT Quaternion.mk
       Quaternion.x Quaternion.y Quaternion.z Quaternion.w
       Vector4.div_float Vector4.x Vector4.y Vector4.z Vector4.w
       Vector3._mm_mul_ps Vector3._mm_hadd_ps Vector3._mm_cvtss_f32
       Vector3.lanewise Vector3.x Vector3.y Vector3.z Vector3.w].

Section NormalizationQuaternion.
Import RealModel.
Local Open Scope R_scope.

Variable eps : R.
Hypothesis eps_nonneg : 0 <= eps.

#[local] Hint Extern 0 (Scalar R) => exact (R_Scalar eps) : typeclass_instances.
#[local] Hint Extern 0 (Libm R) => exact R_Libm : typeclass_instances.

(** The two builds sum the four squares in a different order. *)
Lemma QuaternionSquareSum_real (XO_SSE : bool) (q : Quaternion.t R) :
  Quaternion.QuaternionSquareSum XO_SSE q
  = Quaternion.x q * Quaternion.x q + Quaternion.y q * Quaternion.y q
    + Quaternion.z q * Quaternion.z q + Quaternion.w q * Quaternion.w q.
Proof. destruct q, XO_SSE; quaternion_unfold; real_ops; ring. Qed.

Lemma QuaternionSquareSum_nonneg (XO_SSE : bool) (q : Quaternion.t R) :
  0 <= Quaternion.QuaternionSquareSum XO_SSE q.
Proof. rewrite QuaternionSquareSum_real. nra. Qed.

Lemma QuaternionSquareSum_div (XO_SSE : bool) (q : Quaternion.t R) (d : R) :
  d <> 0 ->
  Quaternion.QuaternionSquareSum XO_SSE (Vector4.div_float q d)
  = Quaternion.QuaternionSquareSum XO_SSE q / (d * d).
Proof.
  intros Hd. rewrite !QuaternionSquareSum_real.
  destruct q; quaternion_unfold; real_ops. field. exact Hd.
Qed.

Lemma QuaternionSquareSum_Conjugate (XO_SSE : bool) (q : Quaternion.t R) :
  Quaternion.QuaternionSquareSum XO_SSE (Quaternion.MakeConjugate q)
  = Quaternion.QuaternionSquareSum XO_SSE q.
Proof.
  rewrite !QuaternionSquareSum_real.
  destruct q; quaternion_unfold; real_ops. ring.
Qed.

Lemma MakeConjugate_involutive (q : Quaternion.t R) :
  Quaternion.MakeConjugate (Quaternion.MakeConjugate q) = q.
Proof. destruct q; quaternion_unfold; real_ops. f_equal; ring. Qed.

(** X8.  In exact arithmetic, in both builds: [Quaternion::Normalize] returns
    the quaternion as it is when its square sum is within [Epsilon] of 1 or
    its norm is within [Epsilon] of 0, and otherwise returns a quaternion of
    square sum 1; normalizing a second time changes nothing more. *)
Theorem Quaternion_Normalize_idempotent (XO_SSE : bool) (q : Quaternion.t R) :
  let N := Quaternion.QuaternionSquareSum XO_SSE q in
  (Rabs (N - 1) <= Quaternion.Epsilon -> Quaternion.Normalize XO_SSE q = q)
  /\ (Rabs (sqrt N - 0) <= Quaternion.Epsilon ->
      Quaternion.Normalize XO_SSE q = q)
  /\ (Quaternion.Epsilon < Rabs (N - 1) ->
      Quaternion.Epsilon < Rabs (sqrt N - 0) ->
      Quaternion.Normalize XO_SSE q = Vector4.div_float q (sqrt N)
      /\ Quaternion.QuaternionSquareSum XO_SSE (Quaternion.Normalize XO_SSE q)
         = 1)
  /\ Quaternion.Normalize XO_SSE (Quaternion.Normalize XO_SSE q)
     = Quaternion.Normalize XO_SSE q
  /\ Quaternion.Normalized XO_SSE q = Quaternion.Normalize XO_SSE q.
Proof.
  intros N.
  pose proof Quaternion_Epsilon_nonneg eps_nonneg as HE.
  pose proof (QuaternionSquareSum_nonneg XO_SSE q) as HN. fold N in HN.
  assert (H1 : Rabs (N - 1) <= Quaternion.Epsilon ->
               Quaternion.Normalize XO_SSE q = q).
  { intros H. unfold Quaternion.Normalize. fold N. real_ops.
    apply (CloseEnough_real eps) in H. now rewrite H. }
  assert (H0 : Rabs (sqrt N - 0) <= Quaternion.Epsilon ->
               Quaternion.Normalize XO_SSE q = q).
  { intros H. unfold Quaternion.Normalize. fold N. real_ops.
    apply (CloseEnough_real eps) in H. rewrite H.
    now destruct (CloseEnough N 1 Quaternion.Epsilon). }
  assert (H2 : Quaternion.Epsilon < Rabs (N - 1) ->
               Quaternion.Epsilon < Rabs (sqrt N - 0) ->
               Quaternion.Normalize XO_SSE q = Vector4.div_float q (sqrt N)
               /\ Quaternion.QuaternionSquareSum XO_SSE
                    (Quaternion.Normalize XO_SSE q) = 1).
  { intros Ha Hb.
    assert (Hn : Quaternion.Normalize XO_SSE q = Vector4.div_float q (sqrt N)).
    { unfold Quaternion.Normalize. fold N. real_ops.
      apply (CloseEnough_real_false eps) in Ha, Hb. now rewrite Ha, Hb. }
    split; [exact Hn|]. rewrite Hn.
    assert (Hs : 0 < sqrt N).
    { replace (sqrt N - 0) with (sqrt N) in Hb by lra.
      rewrite Rabs_pos_eq in Hb by apply sqrt_pos. lra. }
    rewrite QuaternionSquareSum_div by lra. fold N.
    rewrite sqrt_sqrt by exact HN.
    assert (N <> 0) by (intros E; rewrite E, sqrt_0 in Hs; lra).
    now field. }
  repeat apply conj; try assumption.
  - destruct (Rle_lt_dec (Rabs (N - 1)) Quaternion.Epsilon) as [Ha | Ha];
      [now rewrite !H1|].
    destruct (Rle_lt_dec (Rabs (sqrt N - 0)) Quaternion.Epsilon) as [Hb | Hb];
      [now rewrite !H0|].
    destruct (H2 Ha Hb) as [_ Hu].
    unfold Quaternion.Normalize at 1. rewrite Hu. real_ops.
    now rewrite CloseEnough_same.
  - unfold Quaternion.Normalized. now destruct q.
Qed.

(** X9.  In exact arithmetic, in both builds, [Quaternion::Inverse] goes by
    the square sum [N] of the quaternion.  When [N] is within [Epsilon] of 1
    it is the conjugate, and then the inverse of the inverse is the
    quaternion itself.  When [N] is not within [Epsilon] of 1 and is within
    [Epsilon] of 0, it is the quaternion unchanged.  When [N] is within
    [Epsilon] of neither, it is the conjugate divided by [N], and its own
    square sum is [1 / N]. *)
Theorem Quaternion_Inverse_cases (XO_SSE : bool) (q : Quaternion.t R) :
  let N := Quaternion.QuaternionSquareSum XO_SSE q in
  (Rabs (N - 1) <= Quaternion.Epsilon ->
     Quaternion.Inverse XO_SSE q = Quaternion.Conjugate q
     /\ Quaternion.Inverse XO_SSE (Quaternion.Inverse XO_SSE q) = q)
  /\ (Quaternion.Epsilon < Rabs (N - 1) -> Rabs (N - 0) <= Quaternion.Epsilon ->
      Quaternion.Inverse XO_SSE q = q)
  /\ (Quaternion.Epsilon < Rabs (N - 1) -> Quaternion.Epsilon < Rabs (N - 0) ->
      Quaternion.Inverse XO_SSE q
      = Vector4.div_float (Quaternion.Conjugate q) N
      /\ Quaternion.QuaternionSquareSum XO_SSE (Quaternion.Inverse XO_SSE q)
         = 1 / N).
Proof.
  intros N.
  pose proof (QuaternionSquareSum_nonneg XO_SSE q) as HN. fold N in HN.
  assert (Hcopy : forall p : Quaternion.t R,
            Quaternion.mk (Quaternion.x p) (Quaternion.y p) (Quaternion.z p)
                          (Quaternion.w p) = p) by (now intros []).
  assert (Hunit : forall p : Quaternion.t R,
            Rabs (Quaternion.QuaternionSquareSum XO_SSE p - 1)
              <= Quaternion.Epsilon ->
            Quaternion.Inverse XO_SSE p = Quaternion.Conjugate p).
  { intros p H. unfold Quaternion.Inverse, Quaternion.Conjugate,
      Quaternion.MakeInverse. rewrite !Hcopy. real_ops.
    apply (CloseEnough_real eps) in H. now rewrite H. }
  repeat apply conj.
  - intros H. split; [now apply Hunit|].
    rewrite (Hunit q H). rewrite Hunit.
    + unfold Quaternion.Conjugate. rewrite !Hcopy.
      apply MakeConjugate_involutive.
    + unfold Quaternion.Conjugate. rewrite Hcopy.
      now rewrite QuaternionSquareSum_Conjugate.
  - intros Ha Hb. unfold Quaternion.Inverse, Quaternion.MakeInverse.
    rewrite !Hcopy. fold N. real_ops.
    apply (CloseEnough_real_false eps) in Ha.
    apply (CloseEnough_real eps) in Hb. now rewrite Ha, Hb.
  - intros Ha Hb.
    assert (Hi : Quaternion.Inverse XO_SSE q
                 = Vector4.div_float (Quaternion.Conjugate q) N).
    { unfold Quaternion.Inverse, Quaternion.MakeInverse, Quaternion.Conjugate.
      rewrite !Hcopy. fold N. real_ops.
      apply (CloseEnough_real_false eps) in Ha, Hb. now rewrite Ha, Hb. }
    split; [exact Hi|]. rewrite Hi.
    assert (Hn : 0 < N).
    { replace (N - 0) with N in Hb by lra.
      rewrite Rabs_pos_eq in Hb by exact HN.
      pose proof Quaternion_Epsilon_nonneg eps_nonneg. lra. }
    rewrite QuaternionSquareSum_div by lra.
    unfold Quaternion.Conjugate. rewrite Hcopy.
    rewrite QuaternionSquareSum_Conjugate. fold N. field. lra.
Qed.

(** X10.  In exact arithmetic the quaternion [RotationRadians] builds from
    three Euler angles has square sum 1, whatever the angles, in both
    builds. *)
Theorem Quaternion_RotationRadians_unit (XO_SSE : bool) (x y z : R) :
  Quaternion.QuaternionSquareSum XO_SSE (Quaternion.RotationRadians x y z) = 1.
Proof.
  rewrite QuaternionSquareSum_real.
  cbv [Quaternion.RotationRadians Quaternion.RotationRadians_Vector3
       Quaternion.SinCos_x3 Quaternion._XO_ASSIGN_QUAT Quaternion.mk
       Quaternion.x Quaternion.y Quaternion.z Quaternion.w
       Vector4.x Vector4.y Vector4.z Vector4.w
       Vector3.times_float Vector3.of_xyz Vector3._mm_set_ps
       Vector3._mm_mul_ps Vector3._mm_set1_ps Vector3.lanewise
       Vector3.x Vector3.y Vector3.z Vector3.w].
  real_ops.
  pose proof (sin2_cos2 (x * / 2)) as Hx.
  pose proof (sin2_cos2 (y * / 2)) as Hy.
  pose proof (sin2_cos2 (z * / 2)) as Hz.
  unfold Rsqr in Hx, Hy, Hz.
  set (s0 := sin (x * / 2)) in *. set (c0 := cos (x * / 2)) in *.
  set (s1 := sin (y * / 2)) in *. set (c1 := cos (y * / 2)) in *.
  set (s2 := sin (z * / 2)) in *. set (c2 := cos (z * / 2)) in *.
  match goal with |- ?e = 1 =>
    replace e with
      ((s0 * s0 + c0 * c0) * (s1 * s1 + c1 * c1) * (s2 * s2 + c2 * c2))
      by ring end.
  rewrite Hx, Hy, Hz. ring.
Qed.

End NormalizationQuaternion.

(** ** Conjugation *)

Section ConjugateBoth.
Import RealModel.
Local Open Scope R_scope.

Lemma SFopp_involutive (a : spec_float) : SFopp (SFopp a) = a.
Proof. destruct a; cbn; rewrite ?negb_involutive; reflexivity. Qed.

(** X11.  [Conjugate] negates the vector part and keeps the scalar part;
    conjugating twice gives the quaternion back, in exact arithmetic and in
    binary32 alike, and the square sum is that of the argument. *)
Theorem Quaternion_Conjugate_involutive :
  (forall (eps : R) (XO_SSE : bool) (q : Quaternion.t R),
     @Quaternion.Conjugate R (R_Scalar eps) q
     = Quaternion.mk (- Quaternion.x q) (- Quaternion.y q) (- Quaternion.z q)
                     (Quaternion.w q)
     /\ @Quaternion.Conjugate R (R_Scalar eps)
          (@Quaternion.Conjugate R (R_Scalar eps) q) = q
     /\ @Quaternion.QuaternionSquareSum R (R_Scalar eps) XO_SSE
          (@Quaternion.Conjugate R (R_Scalar eps) q)
        = @Quaternion.QuaternionSquareSum R (R_Scalar eps) XO_SSE q)
  /\ (forall q : Quaternion.t spec_float,
        @Quaternion.Conjugate spec_float Binary32.B32_Scalar
          (@Quaternion.Conjugate spec_float Binary32.B32_Scalar q) = q).
Proof.
  split.
  - intros eps sse q. split; [now destruct q|]. split.
    + destruct q; quaternion_unfold; real_ops. f_equal; ring.
    + unfold Quaternion.Conjugate.
      replace (Quaternion.mk (Quaternion.x q) (Quaternion.y q)
                 (Quaternion.z q) (Quaternion.w q)) with q by (now destruct q).
      apply QuaternionSquareSum_Conjugate.
  - intros [x y z w]. quaternion_unfold.
    cbn [neg Binary32.B32_Scalar].
    now rewrite !SFopp_involutive.
Qed.

End ConjugateBoth.

(** ** The larger and the smaller of two vectors *)

Section MaxMinReal.
Import RealModel.
Local Open Scope R_scope.

Variable eps : R.

#[local] Hint Extern 0 (Scalar R) => exact (R_Scalar eps) : typeclass_instances.

(** X12.  [Max] and [Min] return one of their two operands, chosen by squared
    magnitude: the squared magnitude of the result is the larger,
    respectively the smaller, of the two.  When the two squared magnitudes
    are equal, [Vector3::Max], [Vector3::Min] and [Vector2::Max] return [a],
    and [Vector2::Min] returns [b]. *)
Theorem Max_Min_by_magnitude :
  (forall a b : Vector3.t R,
     (Vector3.Max a b = a \/ Vector3.Max a b = b)
     /\ (Vector3.Min a b = a \/ Vector3.Min a b = b)
     /\ Vector3.MagnitudeSquared (Vector3.Max a b)
        = Rmax (Vector3.MagnitudeSquared a) (Vector3.MagnitudeSquared b)
     /\ Vector3.MagnitudeSquared (Vector3.Min a b)
        = Rmin (Vector3.MagnitudeSquared a) (Vector3.MagnitudeSquared b)
     /\ (Vector3.MagnitudeSquared a = Vector3.MagnitudeSquared b ->
         Vector3.Max a b = a /\ Vector3.Min a b = a))
  /\ (forall a b : Vector2.t R,
     (Vector2.Max a b = a \/ Vector2.Max a b = b)
     /\ (Vector2.Min a b = a \/ Vector2.Min a b = b)
     /\ Vector2.MagnitudeSquared (Vector2.Max a b)
        = Rmax (Vector2.MagnitudeSquared a) (Vector2.MagnitudeSquared b)
     /\ Vector2.MagnitudeSquared (Vector2.Min a b)
        = Rmin (Vector2.MagnitudeSquared a) (Vector2.MagnitudeSquared b)
     /\ (Vector2.MagnitudeSquared a = Vector2.MagnitudeSquared b ->
         Vector2.Max a b = a /\ Vector2.Min a b = b)).
Proof.
  split; intros a b.
  - unfold Vector3.Max, Vector3.Min. real_ops. unfold Rleb, Rmax, Rmin.
    destruct (Rle_dec (Vector3.MagnitudeSquared b) (Vector3.MagnitudeSquared a));
    destruct (Rle_dec (Vector3.MagnitudeSquared a) (Vector3.MagnitudeSquared b));
      repeat split; auto; try lra; intros; try lra; split; auto; lra.
  - unfold Vector2.Max, Vector2.Min, Vector2.Max_out, Vector2.Min_out.
    rewrite !Vector2_Set_id. real_ops. unfold Rleb, Rltb, Rmax, Rmin.
    destruct (Rle_dec (Vector2.MagnitudeSquared b) (Vector2.MagnitudeSquared a));
    destruct (Rlt_dec (Vector2.MagnitudeSquared a) (Vector2.MagnitudeSquared b));
    destruct (Rle_dec (Vector2.MagnitudeSquared a) (Vector2.MagnitudeSquared b));
      repeat split; auto; try lra; intros; try lra; split; auto; lra.
Qed.

End MaxMinReal.

(** ** Rotation matrices *)

Ltac rotation_unfold :=
  cbv [Matrix4x4.RotationDegrees Matrix4x4.RotationRadians
       Matrix4x4.RotationXDegrees Matrix4x4.RotationYDegrees
       Matrix4x4.RotationZDegrees
       Matrix4x4.RotationXRadians Matrix4x4.RotationYRadians
       Matrix4x4.RotationZRadians Matrix4x4.AxisAngleRadians
       Matrix4x4.Transpose Matrix4x4.MakeTranspose Matrix4x4._MM_TRANSPOSE4_PS
       Matrix4x4._XO_TRANSPOSE_SWAP Matrix4x4.get Matrix4x4.set
       Matrix4x4.set_component Matrix4x4.row
       Matrix4x4.times Matrix4x4.row_times Matrix4x4.column Matrix4x4.of_16
       Matrix4x4.r0 Matrix4x4.r1 Matrix4x4.r2 Matrix4x4.r3
       Vector4.Sum Vector4.times Vector4.x Vector4.y Vector4.z Vector4.w
       Vector3.UnitX Vector3.UnitY Vector3.UnitZ Vector3.of_xyz
       Vector3._mm_set_ps Vector3.x Vector3.y Vector3.z Vector3.w].

Section RotationReal.
Import RealModel.
Local Open Scope R_scope.

Variable eps : R.

#[local] Hint Extern 0 (Scalar R) => exact (R_Scalar eps) : typeclass_instances.
#[local] Hint Extern 0 (Libm R) => exact R_Libm : typeclass_instances.

(** X13.  In exact arithmetic, in both builds, the transpose of a rotation
    matrix about an axis is the rotation by the negated angle: for
    [RotationXRadians], [RotationYRadians], [RotationZRadians] and, for every
    axis, [AxisAngleRadians]. *)
Theorem Transpose_rotation_negates_angle
  (XO_SSE : bool) (r : R) (a : Vector3.t R) :
  Matrix4x4.Transpose XO_SSE (Matrix4x4.RotationXRadians r)
    = Matrix4x4.RotationXRadians (- r)
  /\ Matrix4x4.Transpose XO_SSE (Matrix4x4.RotationYRadians r)
    = Matrix4x4.RotationYRadians (- r)
  /\ Matrix4x4.Transpose XO_SSE (Matrix4x4.RotationZRadians r)
    = Matrix4x4.RotationZRadians (- r)
  /\ Matrix4x4.Transpose XO_SSE (Matrix4x4.AxisAngleRadians a r)
    = Matrix4x4.AxisAngleRadians a (- r).
Proof.
  destruct XO_SSE; rotation_unfold; real_ops;
    rewrite !cos_neg, !sin_neg;
    repeat split; f_equal; f_equal; ring.
Qed.

(** X14.  In exact arithmetic [AxisAngleRadians] about [UnitX] is
    [RotationXRadians] and about [UnitZ] is [RotationZRadians], by the same
    angle; about [UnitY] it is [RotationYRadians] by the negated angle: the
    y rotation turns the other way. *)
Theorem AxisAngleRadians_about_unit_axes (r : R) :
  Matrix4x4.AxisAngleRadians Vector3.UnitX r = Matrix4x4.RotationXRadians r
  /\ Matrix4x4.AxisAngleRadians Vector3.UnitZ r = Matrix4x4.RotationZRadians r
  /\ Matrix4x4.AxisAngleRadians Vector3.UnitY r
     = Matrix4x4.RotationYRadians (- r).
Proof.
  rotation_unfold; real_ops. rewrite !cos_neg, !sin_neg.
  repeat split; f_equal; f_equal; ring.
Qed.

(** X15.  In exact arithmetic, with the row-times-column product,
    [RotationDegrees(x, y, z)] and [RotationRadians] on the converted angles
    give the same matrix whenever [x] is 0 or [y] is 0. *)
Theorem RotationDegrees_agrees_without_x_or_y (x y z : R) :
  Matrix4x4.RotationDegrees 0 y z
    = Matrix4x4.RotationRadians (0 * Deg2Rad) (y * Deg2Rad) (z * Deg2Rad)
  /\ Matrix4x4.RotationDegrees x 0 z
    = Matrix4x4.RotationRadians (x * Deg2Rad) (0 * Deg2Rad) (z * Deg2Rad).
Proof.
  rotation_unfold; real_ops.
  replace (0 * (PI / 180)) with 0 by lra. rewrite cos_0, sin_0.
  split; f_equal; f_equal; ring.
Qed.

End RotationReal.

(** ** The matrix of a quaternion *)

Section MatrixOfQuaternion.
Import RealModel.
Local Open Scope R_scope.

Variable eps : R.

#[local] Hint Extern 0 (Scalar R) => exact (R_Scalar eps) : typeclass_instances.

(** X16.  In exact arithmetic, for every quaternion [q]: [Matrix4x4(q)] is
    the same matrix for [q] and for [-q], its fourth row is [(0, 0, 0, 1)]
    and its fourth column above that is 0.  For a quaternion of square sum 1
    its three rotation rows have length 1 and are orthogonal to one
    another. *)
Theorem of_Quaternion_orthonormal (q : Quaternion.t R) :
  let M := Matrix4x4.of_Quaternion q in
  let row0 := Vector3.of_Vector4 (Matrix4x4.r0 M) in
  let row1 := Vector3.of_Vector4 (Matrix4x4.r1 M) in
  let row2 := Vector3.of_Vector4 (Matrix4x4.r2 M) in
  Matrix4x4.of_Quaternion
    (Quaternion.mk (- Quaternion.x q) (- Quaternion.y q)
                   (- Quaternion.z q) (- Quaternion.w q)) = M
  /\ Matrix4x4.r3 M = Vector4.mk 0 0 0 1
  /\ Vector4.w (Matrix4x4.r0 M) = 0 /\ Vector4.w (Matrix4x4.r1 M) = 0
  /\ Vector4.w (Matrix4x4.r2 M) = 0
  /\ (unit_quaternion q ->
      Vector3.Magnitude row0 = 1 /\ Vector3.Magnitude row1 = 1
      /\ Vector3.Magnitude row2 = 1
      /\ Vector3.Dot row0 row1 = 0 /\ Vector3.Dot row0 row2 = 0
      /\ Vector3.Dot row1 row2 = 0).
Proof.
  intros M row0 row1 row2.
  assert (Hneg : Matrix4x4.of_Quaternion
                   (Quaternion.mk (- Quaternion.x q) (- Quaternion.y q)
                      (- Quaternion.z q) (- Quaternion.w q)) = M).
  { subst M. destruct q as [x y z w].
    cbv [Matrix4x4.of_Quaternion Vector4.plus Vector4.times
         Vector4.times_float Vector4.UnitW
         Vector4.x Vector4.y Vector4.z Vector4.w
         Quaternion.mk Quaternion.x Quaternion.y Quaternion.z Quaternion.w].
    real_ops. f_equal; f_equal; ring. }
  split; [exact Hneg|].
  split; [reflexivity|]. split; [reflexivity|]. split; [reflexivity|].
  split; [reflexivity|].
  intros Hq.
  destruct (of_Quaternion_rows_unit eps Hq) as (H0 & H1 & H2).
  split; [exact H0|]. split; [exact H1|]. split; [exact H2|].
  clear H0 H1 H2 Hneg. subst M row0 row1 row2.
  destruct q as [x y z w].
  unfold unit_quaternion, Quaternion.x, Quaternion.y, Quaternion.z,
    Quaternion.w in Hq.
  cbn [Vector4.x Vector4.y Vector4.z Vector4.w] in Hq.
  cbv [Matrix4x4.of_Quaternion Matrix4x4.r0 Matrix4x4.r1 Matrix4x4.r2
       Matrix4x4.r3 Vector3.of_Vector4 Vector3.of_xyz Vector3._mm_set_ps
       Vector4.plus Vector4.times Vector4.times_float Vector4.UnitW
       Vector4.x Vector4.y Vector4.z Vector4.w
       Quaternion.mk Quaternion.x Quaternion.y Quaternion.z Quaternion.w].
  vector3_unfold. real_ops.
  repeat split.
  - match goal with |- ?e = 0 =>
      replace e with (4 * x * y * (1 - (x * x + y * y + z * z + w * w)))
        by ring end.
    rewrite Hq; ring.
  - match goal with |- ?e = 0 =>
      replace e with (4 * x * z * (1 - (x * x + y * y + z * z + w * w)))
        by ring end.
    rewrite Hq; ring.
  - match goal with |- ?e = 0 =>
      replace e with (4 * y * z * (1 - (x * x + y * y + z * z + w * w)))
        by ring end.
    rewrite Hq; ring.
Qed.

End MatrixOfQuaternion.

(** ** The look-at matrices *)

Section LookAtReal.
Import RealModel.
Local Open Scope R_scope.

Variable eps : R.

#[local] Hint Extern 0 (Scalar R) => exact (R_Scalar eps) : typeclass_instances.

(** [Normalized] returns the vector or a multiple of it. *)
Lemma Vector3_Normalized_parallel (v : Vector3.t R) :
  exists k : R, Vector3.Normalized v = Vector3.times_float v k.
Proof.
  unfold Vector3.Normalized.
  assert (H1 : v = Vector3.times_float v 1).
  { destruct v; vector3_unfold; real_ops. f_equal; ring. }
  repeat match goal with
         | |- exists k, (if ?c then _ else _) = _ => destruct c
         end; try (exists 1; exact H1).
  eexists; reflexivity.
Qed.

(** X17.  In exact arithmetic, for every direction and every up vector, also
    degenerate ones, the three axes that [LookAtFromDirection] and
    [LookAtFromPosition] write into the columns of the rotation block are
    orthogonal to one another; [LookAtFromPosition(from, to, up)] has the
    rotation block of [LookAtFromDirection(to - from, up)]. *)
Theorem LookAt_axes_orthogonal (from to direction up : Vector3.t R) :
  let column (m : Matrix4x4.t R) (j : Matrix4x4.index) : Vector3.t R :=
    Vector3.of_xyz (Matrix4x4.get m Matrix4x4.I0 j)
                   (Matrix4x4.get m Matrix4x4.I1 j)
                   (Matrix4x4.get m Matrix4x4.I2 j) in
  let D := Matrix4x4.LookAtFromDirection direction up in
  let P := Matrix4x4.LookAtFromPosition from to up in
  Vector3.Dot (column D Matrix4x4.I0) (column D Matrix4x4.I1) = 0
  /\ Vector3.Dot (column D Matrix4x4.I0) (column D Matrix4x4.I2) = 0
  /\ Vector3.Dot (column D Matrix4x4.I1) (column D Matrix4x4.I2) = 0
  /\ (forall j : Matrix4x4.index,
        column P j
        = column (Matrix4x4.LookAtFromDirection (Vector3.minus to from) up) j).
Proof.
  intros column D P.
  split; [|split; [|split]].
  4: { intros j; destruct j; reflexivity. }
  all: subst column D; unfold Matrix4x4.LookAtFromDirection;
    destruct (Vector3_Normalized_parallel direction) as [k1 ->];
    match goal with |- context [Vector3.Normalized ?c] =>
      destruct (Vector3_Normalized_parallel c) as [k2 ->] end;
    destruct direction as [dx dy dz dw], up as [ux uy uz uw];
    cbv [Matrix4x4.get Matrix4x4.row Matrix4x4.of_16 Matrix4x4.r0 Matrix4x4.r1
         Matrix4x4.r2 Matrix4x4.r3 Vector4.x Vector4.y Vector4.z Vector4.w
         Vector3.of_xyz Vector3._mm_set_ps];
    vector3_unfold; real_ops; ring.
Qed.

End LookAtReal.

(** ** What the matrix to quaternion conversion ignores *)

Section ExtractionInvariance.
Import RealModel.
Local Open Scope R_scope.

Variable eps : R.
Hypothesis eps_nonneg : 0 <= eps.

#[local] Hint Extern 0 (Scalar R) => exact (R_Scalar eps) : typeclass_instances.

(** The first three components of a row, scaled, with any fourth one. *)
Lemma Magnitude_scaled_row (r : Vector4.t R) (k w' : R) :
  0 <= k ->
  Vector3.Magnitude
    (Vector3.of_Vector4
       (Vector4.mk (k * Vector4.x r) (k * Vector4.y r) (k * Vector4.z r) w'))
  = k * Vector3.Magnitude (Vector3.of_Vector4 r).
Proof.
  intros Hk. rewrite !(Vector3_Magnitude_real eps).
  destruct r as [x y z w].
  cbv [Vector3.of_Vector4 Vector3.of_xyz Vector3._mm_set_ps
       Vector3.x Vector3.y Vector3.z Vector4.x Vector4.y Vector4.z].
  replace (k * x * (k * x) + k * y * (k * y) + k * z * (k * z))
    with ((k * k) * (x * x + y * y + z * z)) by ring.
  rewrite sqrt_mult by nra. now rewrite sqrt_square.
Qed.

Lemma rescaled_scaled_row (r : Vector4.t R) (k w' : R) :
  0 < k -> 0 < Vector3.Magnitude (Vector3.of_Vector4 r) ->
  Vector3.times_float
    (Vector3.of_Vector4
       (Vector4.mk (k * Vector4.x r) (k * Vector4.y r) (k * Vector4.z r) w'))
    (1 / (k * Vector3.Magnitude (Vector3.of_Vector4 r)))
  = Vector3.times_float (Vector3.of_Vector4 r)
      (1 / Vector3.Magnitude (Vector3.of_Vector4 r)).
Proof.
  intros Hk Hm.
  set (m := Vector3.Magnitude (Vector3.of_Vector4 r)) in *.
  destruct r as [x y z w].
  cbv [Vector3.of_Vector4 Vector3.of_xyz Vector3._mm_set_ps
       Vector4.x Vector4.y Vector4.z].
  vector3_unfold. real_ops. f_equal; field; lra.
Qed.

(** When no axis is near zero, the constructor is a function of the three
    rescaled axes. *)
Lemma ctor_Matrix4x4_by_axes
  (XO_SSE XO_NO_INVERSE_DIVISION : bool) (M M' : Matrix4x4.t R)
  (this : Quaternion.t (option R)) :
  let s (m : Matrix4x4.t R) (r : Matrix4x4.t R -> Vector4.t R) :=
    Vector3.Magnitude (Vector3.of_Vector4 (r m)) in
  let axis (m : Matrix4x4.t R) (r : Matrix4x4.t R -> Vector4.t R) :=
    Vector3.times_float (Vector3.of_Vector4 (r m)) (1 / s m r) in
  eps < s M (@Matrix4x4.r0 R) -> eps < s M (@Matrix4x4.r1 R) ->
  eps < s M (@Matrix4x4.r2 R) ->
  eps < s M' (@Matrix4x4.r0 R) -> eps < s M' (@Matrix4x4.r1 R) ->
  eps < s M' (@Matrix4x4.r2 R) ->
  axis M' (@Matrix4x4.r0 R) = axis M (@Matrix4x4.r0 R) ->
  axis M' (@Matrix4x4.r1 R) = axis M (@Matrix4x4.r1 R) ->
  axis M' (@Matrix4x4.r2 R) = axis M (@Matrix4x4.r2 R) ->
  Quaternion.ctor_Matrix4x4 XO_SSE XO_NO_INVERSE_DIVISION M' this
  = Quaternion.ctor_Matrix4x4 XO_SSE XO_NO_INVERSE_DIVISION M this.
Proof.
  intros s axis H0 H1 H2 H0' H1' H2' E0 E1 E2. subst s axis. cbv beta in *.
  unfold Quaternion.ctor_Matrix4x4.
  cbn [Vector3.x Vector3.y Vector3.z Vector3.of_xyz Vector3._mm_set_ps].
  real_ops. real_cmp. cbn [orb].
  destruct XO_SSE, XO_NO_INVERSE_DIVISION;
    cbv [Quaternion._mm_rcp_ps Vector3._mm_div_ps Vector3._mm_set1_ps
         Vector3.lanewise];
    cbn [Vector3.x Vector3.y Vector3.z Vector3.w Vector3.of_xyz
         Vector3._mm_set_ps];
    real_ops; rewrite E0, E1, E2; reflexivity.
Qed.

End ExtractionInvariance.

Section ExtractionOfScale.
Import RealModel.
Local Open Scope R_scope.

Variable eps : R.
Hypothesis eps_nonneg : 0 <= eps.

#[local] Hint Extern 0 (Scalar R) => exact (R_Scalar eps) : typeclass_instances.

(** Rows scaled by positive factors, any fourth column and fourth row. *)
Lemma ctor_Matrix4x4_scaled_rows
  (XO_SSE XO_NO_INVERSE_DIVISION : bool) (M : Matrix4x4.t R)
  (k0 k1 k2 w0 w1 w2 : R) (r3' : Vector4.t R)
  (this : Quaternion.t (option R)) :
  let length (r : Vector4.t R) := Vector3.Magnitude (Vector3.of_Vector4 r) in
  let scaled (r : Vector4.t R) (k w' : R) :=
    Vector4.mk (k * Vector4.x r) (k * Vector4.y r) (k * Vector4.z r) w' in
  0 < k0 -> 0 < k1 -> 0 < k2 ->
  eps < length (Matrix4x4.r0 M) -> eps < length (Matrix4x4.r1 M) ->
  eps < length (Matrix4x4.r2 M) ->
  eps < k0 * length (Matrix4x4.r0 M) -> eps < k1 * length (Matrix4x4.r1 M) ->
  eps < k2 * length (Matrix4x4.r2 M) ->
  Quaternion.ctor_Matrix4x4 XO_SSE XO_NO_INVERSE_DIVISION
    (Matrix4x4.mk (scaled (Matrix4x4.r0 M) k0 w0) (scaled (Matrix4x4.r1 M) k1 w1)
                  (scaled (Matrix4x4.r2 M) k2 w2) r3') this
  = Quaternion.ctor_Matrix4x4 XO_SSE XO_NO_INVERSE_DIVISION M this.
Proof.
  intros length scaled Hk0 Hk1 Hk2 H0 H1 H2 H0' H1' H2'.
  subst length scaled. cbv beta in *.
  apply ctor_Matrix4x4_by_axes; cbv beta;
    cbn [Matrix4x4.r0 Matrix4x4.r1 Matrix4x4.r2];
    rewrite ?Magnitude_scaled_row by lra; try assumption;
    apply rescaled_scaled_row; lra.
Qed.

(** X18.  In exact arithmetic, in the builds that divide by the row lengths
    (the scalar build, and the SSE build with [XO_NO_INVERSE_DIVISION]),
    [Quaternion(M)] does not change when each of the first three rows of [M]
    is multiplied by a positive factor of its own, when the fourth column is
    replaced, or when the fourth row is replaced, as long as no row has a
    length at or below [FloatEpsilon] before or after: the conversion reads
    the directions of the three rows and nothing else.  The SSE build that
    takes the reciprocals by [_mm_rcp_ps] is left out: the instruction
    approximates, and its error depends on the row lengths. *)
Theorem Quaternion_of_Matrix_ignores_scale
  (XO_SSE XO_NO_INVERSE_DIVISION : bool) (M : Matrix4x4.t R)
  (k0 k1 k2 w0 w1 w2 : R) (r3' : Vector4.t R)
  (this : Quaternion.t (option R)) :
  let length (r : Vector4.t R) := Vector3.Magnitude (Vector3.of_Vector4 r) in
  let scaled (r : Vector4.t R) (k w' : R) :=
    Vector4.mk (k * Vector4.x r) (k * Vector4.y r) (k * Vector4.z r) w' in
  XO_SSE = false \/ XO_NO_INVERSE_DIVISION = true ->
  0 < k0 -> 0 < k1 -> 0 < k2 ->
  eps < length (Matrix4x4.r0 M) -> eps < length (Matrix4x4.r1 M) ->
  eps < length (Matrix4x4.r2 M) ->
  eps < k0 * length (Matrix4x4.r0 M) -> eps < k1 * length (Matrix4x4.r1 M) ->
  eps < k2 * length (Matrix4x4.r2 M) ->
  Quaternion.ctor_Matrix4x4 XO_SSE XO_NO_INVERSE_DIVISION
    (Matrix4x4.mk (scaled (Matrix4x4.r0 M) k0 w0) (scaled (Matrix4x4.r1 M) k1 w1)
                  (scaled (Matrix4x4.r2 M) k2 w2) r3') this
  = Quaternion.ctor_Matrix4x4 XO_SSE XO_NO_INVERSE_DIVISION M this.
Proof.
  intros length scaled Hbuild. subst length scaled. cbv beta.
  destruct Hbuild as [-> | ->]; apply ctor_Matrix4x4_scaled_rows.
Qed.

Lemma ctor_Matrix4x4_identity_matrix
  (XO_SSE XO_NO_INVERSE_DIVISION : bool) (this : Quaternion.t (option R)) :
  eps < 1 ->
  Quaternion.ctor_Matrix4x4 XO_SSE XO_NO_INVERSE_DIVISION
    (Matrix4x4.of_16 1 0 0 0  0 1 0 0  0 0 1 0  0 0 0 1) this
  = Quaternion.defined (Quaternion.mk 0 0 0 1).
Proof.
  intros He.
  assert (HI : Matrix4x4.of_16 1 0 0 0  0 1 0 0  0 0 1 0  0 0 0 1
               = Matrix4x4.of_Quaternion (Quaternion.mk 0 0 0 1)).
  { cbv [Matrix4x4.of_Quaternion Matrix4x4.of_16 Vector4.plus Vector4.times
         Vector4.times_float Vector4.UnitW Quaternion.mk
         Vector4.x Vector4.y Vector4.z Vector4.w].
    real_ops. f_equal; f_equal; ring. }
  rewrite HI.
  rewrite (@round_trip_trace_branch eps); [reflexivity | exact He | |].
  - unfold unit_quaternion; cbn. ring.
  - cbn. lra.
Qed.

Lemma Magnitude_axis_row (a b c d : R) :
  Vector3.Magnitude (Vector3.of_Vector4 (Vector4.mk a b c d))
  = sqrt (a * a + b * b + c * c).
Proof. rewrite (Vector3_Magnitude_real eps). reflexivity. Qed.

Lemma sqrt_square_only (a : R) : 0 <= a -> sqrt (a * a + 0 * 0 + 0 * 0) = a.
Proof.
  intros H. replace (a * a + 0 * 0 + 0 * 0) with (a * a) by ring.
  now apply sqrt_square.
Qed.

(** X19.  In exact arithmetic the quaternion of a scale matrix is the
    identity quaternion [(0, 0, 0, 1)]: in the builds that divide by the row
    lengths (the scalar build, and the SSE build with
    [XO_NO_INVERSE_DIVISION]) when the three factors are above
    [FloatEpsilon], and in the scalar build for all factors that are not
    negative.  The SSE build that takes the reciprocals by [_mm_rcp_ps] is
    left out: with the approximation of the instruction the result is only
    near the identity. *)
Theorem Quaternion_of_Scale_is_identity (He : eps < 1) (x y z : R)
  (XO_SSE XO_NO_INVERSE_DIVISION : bool) (this : Quaternion.t (option R)) :
  (XO_SSE = false \/ XO_NO_INVERSE_DIVISION = true ->
   eps < x -> eps < y -> eps < z ->
     Quaternion.ctor_Matrix4x4 XO_SSE XO_NO_INVERSE_DIVISION
       (Matrix4x4.Scale x y z) this
     = Quaternion.defined Quaternion.Identity)
  /\ (0 <= x -> 0 <= y -> 0 <= z ->
     Quaternion.ctor_Matrix4x4 false XO_NO_INVERSE_DIVISION
       (Matrix4x4.Scale x y z) this
     = Quaternion.defined Quaternion.Identity)
  /\ Matrix4x4.Scale_uniform x = Matrix4x4.Scale x x x
  /\ Matrix4x4.Scale_Vector3 (Vector3.of_xyz x y z) = Matrix4x4.Scale x y z.
Proof.
  assert (Hgen : forall sse, eps < x -> eps < y -> eps < z ->
            Quaternion.ctor_Matrix4x4 sse XO_NO_INVERSE_DIVISION
              (Matrix4x4.Scale x y z) this
            = Quaternion.defined Quaternion.Identity).
  { intros sse Hx Hy Hz.
    set (I := Matrix4x4.of_16 1 0 0 0  0 1 0 0  0 0 1 0  0 0 0 1).
    assert (HS : Matrix4x4.Scale x y z
                 = Matrix4x4.mk
                     (Vector4.mk (x * Vector4.x (Matrix4x4.r0 I))
                        (x * Vector4.y (Matrix4x4.r0 I))
                        (x * Vector4.z (Matrix4x4.r0 I)) 0)
                     (Vector4.mk (y * Vector4.x (Matrix4x4.r1 I))
                        (y * Vector4.y (Matrix4x4.r1 I))
                        (y * Vector4.z (Matrix4x4.r1 I)) 0)
                     (Vector4.mk (z * Vector4.x (Matrix4x4.r2 I))
                        (z * Vector4.y (Matrix4x4.r2 I))
                        (z * Vector4.z (Matrix4x4.r2 I)) 0)
                     (Vector4.mk 0 0 0 1)).
    { unfold I. cbv [Matrix4x4.Scale Matrix4x4.of_16 Matrix4x4.r0 Matrix4x4.r1
                     Matrix4x4.r2 Vector4.x Vector4.y Vector4.z].
      real_ops. f_equal; f_equal; ring. }
    rewrite HS.
    assert (L0 : Vector3.Magnitude (Vector3.of_Vector4 (Matrix4x4.r0 I)) = 1).
    { unfold I; cbn [Matrix4x4.r0 Matrix4x4.of_16].
      rewrite Magnitude_axis_row, sqrt_square_only; lra. }
    assert (L1 : Vector3.Magnitude (Vector3.of_Vector4 (Matrix4x4.r1 I)) = 1).
    { unfold I; cbn [Matrix4x4.r1 Matrix4x4.of_16].
      rewrite Magnitude_axis_row.
      replace (0 * 0 + 1 * 1 + 0 * 0) with 1 by ring. apply sqrt_1. }
    assert (L2 : Vector3.Magnitude (Vector3.of_Vector4 (Matrix4x4.r2 I)) = 1).
    { unfold I; cbn [Matrix4x4.r2 Matrix4x4.of_16].
      rewrite Magnitude_axis_row.
      replace (0 * 0 + 0 * 0 + 1 * 1) with 1 by ring. apply sqrt_1. }
    rewrite ctor_Matrix4x4_scaled_rows; rewrite ?L0, ?L1, ?L2; try lra.
    unfold I. now apply ctor_Matrix4x4_identity_matrix. }
  repeat apply conj; try reflexivity.
  - intros _. apply Hgen.
  - intros Hx Hy Hz.
    destruct (Rle_lt_dec x eps) as [Dx | Dx];
      [|destruct (Rle_lt_dec y eps) as [Dy | Dy];
        [|destruct (Rle_lt_dec z eps) as [Dz | Dz]; [|now apply Hgen]]].
    all: rewrite ctor_Matrix4x4_near_zero_axis; [reflexivity|];
      cbn [Matrix4x4.Scale Matrix4x4.of_16 Matrix4x4.r0 Matrix4x4.r1
           Matrix4x4.r2];
      rewrite !Magnitude_axis_row; real_ops.
    + rewrite sqrt_square_only by lra. now rewrite (Rleb_true Dx).
    + replace (0 * 0 + y * y + 0 * 0) with (y * y) by ring.
      rewrite (sqrt_square y) by lra.
      now rewrite (Rleb_true Dy), orb_true_r.
    + replace (0 * 0 + 0 * 0 + z * z) with (z * z) by ring.
      rewrite (sqrt_square z) by lra.
      now rewrite (Rleb_true Dz), orb_true_r.
Qed.

End ExtractionOfScale.

(** ** Axis and angle of a quaternion *)

Section AxisAngleOfQuaternion.
Import RealModel.
Local Open Scope R_scope.

Variable eps : R.
Hypothesis eps_nonneg : 0 <= eps.

#[local] Hint Extern 0 (Scalar R) => exact (R_Scalar eps) : typeclass_instances.
#[local] Hint Extern 0 (Libm R) => exact R_Libm : typeclass_instances.



(** X21.  In exact arithmetic [Quaternion::Lerp] is the plain interpolation:
    for all quaternions [a] and [b] it returns [a] at 0 and [b] at 1, with no
    snapping near the ends.  Between two quaternions of square sum 1 the
    result has the square sum [1 - 2 t (1 - t) (1 - a.b)], which is below 1
    strictly inside the interval unless the dot product [a.b] is 1: the
    result is not renormalized. *)
Theorem Quaternion_Lerp_square_sum
  (XO_SSE : bool) (a b : Quaternion.t R) (t0 : R) :
  let d := Quaternion.x a * Quaternion.x b + Quaternion.y a * Quaternion.y b
           + Quaternion.z a * Quaternion.z b + Quaternion.w a * Quaternion.w b in
  Quaternion.Lerp a b 0 = a
  /\ Quaternion.Lerp a b 1 = b
  /\ (unit_quaternion a -> unit_quaternion b ->
      Quaternion.QuaternionSquareSum XO_SSE (Quaternion.Lerp a b t0)
      = 1 - 2 * t0 * (1 - t0) * (1 - d)
      /\ (0 < t0 < 1 -> d < 1 ->
          Quaternion.QuaternionSquareSum XO_SSE (Quaternion.Lerp a b t0) < 1)).
Proof.
  intros d.
  split; [|split].
  - destruct a, b.
    cbv [Quaternion.Lerp Vector4.plus Vector4.minus Vector4.times_float
         Vector4.x Vector4.y Vector4.z Vector4.w].
    real_ops. f_equal; ring.
  - destruct a, b.
    cbv [Quaternion.Lerp Vector4.plus Vector4.minus Vector4.times_float
         Vector4.x Vector4.y Vector4.z Vector4.w].
    real_ops. f_equal; ring.
  - intros Ha Hb.
    assert (Hs : Quaternion.QuaternionSquareSum XO_SSE (Quaternion.Lerp a b t0)
                 = 1 - 2 * t0 * (1 - t0) * (1 - d)).
    { rewrite (@QuaternionSquareSum_real eps). subst d.
      destruct a as [ax ay az aw], b as [bx b_y bz bw].
      unfold unit_quaternion in *.
      cbv [Quaternion.Lerp Vector4.plus Vector4.minus Vector4.times_float
           Quaternion.x Quaternion.y Quaternion.z Quaternion.w
           Vector4.x Vector4.y Vector4.z Vector4.w] in *.
      real_ops.
      set (A := ax * ax + ay * ay + az * az + aw * aw) in *.
      set (B := bx * bx + b_y * b_y + bz * bz + bw * bw) in *.
      match goal with |- ?l = _ =>
        replace l with
          ((1 - t0) * (1 - t0) * A + t0 * t0 * B
           + 2 * t0 * (1 - t0) * (ax * bx + ay * b_y + az * bz + aw * bw))
          by (unfold A, B; ring) end.
      rewrite Ha, Hb. ring. }
    split; [exact Hs|].
    intros Ht Hd. rewrite Hs.
    assert (0 < t0 * (1 - t0) * (1 - d)).
    { apply Rmult_lt_0_compat; [apply Rmult_lt_0_compat|]; lra. }
    lra.
Qed.

End AxisAngleOfQuaternion.

(** ** Products of the factory matrices *)

Section ProductsReal.
Import RealModel.
Local Open Scope R_scope.

Variable eps : R.

#[local] Hint Extern 0 (Scalar R) => exact (R_Scalar eps) : typeclass_instances.
#[local] Hint Extern 0 (Libm R) => exact R_Libm : typeclass_instances.

(** X22.  In exact arithmetic, with the row-times-column product: two
    rotations about the same coordinate axis multiply to the rotation by the
    sum of the angles, and a rotation times its transpose, in both builds, is
    the identity matrix, for [RotationXRadians], [RotationYRadians] and
    [RotationZRadians]. *)
Theorem rotations_about_one_axis_compose (XO_SSE : bool) (a b : R) :
  let I : Matrix4x4.t R := Matrix4x4.of_16 1 0 0 0  0 1 0 0  0 0 1 0  0 0 0 1 in
  Matrix4x4.times (Matrix4x4.RotationXRadians a) (Matrix4x4.RotationXRadians b)
    = Matrix4x4.RotationXRadians (a + b)
  /\ Matrix4x4.times (Matrix4x4.RotationYRadians a)
       (Matrix4x4.RotationYRadians b)
    = Matrix4x4.RotationYRadians (a + b)
  /\ Matrix4x4.times (Matrix4x4.RotationZRadians a)
       (Matrix4x4.RotationZRadians b)
    = Matrix4x4.RotationZRadians (a + b)
  /\ Matrix4x4.times (Matrix4x4.RotationXRadians a)
       (Matrix4x4.Transpose XO_SSE (Matrix4x4.RotationXRadians a)) = I
  /\ Matrix4x4.times (Matrix4x4.RotationYRadians a)
       (Matrix4x4.Transpose XO_SSE (Matrix4x4.RotationYRadians a)) = I
  /\ Matrix4x4.times (Matrix4x4.RotationZRadians a)
       (Matrix4x4.Transpose XO_SSE (Matrix4x4.RotationZRadians a)) = I.
Proof.
  intros I. subst I.
  pose proof (sin2_cos2 a) as Hsc. unfold Rsqr in Hsc.
  destruct XO_SSE; rotation_unfold; real_ops;
    rewrite !cos_plus, !sin_plus;
    set (sa := sin a) in *; set (ca := cos a) in *;
    set (sb := sin b); set (cb := cos b);
    repeat apply conj; f_equal; f_equal; nra.
Qed.

(** X23.  In exact arithmetic, with the row-times-column product: two
    translations multiply to the translation by the sum, and a translation
    times the opposite one to the translation by 0; two scales multiply to
    the scale by the products; the translation by 0 and the scale by 1 are
    the same matrix; and [Translation] writes its arguments into the fourth
    column, so that [Transpose] of it, in both builds, has them in the
    fourth row. *)
Theorem Translation_Scale_compose (XO_SSE : bool) (x y z x' y' z' : R) :
  Matrix4x4.times (Matrix4x4.Translation x y z) (Matrix4x4.Translation x' y' z')
    = Matrix4x4.Translation (x + x') (y + y') (z + z')
  /\ Matrix4x4.times (Matrix4x4.Scale x y z) (Matrix4x4.Scale x' y' z')
    = Matrix4x4.Scale (x * x') (y * y') (z * z')
  /\ Matrix4x4.Translation 0 0 0 = Matrix4x4.Scale 1 1 1
  /\ Matrix4x4.r3 (Matrix4x4.Transpose XO_SSE (Matrix4x4.Translation x y z))
     = Vector4.mk x y z 1
  /\ Matrix4x4.times (Matrix4x4.Translation x y z)
       (Matrix4x4.Translation (- x) (- y) (- z))
     = Matrix4x4.Translation 0 0 0.
Proof.
  destruct XO_SSE;
    cbv [Matrix4x4.Translation Matrix4x4.Scale]; rotation_unfold; real_ops;
    repeat apply conj; f_equal; f_equal; ring.
Qed.

(** X24.  In exact arithmetic, when [n] is not 0, the fourth row of the
    perspective matrix is [(0, 0, f, 1)]: the entry written [-n*(f/-n)] is
    [f], and the near plane enters the matrix only through [f/(f-n)]; the
    degree variant is the radian one on the converted angles. *)
Theorem PerspectiveProjection_fourth_row (fovx fovy n f : R) :
  n <> 0 ->
  Matrix4x4.r3 (Diag.value (Matrix4x4.PerspectiveProjectionRadians fovx fovy n f))
    = Vector4.mk 0 0 f 1
  /\ Matrix4x4.r2 (Diag.value (Matrix4x4.PerspectiveProjectionRadians fovx fovy n f))
    = Vector4.mk 0 0 (f / (f - n)) 1
  /\ Matrix4x4.PerspectiveProjectionDegrees fovx fovy n f
    = Matrix4x4.PerspectiveProjectionRadians
        (fovx * (PI / 180)) (fovy * (PI / 180)) n f.
Proof.
  intros Hn.
  unfold Matrix4x4.PerspectiveProjectionDegrees,
    Matrix4x4.PerspectiveProjectionRadians.
  real_ops.
  destruct (negb (Reqb n f));
    cbn [Diag.XO_ASSERT Diag.bind Diag.ret Diag.value snd app
         Matrix4x4.r2 Matrix4x4.r3 Matrix4x4.of_16];
    repeat apply conj; try reflexivity; f_equal; field; exact Hn.
Qed.

End ProductsReal.

(** ** Distances *)

Section DistanceReal.
Import RealModel.
Local Open Scope R_scope.

Variable eps : R.

#[local] Hint Extern 0 (Scalar R) => exact (R_Scalar eps) : typeclass_instances.

Lemma Vector3_DistanceSquared_real (a b : Vector3.t R) :
  Vector3.DistanceSquared a b
  = (Vector3.x a - Vector3.x b) * (Vector3.x a - Vector3.x b)
    + (Vector3.y a - Vector3.y b) * (Vector3.y a - Vector3.y b)
    + (Vector3.z a - Vector3.z b) * (Vector3.z a - Vector3.z b).
Proof. destruct a, b; vector3_unfold; real_ops; ring. Qed.

(** X25.  In exact arithmetic [Vector3::Distance] is symmetric and never
    negative, its square is [DistanceSquared], it is 0 exactly when the two
    vectors agree in x, y and z, and the fourth lane of the registers, which
    [a - b] carries along, has no part in it. *)
Theorem Vector3_Distance_metric (a b : Vector3.t R) :
  Vector3.Distance a b = Vector3.Distance b a
  /\ 0 <= Vector3.Distance a b
  /\ Vector3.Distance a b * Vector3.Distance a b = Vector3.DistanceSquared a b
  /\ (Vector3.Distance a b = 0 <->
      Vector3.x a = Vector3.x b /\ Vector3.y a = Vector3.y b
      /\ Vector3.z a = Vector3.z b)
  /\ (forall wa wb : R,
        Vector3.Distance
          (Vector3.mk (Vector3.x a) (Vector3.y a) (Vector3.z a) wa)
          (Vector3.mk (Vector3.x b) (Vector3.y b) (Vector3.z b) wb)
        = Vector3.Distance a b).
Proof.
  assert (HD : forall u v : Vector3.t R,
            Vector3.Distance u v = sqrt (Vector3.DistanceSquared u v))
    by reflexivity.
  assert (Hn : 0 <= Vector3.DistanceSquared a b).
  { rewrite Vector3_DistanceSquared_real.
    repeat apply Rplus_le_le_0_compat; apply Rle_0_sqr. }
  repeat apply conj.
  - rewrite !HD, !Vector3_DistanceSquared_real. f_equal. ring.
  - rewrite HD. apply sqrt_pos.
  - rewrite HD. now apply sqrt_sqrt.
  - rewrite HD. intros H0. apply sqrt_eq_0 in H0; [|exact Hn].
    rewrite Vector3_DistanceSquared_real in H0.
    set (dx := Vector3.x a - Vector3.x b) in *.
    set (dy := Vector3.y a - Vector3.y b) in *.
    set (dz := Vector3.z a - Vector3.z b) in *.
    assert (Hx : dx * dx = 0) by nra.
    assert (Hy : dy * dy = 0) by nra.
    assert (Hz : dz * dz = 0) by nra.
    apply Rsqr_0_uniq in Hx, Hy, Hz. unfold dx, dy, dz in *.
    repeat apply conj; lra.
  - intros (Hx & Hy & Hz). rewrite HD, Vector3_DistanceSquared_real.
    rewrite Hx, Hy, Hz.
    match goal with |- sqrt ?e = 0 => replace e with 0 by ring end.
    apply sqrt_0.
  - intros wa wb. rewrite !HD, !Vector3_DistanceSquared_real. reflexivity.
Qed.

End DistanceReal.

(** ** The further properties at [FloatEpsilon = 2^-23] *)

Section FurtherWitnesses.
Import RealModel.
Local Open Scope R_scope.

#[local] Hint Extern 0 (Scalar R) =>
  exact (R_Scalar FLT_EPSILON) : typeclass_instances.
#[local] Hint Extern 0 (Libm R) => exact R_Libm : typeclass_instances.

Lemma FLT_EPSILON_nonneg : 0 <= FLT_EPSILON.
Proof. unfold FLT_EPSILON; lra. Qed.

Lemma FLT_EPSILON_small : FLT_EPSILON < / 3.
Proof. unfold FLT_EPSILON; lra. Qed.

Lemma FLT_EPSILON_below_1 : FLT_EPSILON < 1.
Proof. unfold FLT_EPSILON; lra. Qed.

(** X6 at the vector [(3, 4)]. *)
Lemma Vector2_Normalize_idempotent_witness :
  0 <= FLT_EPSILON
  /\ Vector2.Normalize (Vector2.Normalize (Vector2.mk 3 4))
     = Vector2.Normalize (Vector2.mk 3 4).
Proof.
  split; [exact FLT_EPSILON_nonneg|].
  destruct (Vector2_Normalize_idempotent FLT_EPSILON_nonneg (Vector2.mk 3 4))
    as (H & _).
  exact H.
Defined.

(** X7 at the vector [(3, 0, 4)]. *)
Lemma Vector3_Normalized_idempotent_witness :
  0 <= FLT_EPSILON /\ FLT_EPSILON < / 3
  /\ Vector3.Normalized (Vector3.Normalized (Vector3.of_xyz 3 0 4))
     = Vector3.Normalized (Vector3.of_xyz 3 0 4).
Proof.
  split; [exact FLT_EPSILON_nonneg|]. split; [exact FLT_EPSILON_small|].
  destruct (Vector3_Normalized_idempotent FLT_EPSILON_nonneg
              FLT_EPSILON_small (Vector3.of_xyz 3 0 4)) as (H & _).
  exact H.
Defined.

(** X8 at the quaternion [(0, 3, 0, 4)]. *)
Lemma Quaternion_Normalize_idempotent_witness :
  0 <= FLT_EPSILON
  /\ Quaternion.Normalize false
       (Quaternion.Normalize false (Quaternion.mk 0 3 0 4))
     = Quaternion.Normalize false (Quaternion.mk 0 3 0 4).
Proof.
  split; [exact FLT_EPSILON_nonneg|].
  destruct (Quaternion_Normalize_idempotent FLT_EPSILON_nonneg false
              (Quaternion.mk 0 3 0 4)) as (_ & _ & _ & H & _).
  exact H.
Defined.

Lemma QuaternionSquareSum_3_4 :
  Quaternion.QuaternionSquareSum false (Quaternion.mk 0 (3 / 5) 0 (4 / 5)) = 1.
Proof. rewrite (@QuaternionSquareSum_real FLT_EPSILON). cbn. lra. Qed.

Lemma QuaternionSquareSum_0 :
  Quaternion.QuaternionSquareSum false (Quaternion.mk 0 0 0 0) = 0.
Proof. rewrite (@QuaternionSquareSum_real FLT_EPSILON). cbn. lra. Qed.

Lemma QuaternionSquareSum_0_3_0_4 :
  Quaternion.QuaternionSquareSum false (Quaternion.mk 0 3 0 4) = 25.
Proof. rewrite (@QuaternionSquareSum_real FLT_EPSILON). cbn. lra. Qed.

Lemma Quaternion_Epsilon_value : Quaternion.Epsilon = FLT_EPSILON * 4.
Proof. reflexivity. Qed.

(** X9 in its three cases, in the scalar build: at [(0, 3/5, 0, 4/5)], of
    square sum 1, at the zero quaternion, and at [(0, 3, 0, 4)], of square
    sum 25. *)
Lemma Quaternion_Inverse_cases_witness :
  let u : Quaternion.t R := Quaternion.mk 0 (3 / 5) 0 (4 / 5) in
  let o : Quaternion.t R := Quaternion.mk 0 0 0 0 in
  let p : Quaternion.t R := Quaternion.mk 0 3 0 4 in
  0 <= FLT_EPSILON
  /\ Quaternion.Inverse false u = Quaternion.Conjugate u
  /\ Quaternion.Inverse false (Quaternion.Inverse false u) = u
  /\ Quaternion.Inverse false o = o
  /\ Quaternion.QuaternionSquareSum false p = 25
  /\ Quaternion.Inverse false p
     = Vector4.div_float (Quaternion.Conjugate p) 25
  /\ Quaternion.QuaternionSquareSum false (Quaternion.Inverse false p)
     = 1 / 25.
Proof.
  intros u o p.
  pose proof FLT_EPSILON_nonneg as H0.
  assert (He : FLT_EPSILON * 4 < / 2) by (unfold FLT_EPSILON; lra).
  split; [exact H0|].
  pose proof (Quaternion_Inverse_cases H0 false u) as Hu.
  pose proof (Quaternion_Inverse_cases H0 false o) as Ho.
  pose proof (Quaternion_Inverse_cases H0 false p) as Hp.
  cbv zeta in Hu, Ho, Hp. unfold u in Hu. unfold o in Ho. unfold p in Hp.
  rewrite QuaternionSquareSum_3_4 in Hu.
  rewrite QuaternionSquareSum_0 in Ho.
  rewrite QuaternionSquareSum_0_3_0_4 in Hp.
  rewrite Quaternion_Epsilon_value in Hu, Ho, Hp.
  destruct Hu as (Hu & _). destruct Ho as (_ & Ho & _).
  destruct Hp as (_ & _ & Hp).
  assert (A1 : Rabs (1 - 1) <= FLT_EPSILON * 4).
  { replace (1 - 1) with 0 by lra. rewrite Rabs_R0. lra. }
  assert (A2 : FLT_EPSILON * 4 < Rabs (0 - 1)).
  { replace (0 - 1) with (- (1)) by lra.
    rewrite Rabs_Ropp, Rabs_pos_eq; lra. }
  assert (A3 : Rabs (0 - 0) <= FLT_EPSILON * 4).
  { replace (0 - 0) with 0 by lra. rewrite Rabs_R0. lra. }
  assert (A4 : FLT_EPSILON * 4 < Rabs (25 - 1)).
  { rewrite Rabs_pos_eq; lra. }
  assert (A5 : FLT_EPSILON * 4 < Rabs (25 - 0)).
  { rewrite Rabs_pos_eq; lra. }
  destruct (Hu A1) as (Hu1 & Hu2). destruct (Hp A4 A5) as (Hp1 & Hp2).
  split; [exact Hu1|]. split; [exact Hu2|]. split; [exact (Ho A2 A3)|].
  split; [exact QuaternionSquareSum_0_3_0_4|].
  split; [exact Hp1 | exact Hp2].
Defined.

Lemma unit_quaternion_3_4 : unit_quaternion (Quaternion.mk 0 (3 / 5) 0 (4 / 5)).
Proof. unfold unit_quaternion; cbn. lra. Qed.

(** X16 at the unit quaternion [(0, 3/5, 0, 4/5)]. *)
Lemma of_Quaternion_orthonormal_witness :
  unit_quaternion (Quaternion.mk 0 (3 / 5) 0 (4 / 5))
  /\ Vector3.Dot
       (Vector3.of_Vector4
          (Matrix4x4.r0
             (Matrix4x4.of_Quaternion (Quaternion.mk 0 (3 / 5) 0 (4 / 5)))))
       (Vector3.of_Vector4
          (Matrix4x4.r2
             (Matrix4x4.of_Quaternion (Quaternion.mk 0 (3 / 5) 0 (4 / 5)))))
     = 0.
Proof.
  split; [exact unit_quaternion_3_4|].
  pose proof (of_Quaternion_orthonormal FLT_EPSILON
                (Quaternion.mk 0 (3 / 5) 0 (4 / 5))) as H.
  cbv zeta in H. destruct H as (_ & _ & _ & _ & _ & H).
  destruct (H unit_quaternion_3_4) as (_ & _ & _ & _ & H02 & _).
  exact H02.
Defined.

Lemma identity_row_lengths :
  let I : Matrix4x4.t R := Matrix4x4.of_16 1 0 0 0  0 1 0 0  0 0 1 0  0 0 0 1 in
  Vector3.Magnitude (Vector3.of_Vector4 (Matrix4x4.r0 I)) = 1
  /\ Vector3.Magnitude (Vector3.of_Vector4 (Matrix4x4.r1 I)) = 1
  /\ Vector3.Magnitude (Vector3.of_Vector4 (Matrix4x4.r2 I)) = 1.
Proof.
  cbn [Matrix4x4.r0 Matrix4x4.r1 Matrix4x4.r2 Matrix4x4.of_16].
  rewrite !(Magnitude_axis_row FLT_EPSILON).
  replace (1 * 1 + 0 * 0 + 0 * 0) with 1 by ring.
  replace (0 * 0 + 1 * 1 + 0 * 0) with 1 by ring.
  replace (0 * 0 + 0 * 0 + 1 * 1) with 1 by ring.
  rewrite sqrt_1. repeat split.
Qed.

(** X18 at the identity matrix, with the rows multiplied by 2, 3 and 4, in
    the scalar build. *)
Lemma Quaternion_of_Matrix_ignores_scale_witness :
  let I : Matrix4x4.t R := Matrix4x4.of_16 1 0 0 0  0 1 0 0  0 0 1 0  0 0 0 1 in
  0 <= FLT_EPSILON
  /\ (false = false \/ false = true)
  /\ Quaternion.ctor_Matrix4x4 false false
       (Matrix4x4.mk (Vector4.mk (2 * 1) (2 * 0) (2 * 0) 5)
                     (Vector4.mk (3 * 0) (3 * 1) (3 * 0) 6)
                     (Vector4.mk (4 * 0) (4 * 0) (4 * 1) 7)
                     (Vector4.mk 8 9 10 11))
       Quaternion.indeterminate
     = Quaternion.ctor_Matrix4x4 false false I Quaternion.indeterminate.
Proof.
  intros I.
  destruct identity_row_lengths as (L0 & L1 & L2). fold I in L0, L1, L2.
  pose proof FLT_EPSILON_below_1 as He.
  split; [exact FLT_EPSILON_nonneg|].
  split; [left; reflexivity|].
  apply (@Quaternion_of_Matrix_ignores_scale FLT_EPSILON FLT_EPSILON_nonneg
           false false I 2 3 4 5 6 7 (Vector4.mk 8 9 10 11));
    [left; reflexivity | ..];
    cbv beta; rewrite ?L0, ?L1, ?L2; lra.
Defined.

(** X19 at the factors 2, 3 and 4, in the SSE build with
    [XO_NO_INVERSE_DIVISION], and at the factors 2, 0 and 4 in the scalar
    build. *)
Lemma Quaternion_of_Scale_is_identity_witness :
  0 <= FLT_EPSILON /\ FLT_EPSILON < 1
  /\ (true = false \/ true = true)
  /\ Quaternion.ctor_Matrix4x4 true true (Matrix4x4.Scale 2 3 4)
       Quaternion.indeterminate
     = Quaternion.defined Quaternion.Identity
  /\ Quaternion.ctor_Matrix4x4 false false (Matrix4x4.Scale 2 0 4)
       Quaternion.indeterminate
     = Quaternion.defined Quaternion.Identity.
Proof.
  pose proof FLT_EPSILON_below_1 as He.
  pose proof FLT_EPSILON_nonneg as H0.
  split; [exact H0|]. split; [exact He|].
  split; [right; reflexivity|].
  destruct (Quaternion_of_Scale_is_identity H0 He 2 3 4
              true true Quaternion.indeterminate) as (H & _).
  destruct (Quaternion_of_Scale_is_identity H0 He 2 0 4
              false false Quaternion.indeterminate) as (_ & H' & _).
  split; [apply H; [right; reflexivity | lra ..] | apply H'; lra].
Defined.

Lemma unit_quaternion_identity : unit_quaternion (Quaternion.mk 0 0 0 1).
Proof. unfold unit_quaternion; cbn. lra. Qed.


(** X21 half way between [(0, 3/5, 0, 4/5)] and the identity quaternion,
    whose dot product is 4/5: the square sum is 9/10. *)
Lemma Quaternion_Lerp_square_sum_witness :
  let a : Quaternion.t R := Quaternion.mk 0 (3 / 5) 0 (4 / 5) in
  let b : Quaternion.t R := Quaternion.mk 0 0 0 1 in
  unit_quaternion a /\ unit_quaternion b
  /\ Quaternion.Lerp a b 0 = a
  /\ Quaternion.QuaternionSquareSum false (Quaternion.Lerp a b (/ 2))
     = 1 - 2 * / 2 * (1 - / 2) * (1 - (0 * 0 + 3 / 5 * 0 + 0 * 0 + 4 / 5 * 1))
  /\ 1 - 2 * / 2 * (1 - / 2) * (1 - (0 * 0 + 3 / 5 * 0 + 0 * 0 + 4 / 5 * 1))
     = 9 / 10
  /\ Quaternion.QuaternionSquareSum false (Quaternion.Lerp a b (/ 2)) < 1.
Proof.
  intros a b.
  split; [exact unit_quaternion_3_4|]. split; [exact unit_quaternion_identity|].
  pose proof (Quaternion_Lerp_square_sum FLT_EPSILON false a b (/ 2)) as H.
  cbv zeta in H. destruct H as (H0 & _ & H).
  destruct (H unit_quaternion_3_4 unit_quaternion_identity) as (Hs & Hlt).
  split; [exact H0|]. split; [exact Hs|]. split; [lra|].
  apply Hlt; cbn; lra.
Defined.

(** X24 at near 1 and far 2. *)
Lemma PerspectiveProjection_fourth_row_witness :
  1 <> 0
  /\ Matrix4x4.r3
       (Diag.value (Matrix4x4.PerspectiveProjectionRadians 1 1 1 2))
     = Vector4.mk 0 0 2 1.
Proof.
  split; [exact R1_neq_R0|].
  destruct (PerspectiveProjection_fourth_row FLT_EPSILON 1 1 2 R1_neq_R0)
    as (H & _).
  exact H.
Defined.

End FurtherWitnesses.
